(** * Neighbourhood server: rooms, memberships, tasks and the message feed

    A shallow embedding of [models.py], [permissions.py], [utils.py] and the
    room, task and message endpoints of [main.py].

    Storage.  A table is the list of its rows in storage order; [db.add]
    appends a row, [db.delete] removes the row with the object's primary key,
    an attribute assignment followed by [db.commit] rewrites the row with
    that primary key.  [Query.first] is the first row (in storage order) that
    passes the filters, [Query.all] all of them, [Query.count] their number.
    Primary keys are handed out by the storage layer: every operation that
    inserts a row receives the new key as an argument, and the transition
    system only accepts keys that are not in use in the table.

    Failures.  An endpoint either returns a value or raises an
    [HTTPException] with a status code and a detail string.

    Transactions.  The reads and writes of a request up to a [db.commit] form
    one atomic transition of the system state.  Every endpoint commits at most
    once, except [create_room], which commits the room and then, in a second
    transaction, the owner membership.

    Columns that no endpoint logic reads ([created_at] of rooms, [joined_at],
    [updated_at], the user table, shopping items and cleaning schedules) are
    left out. *)

From Stdlib Require Import ZArith List String Ascii Bool Lia QArith.
From Stdlib Require Import Permutation Sorted.
Import ListNotations.
Local Open Scope string_scope.
Local Open Scope Z_scope.
Local Open Scope list_scope.

(** ** Results of endpoints *)

Record HTTPException := mkHTTPException { status_code : Z; detail : string }.

Inductive result (A : Type) : Type :=
| Ok (a : A)
| Raise (e : HTTPException).

Arguments Ok {A} a.
Arguments Raise {A} e.

Definition bind {A B : Type} (r : result A) (k : A -> result B) : result B :=
  match r with
  | Ok a => k a
  | Raise e => Raise e
  end.

Notation "x <- c ;; k" := (bind c (fun x => k))
  (at level 61, c at next level, right associativity).

Definition HTTP (code : Z) (msg : string) : HTTPException :=
  mkHTTPException code msg.

(** ** models.py *)

Module Models.

Inductive UserRole : Type := OWNER | ADMIN | MEMBER.

Definition UserRole_eqb (a b : UserRole) : bool :=
  match a, b with
  | OWNER, OWNER | ADMIN, ADMIN | MEMBER, MEMBER => true
  | _, _ => false
  end.

Record Room := mkRoom {
  Room_id : Z;
  Room_name : string;
  Room_code : string;
  Room_created_by : Z
}.

Record RoomMember := mkRoomMember {
  rm_id : Z;
  rm_room_id : Z;
  rm_user_id : Z;
  rm_role : UserRole;
  rm_is_banned : bool
}.

(** Every column of a task that [TaskUpdate] can assign may be set to
    [None] by an explicit null in the request body. *)
Record Task := mkTask {
  task_id : Z;
  task_room_id : Z;
  task_title : option string;
  task_description : option string;
  task_assignee_id : option Z;
  task_completed : option bool
}.

Record Message := mkMessage {
  msg_id : Z;
  msg_room_id : Z;
  msg_sender_id : Z;
  msg_content : string;
  msg_created_at : Z
}.

Record DB := mkDB {
  rooms : list Room;
  room_members : list RoomMember;
  tasks : list Task;
  messages : list Message
}.

Definition empty_db : DB := mkDB [] [] [] [].

End Models.
Import Models.

(** ** The query layer *)

Module Query.

Definition first {A : Type} (p : A -> bool) (rows : list A) : option A :=
  find p rows.

Definition all {A : Type} (p : A -> bool) (rows : list A) : list A :=
  filter p rows.

Definition count {A : Type} (p : A -> bool) (rows : list A) : Z :=
  Z.of_nat (List.length (filter p rows)).

(** [db.delete(obj)]: the row whose primary key is [k] goes. *)
Definition delete {A : Type} (key : A -> Z) (k : Z) (rows : list A) : list A :=
  filter (fun x => negb (key x =? k)) rows.

(** An assignment to attributes of a loaded object, then [db.commit()]. *)
Definition update {A : Type} (key : A -> Z) (k : Z) (f : A -> A)
    (rows : list A) : list A :=
  map (fun x => if key x =? k then f x else x) rows.

(** [order_by(col.asc())] and [order_by(col.desc())]: a stable insertion
    sort on the column, so rows with equal keys stay in storage order. *)
Fixpoint insert_asc {A : Type} (key : A -> Z) (x : A) (l : list A) : list A :=
  match l with
  | [] => [x]
  | y :: l' => if key x <=? key y then x :: l else y :: insert_asc key x l'
  end.

Fixpoint order_by_asc {A : Type} (key : A -> Z) (l : list A) : list A :=
  match l with
  | [] => []
  | x :: l' => insert_asc key x (order_by_asc key l')
  end.

Fixpoint insert_desc {A : Type} (key : A -> Z) (x : A) (l : list A) : list A :=
  match l with
  | [] => [x]
  | y :: l' => if key y <=? key x then x :: l else y :: insert_desc key x l'
  end.

Fixpoint order_by_desc {A : Type} (key : A -> Z) (l : list A) : list A :=
  match l with
  | [] => []
  | x :: l' => insert_desc key x (order_by_desc key l')
  end.

(** [limit(n)] for [0 <= n].  A negative [n] is left to the backend by
    SQLAlchemy and is outside this model. *)
Definition limit {A : Type} (n : Z) (l : list A) : list A :=
  firstn (Z.to_nat n) l.

End Query.

(** ** permissions.py *)

Module Permissions.

Definition is_membership (user_id room_id : Z) (m : RoomMember) : bool :=
  (rm_user_id m =? user_id) && (rm_room_id m =? room_id).

Definition get_user_room_role (db : DB) (user_id room_id : Z)
    : result (option UserRole) :=
  match Query.first (is_membership user_id room_id) (room_members db) with
  | None => Ok None
  | Some membership =>
      if rm_is_banned membership
      then Raise (HTTP 403 "You are banned from this room")
      else Ok (Some (rm_role membership))
  end.

Definition check_room_access (db : DB) (user_id room_id : Z)
    : result UserRole :=
  role <- get_user_room_role db user_id room_id ;;
  match role with
  | None => Raise (HTTP 403 "You are not a member of this room")
  | Some r => Ok r
  end.

Definition check_admin_access (db : DB) (user_id room_id : Z)
    : result UserRole :=
  role <- check_room_access db user_id room_id ;;
  match role with
  | OWNER | ADMIN => Ok role
  | MEMBER => Raise (HTTP 403 "Admin rights required")
  end.

Definition check_owner_access (db : DB) (user_id room_id : Z)
    : result UserRole :=
  role <- check_room_access db user_id room_id ;;
  if negb (UserRole_eqb role OWNER)
  then Raise (HTTP 403 "Owner rights required")
  else Ok role.

End Permissions.
Import Permissions.

(** ** utils.py *)

Module Utils.

(** [string.ascii_uppercase + string.digits] *)
Definition alphabet : list ascii :=
  list_ascii_of_string "ABCDEFGHIJKLMNOPQRSTUVWXYZ0123456789".

(** The random source is a sequence [rng] of naturals; the [i]-th call of
    the generator picks the element of the population at index
    [rng i mod n], as [random.choices] does with [floor(random() * n)].
    [random_choices pop k pos] makes [k] picks starting at call [pos]. *)
Definition random_choices (rng : nat -> nat) (population : list ascii)
    (k : nat) (pos : nat) : list ascii :=
  map (fun i => nth (rng (pos + i)%nat mod List.length population)%nat
                    population "000"%char)
      (seq 0 k).

Definition candidate (rng : nat -> nat) (len : Z) (pos : nat) : string :=
  string_of_list_ascii (random_choices rng alphabet (Z.to_nat len) pos).

Definition code_taken (db : DB) (code : string) : bool :=
  match Query.first (fun r => String.eqb (Room_code r) code) (rooms db) with
  | Some _ => true
  | None => false
  end.

(** The [while True] loop, run for at most [fuel] rounds; [None] means the
    loop is still running after that many rounds. *)
Fixpoint generate_room_code_from (fuel : nat) (rng : nat -> nat) (db : DB)
    (len : Z) (pos : nat) : option string :=
  match fuel with
  | O => None
  | S fuel' =>
      let code := candidate rng len pos in
      if code_taken db code
      then generate_room_code_from fuel' rng db len (pos + Z.to_nat len)
      else Some code
  end.

Definition generate_room_code (fuel : nat) (rng : nat -> nat) (db : DB)
    (len : Z) : option string :=
  generate_room_code_from fuel rng db len 0.

Definition default_length : Z := 6.

End Utils.
Import Utils.

(** ** main.py *)

Module Main.

Record RoomResponse := mkRoomResponse {
  resp_id : Z;
  resp_name : string;
  resp_code : string;
  resp_created_by : Z;
  resp_member_count : Z
}.

Record TaskCreate := mkTaskCreate {
  tc_title : string;
  tc_description : option string;
  tc_assignee_id : Z
}.

(** A field of [TaskUpdate] is unset ([None]) or set, possibly to null
    ([Some None]); [dict(exclude_unset=True)] keeps the set ones. *)
Record TaskUpdate := mkTaskUpdate {
  tu_title : option (option string);
  tu_description : option (option string);
  tu_assignee_id : option (option Z);
  tu_completed : option (option bool)
}.

(** [str.upper] on ASCII text: the letters a-z go to A-Z, every other
    character stays. *)
Definition upper_char (c : ascii) : ascii :=
  let n := nat_of_ascii c in
  if ((97 <=? n) && (n <=? 122))%nat then ascii_of_nat (n - 32) else c.

Fixpoint upper (s : string) : string :=
  match s with
  | EmptyString => EmptyString
  | String c s' => String (upper_char c) (upper s')
  end.

Definition with_rooms (db : DB) (l : list Room) : DB :=
  mkDB l (room_members db) (tasks db) (messages db).

Definition with_room_members (db : DB) (l : list RoomMember) : DB :=
  mkDB (rooms db) l (tasks db) (messages db).

Definition with_tasks (db : DB) (l : list Task) : DB :=
  mkDB (rooms db) (room_members db) l (messages db).

Definition with_messages (db : DB) (l : list Message) : DB :=
  mkDB (rooms db) (room_members db) (tasks db) l.

Definition in_room_not_banned (room_id : Z) (m : RoomMember) : bool :=
  (rm_room_id m =? room_id) && negb (rm_is_banned m).

Definition room_response (room : Room) (member_count : Z) : RoomResponse :=
  mkRoomResponse (Room_id room) (Room_name room) (Room_code room)
                 (Room_created_by room) member_count.

(** *** Rooms *)

(** First transaction of [create_room], after the code was generated:
    the room is added and committed; [rid] is its new primary key. *)
Definition create_room_commit_room (db : DB) (name code : string)
    (current_user rid : Z) : DB * Room :=
  let room := mkRoom rid name code current_user in
  (with_rooms db (rooms db ++ [room]), room).

(** Second transaction of [create_room]: the owner membership is added and
    committed; [mid] is its new primary key. *)
Definition create_room_commit_owner (db : DB) (room : Room)
    (current_user mid : Z) : DB * RoomResponse :=
  let membership := mkRoomMember mid (Room_id room) current_user OWNER false in
  (with_room_members db (room_members db ++ [membership]),
   room_response room 1).

(** The whole endpoint when no other transaction comes in between. *)
Definition create_room (fuel : nat) (rng : nat -> nat) (db : DB)
    (name : string) (current_user rid mid : Z) : option (DB * RoomResponse) :=
  match generate_room_code fuel rng db default_length with
  | None => None
  | Some code =>
      let '(db1, room) := create_room_commit_room db name code current_user rid in
      Some (create_room_commit_owner db1 room current_user mid)
  end.

(** The loop of [get_my_rooms].  [membership.room] loads the room by its
    primary key; were it absent, [room.id] on [None] would end the request
    with a server error. *)
Fixpoint list_rooms (db : DB) (memberships : list RoomMember)
    : result (list RoomResponse) :=
  match memberships with
  | [] => Ok []
  | membership :: rest =>
      match Query.first (fun r => Room_id r =? rm_room_id membership) (rooms db) with
      | None => Raise (HTTP 500 "Internal Server Error")
      | Some room =>
          let member_count :=
            Query.count (in_room_not_banned (Room_id room)) (room_members db) in
          rs <- list_rooms db rest ;;
          Ok (room_response room member_count :: rs)
      end
  end.

Definition get_my_rooms (db : DB) (current_user : Z)
    : result (list RoomResponse) :=
  let memberships :=
    Query.all (fun m => (rm_user_id m =? current_user) && negb (rm_is_banned m))
              (room_members db) in
  list_rooms db memberships.

(** The endpoint with [str.upper] as the parameter [up]: a function on
    text that the request body can carry in any script. *)
Definition join_room_with (up : string -> string) (db : DB) (code : string)
    (current_user mid : Z) : result (DB * RoomResponse) :=
  match Query.first (fun r => String.eqb (Room_code r) (up code)) (rooms db) with
  | None => Raise (HTTP 404 "Room not found")
  | Some room =>
      match Query.first
              (fun m => (rm_room_id m =? Room_id room) && (rm_user_id m =? current_user))
              (room_members db) with
      | Some existing =>
          if rm_is_banned existing
          then Raise (HTTP 403 "You are banned from this room")
          else Raise (HTTP 400 "Already a member")
      | None =>
          let membership :=
            mkRoomMember mid (Room_id room) current_user MEMBER false in
          let db' := with_room_members db (room_members db ++ [membership]) in
          let member_count :=
            Query.count (in_room_not_banned (Room_id room)) (room_members db') in
          Ok (db', room_response room member_count)
      end
  end.

(** The endpoint for a request whose code is ASCII text, on which
    [str.upper] is [upper].  The transition system runs this instance: a
    join under any other spelling commits what the join under the stored
    code of the room commits. *)
Definition join_room (db : DB) (code : string) (current_user mid : Z)
    : result (DB * RoomResponse) :=
  join_room_with upper db code current_user mid.

(** [db.delete(room)] with the [cascade="all, delete-orphan"] relationships
    of [Room]: the rows of the room in every child table go with it. *)
Definition delete_cascade (db : DB) (room : Room) : DB :=
  mkDB (Query.delete Room_id (Room_id room) (rooms db))
       (filter (fun m => negb (rm_room_id m =? Room_id room)) (room_members db))
       (filter (fun t => negb (task_room_id t =? Room_id room)) (tasks db))
       (filter (fun m => negb (msg_room_id m =? Room_id room)) (messages db)).

(** [db.delete(None)] ends the request with a server error. *)
Definition delete_room (db : DB) (room_id current_user : Z)
    : result (DB * string) :=
  _ <- check_owner_access db current_user room_id ;;
  match Query.first (fun r => Room_id r =? room_id) (rooms db) with
  | None => Raise (HTTP 500 "Internal Server Error")
  | Some room => Ok (delete_cascade db room, "Room deleted")
  end.

Definition find_membership (db : DB) (room_id user_id : Z) : option RoomMember :=
  Query.first (fun m => (rm_room_id m =? room_id) && (rm_user_id m =? user_id))
              (room_members db).

Definition leave_room (db : DB) (room_id current_user : Z)
    : result (DB * string) :=
  match find_membership db room_id current_user with
  | None => Raise (HTTP 404 "Not a member")
  | Some membership =>
      if UserRole_eqb (rm_role membership) OWNER
      then Raise (HTTP 400 "Owner cannot leave the room. Delete it instead.")
      else Ok (with_room_members db
                 (Query.delete rm_id (rm_id membership) (room_members db)),
               "Left the room")
  end.

Definition set_is_banned (b : bool) (m : RoomMember) : RoomMember :=
  mkRoomMember (rm_id m) (rm_room_id m) (rm_user_id m) (rm_role m) b.

Definition ban_user (db : DB) (room_id user_id current_user : Z)
    : result (DB * string) :=
  _ <- check_owner_access db current_user room_id ;;
  match find_membership db room_id user_id with
  | None => Raise (HTTP 404 "User not found in room")
  | Some membership =>
      if UserRole_eqb (rm_role membership) OWNER
      then Raise (HTTP 400 "Cannot ban owner")
      else Ok (with_room_members db
                 (Query.update rm_id (rm_id membership) (set_is_banned true)
                               (room_members db)),
               "User banned")
  end.

Definition unban_user (db : DB) (room_id user_id current_user : Z)
    : result (DB * string) :=
  _ <- check_owner_access db current_user room_id ;;
  match find_membership db room_id user_id with
  | None => Raise (HTTP 404 "User not found in room")
  | Some membership =>
      Ok (with_room_members db
            (Query.update rm_id (rm_id membership) (set_is_banned false)
                          (room_members db)),
          "User unbanned")
  end.

Definition kick_user (db : DB) (room_id user_id current_user : Z)
    : result (DB * string) :=
  _ <- check_owner_access db current_user room_id ;;
  match find_membership db room_id user_id with
  | None => Raise (HTTP 404 "User not found in room")
  | Some membership =>
      if UserRole_eqb (rm_role membership) OWNER
      then Raise (HTTP 400 "Cannot kick owner")
      else Ok (with_room_members db
                 (Query.delete rm_id (rm_id membership) (room_members db)),
               "User kicked")
  end.

(** *** Tasks *)

Definition find_task (db : DB) (room_id tid : Z) : option Task :=
  Query.first (fun t => (task_id t =? tid) && (task_room_id t =? room_id))
              (tasks db).

Definition create_task (db : DB) (room_id : Z) (task_data : TaskCreate)
    (current_user tid : Z) : result (DB * Task) :=
  _ <- check_room_access db current_user room_id ;;
  let task := mkTask tid room_id (Some (tc_title task_data))
                     (tc_description task_data)
                     (Some (tc_assignee_id task_data)) (Some false) in
  Ok (with_tasks db (tasks db ++ [task]), task).

(** [role == UserRole.MEMBER and task.assignee_id != current_user.id] *)
Definition not_own_task (role : UserRole) (task : Task) (current_user : Z)
    : bool :=
  UserRole_eqb role MEMBER &&
  negb (match task_assignee_id task with
        | Some a => a =? current_user
        | None => false
        end).

Definition set_field {A : Type} (new : option A) (old : A) : A :=
  match new with
  | Some v => v
  | None => old
  end.

(** The [setattr] loop over the fields that the request sets. *)
Definition apply_task_update (task_data : TaskUpdate) (t : Task) : Task :=
  mkTask (task_id t) (task_room_id t)
         (set_field (tu_title task_data) (task_title t))
         (set_field (tu_description task_data) (task_description t))
         (set_field (tu_assignee_id task_data) (task_assignee_id t))
         (set_field (tu_completed task_data) (task_completed t)).

Definition update_task (db : DB) (room_id tid : Z) (task_data : TaskUpdate)
    (current_user : Z) : result (DB * Task) :=
  role <- check_room_access db current_user room_id ;;
  match find_task db room_id tid with
  | None => Raise (HTTP 404 "Task not found")
  | Some task =>
      if not_own_task role task current_user
      then Raise (HTTP 403 "Can only edit your own tasks")
      else Ok (with_tasks db
                 (Query.update task_id (task_id task)
                               (apply_task_update task_data) (tasks db)),
               apply_task_update task_data task)
  end.

Definition delete_task (db : DB) (room_id tid current_user : Z)
    : result (DB * string) :=
  role <- check_room_access db current_user room_id ;;
  match find_task db room_id tid with
  | None => Raise (HTTP 404 "Task not found")
  | Some task =>
      if not_own_task role task current_user
      then Raise (HTTP 403 "Can only delete your own tasks")
      else Ok (with_tasks db (Query.delete task_id (task_id task) (tasks db)),
               "Task deleted")
  end.

(** *** Messages *)

Definition in_room (room_id : Z) (m : Message) : bool :=
  msg_room_id m =? room_id.

Definition get_messages (db : DB) (room_id : Z) (limit : Z) (current_user : Z)
    : result (list Message) :=
  _ <- check_room_access db current_user room_id ;;
  let messages :=
    Query.limit limit
      (Query.order_by_desc msg_created_at
         (Query.all (in_room room_id) (messages db))) in
  Ok (rev messages).

Definition default_limit : Z := 100.

(** [now] is the value of [datetime.utcnow] that the column default stores,
    [mid] the new primary key. *)
Definition create_message (db : DB) (room_id : Z) (content : string)
    (current_user mid now : Z) : result (DB * Message) :=
  _ <- check_room_access db current_user room_id ;;
  let message := mkMessage mid room_id current_user content now in
  Ok (with_messages db (messages db ++ [message]), message).

(** The query of one round of the poll loop. *)
Definition poll_query (db : DB) (room_id last_message_id : Z) : list Message :=
  let query := Query.all (in_room room_id) (messages db) in
  let query :=
    if last_message_id >? 0
    then Query.all (fun m => msg_id m >? last_message_id) query
    else query in
  Query.order_by_asc msg_created_at query.

Definition truthy {A : Type} (l : list A) : bool :=
  match l with
  | [] => false
  | _ :: _ => true
  end.

(** The [while True] loop of [poll_messages].  A round sees the storage as
    it is at its query and reads the clock once after it; [rounds] lists,
    for the rounds that have run so far, that storage and that clock value
    (seconds, as an exact rational).  [None] means the loop is still
    running after these rounds. *)
Fixpoint poll_loop (room_id last_message_id timeout : Z) (start_time : Q)
    (rounds : list (DB * Q)) : option (list Message) :=
  match rounds with
  | [] => None
  | (db, now) :: later =>
      let new_messages := poll_query db room_id last_message_id in
      if truthy new_messages then Some new_messages
      else
        let elapsed := (now - start_time)%Q in
        if Qle_bool (inject_Z timeout) elapsed then Some []
        else poll_loop room_id last_message_id timeout start_time later
  end.

Definition max_timeout : Z := 30.
Definition default_timeout : Z := 25.

Definition poll_messages (db : DB) (room_id last_message_id timeout : Z)
    (current_user : Z) (start_time : Q) (rounds : list (DB * Q))
    : result (option (list Message)) :=
  _ <- check_room_access db current_user room_id ;;
  let timeout := Z.min timeout max_timeout in
  Ok (poll_loop room_id last_message_id timeout start_time rounds).

End Main.
Import Main.

(** *** The read endpoints of rooms and tasks *)

Module Listing.





Definition get_tasks (db : DB) (room_id current_user : Z)
    : result (list Task) :=
  _ <- check_room_access db current_user room_id ;;
  Ok (Query.all (fun t => task_room_id t =? room_id) (tasks db)).

End Listing.
Import Listing.

(** ** The system as a transition system over committed transactions *)

Module System.

(** Besides the storage, the state records the [create_room] requests that
    have committed their room and not yet their owner membership, each with
    the room object it holds and its current user. *)
Record State := mkState {
  st_db : DB;
  st_pending : list (Room * Z)
}.

Definition init : State := mkState empty_db [].

Inductive Event : Type :=
| CreateRoomBegin (fuel : nat) (tape : list nat) (name : string) (user rid : Z)
| CreateRoomFinish (rid mid : Z)
| JoinRoom (code : string) (user mid : Z)
| LeaveRoom (room_id user : Z)
| DeleteRoom (room_id user : Z)
| BanUser (room_id target user : Z)
| UnbanUser (room_id target user : Z)
| KickUser (room_id target user : Z)
| CreateTask (room_id : Z) (data : TaskCreate) (user tid : Z)
| UpdateTask (room_id tid : Z) (data : TaskUpdate) (user : Z)
| DeleteTask (room_id tid user : Z)
| CreateMessage (room_id : Z) (content : string) (user mid now : Z).

Definition rng_of (tape : list nat) : nat -> nat :=
  fun i => nth i tape 0%nat.

Definition fresh (k : Z) (keys : list Z) : bool :=
  negb (existsb (Z.eqb k) keys).

Definition is_pending (st : State) (rid : Z) : bool :=
  existsb (fun p => Room_id (fst p) =? rid) (st_pending st).

Definition committed {A : Type} (st : State) (r : result (DB * A))
    : option State :=
  match r with
  | Ok (db, _) => Some (mkState db (st_pending st))
  | Raise _ => None
  end.

(** One committed transaction.  A request that raises commits nothing and is
    no transition; neither is an insertion under a key that is in use. *)
Definition step (ev : Event) (st : State) : option State :=
  let db := st_db st in
  match ev with
  | CreateRoomBegin fuel tape name user rid =>
      if fresh rid (map Room_id (rooms db)) then
        match generate_room_code fuel (rng_of tape) db default_length with
        | Some code =>
            let '(db', room) := create_room_commit_room db name code user rid in
            Some (mkState db' ((room, user) :: st_pending st))
        | None => None
        end
      else None
  | CreateRoomFinish rid mid =>
      if fresh mid (map rm_id (room_members db)) then
        match find (fun p => Room_id (fst p) =? rid) (st_pending st) with
        | Some (room, user) =>
            Some (mkState (fst (create_room_commit_owner db room user mid))
                          (filter (fun p => negb (Room_id (fst p) =? rid))
                                  (st_pending st)))
        | None => None
        end
      else None
  | JoinRoom code user mid =>
      if fresh mid (map rm_id (room_members db))
      then committed st (join_room db code user mid)
      else None
  | LeaveRoom room_id user => committed st (leave_room db room_id user)
  | DeleteRoom room_id user => committed st (delete_room db room_id user)
  | BanUser room_id target user => committed st (ban_user db room_id target user)
  | UnbanUser room_id target user =>
      committed st (unban_user db room_id target user)
  | KickUser room_id target user =>
      committed st (kick_user db room_id target user)
  | CreateTask room_id data user tid =>
      if fresh tid (map task_id (tasks db))
      then committed st (create_task db room_id data user tid)
      else None
  | UpdateTask room_id tid data user =>
      committed st (update_task db room_id tid data user)
  | DeleteTask room_id tid user =>
      committed st (delete_task db room_id tid user)
  | CreateMessage room_id content user mid now =>
      if fresh mid (map msg_id (messages db))
      then committed st (create_message db room_id content user mid now)
      else None
  end.

Fixpoint run (evs : list Event) (st : State) : option State :=
  match evs with
  | [] => Some st
  | ev :: evs' =>
      match step ev st with
      | Some st' => run evs' st'
      | None => None
      end
  end.

Definition reachable (st : State) : Prop :=
  exists evs, run evs init = Some st.

(** Rows of the membership table seen per room and per (room, user). *)
Definition is_owner_of (rid : Z) (m : RoomMember) : bool :=
  (rm_room_id m =? rid) && UserRole_eqb (rm_role m) OWNER.

Definition owner_rows (db : DB) (rid : Z) : list RoomMember :=
  filter (is_owner_of rid) (room_members db).

Definition pair_rows (db : DB) (rid uid : Z) : list RoomMember :=
  filter (fun m => (rm_room_id m =? rid) && (rm_user_id m =? uid))
         (room_members db).

(** The (room, user) pairs that hold the OWNER role. *)
Definition owners (db : DB) : list (Z * Z) :=
  map (fun m => (rm_room_id m, rm_user_id m))
      (filter (fun m => UserRole_eqb (rm_role m) OWNER) (room_members db)).

End System.
Import System.

(** * Vocabulary of the properties *)

(** The characters of a room code. *)
Definition is_upper_or_digit (c : ascii) : bool :=
  let n := nat_of_ascii c in
  (((65 <=? n) && (n <=? 90)) || ((48 <=? n) && (n <=? 57)))%nat.

Definition code_ok (code : string) : Prop :=
  String.length code = 6%nat /\
  Forall (fun c => is_upper_or_digit c = true) (list_ascii_of_string code).

(** Ascending and descending order on a column. *)
Definition asc {A : Type} (key : A -> Z) (a b : A) : Prop := key a <= key b.
Definition desc {A : Type} (key : A -> Z) (a b : A) : Prop := key b <= key a.

(** A round in which the poll keeps waiting: no message for it yet and the
    elapsed time below the bound [t]. *)
Definition still_waiting (room_id last_message_id : Z) (start_time : Q)
    (t : Z) (round : DB * Q) : Prop :=
  poll_query (fst round) room_id last_message_id = [] /\
  (snd round - start_time < inject_Z t)%Q.

Definition exactly_one_owner (db : DB) : Prop :=
  forall r, In r (rooms db) ->
            List.length (owner_rows db (Room_id r)) = 1%nat.

(** The state between the two commits of a [create_room] request. *)
Definition st_between_commits : State :=
  mkState (mkDB [mkRoom 1 "flat" "ABCDEF" 7] [] [] [])
          [(mkRoom 1 "flat" "ABCDEF" 7, 7)].

Definition unbanned_membership_of (user : Z) (m : RoomMember) : bool :=
  (rm_user_id m =? user) && negb (rm_is_banned m).

(** ** The invariant of the reachable states *)

(** The rows of one (room, user) pair: none, one, or the member row of a
    creator who joined their own room by code before the owner row of
    [create_room] was committed, followed by that owner row. *)
Definition pair_shape (l : list RoomMember) : Prop :=
  match l with
  | [] | [_] => True
  | [m; o] => rm_role m <> OWNER /\ rm_role o = OWNER
  | _ => False
  end.

Record Inv (st : State) : Prop := mkInv {
  inv_room_ids : NoDup (map Room_id (rooms (st_db st)));
  inv_codes : NoDup (map Room_code (rooms (st_db st)));
  inv_code_ok : forall r, In r (rooms (st_db st)) -> code_ok (Room_code r);
  inv_member_ids : NoDup (map rm_id (room_members (st_db st)));
  inv_member_room :
    forall m, In m (room_members (st_db st)) ->
              In (rm_room_id m) (map Room_id (rooms (st_db st)));
  inv_pending_room :
    forall p, In p (st_pending st) -> In (fst p) (rooms (st_db st));
  inv_pending_ids : NoDup (map (fun p => Room_id (fst p)) (st_pending st));
  inv_owner :
    forall rid, In rid (map Room_id (rooms (st_db st))) ->
      List.length (owner_rows (st_db st) rid)
      = if is_pending st rid then 0%nat else 1%nat;
  inv_pairs : forall rid uid, pair_shape (pair_rows (st_db st) rid uid);
  inv_banned :
    forall m, In m (room_members (st_db st)) -> rm_is_banned m = true ->
      is_pending st (rm_room_id m) = false /\
      forall uid,
        (List.length (pair_rows (st_db st) (rm_room_id m) uid) <= 1)%nat
}.

(** ** Further invariants of the reachable states *)

(** Roles and ban flags of the rows, the two records of who owns a room,
    and the references of the child tables. *)
Record Inv2 (st : State) : Prop := mkInv2 {
  inv_no_admin :
    forall m, In m (room_members (st_db st)) -> rm_role m <> ADMIN;
  inv_owner_unbanned :
    forall m, In m (room_members (st_db st)) -> rm_role m = OWNER ->
              rm_is_banned m = false;
  inv_owner_creator :
    forall m, In m (room_members (st_db st)) -> rm_role m = OWNER ->
      exists r, In r (rooms (st_db st)) /\ Room_id r = rm_room_id m /\
                Room_created_by r = rm_user_id m;
  inv_pending_creator :
    forall p, In p (st_pending st) -> Room_created_by (fst p) = snd p;
  inv_task_ids : NoDup (map task_id (tasks (st_db st)));
  inv_task_room :
    forall t, In t (tasks (st_db st)) ->
              In (task_room_id t) (map Room_id (rooms (st_db st)));
  inv_msg_ids : NoDup (map msg_id (messages (st_db st)));
  inv_msg_room :
    forall m, In m (messages (st_db st)) ->
              In (msg_room_id m) (map Room_id (rooms (st_db st)))
}.

(** ** A concrete run *)

(** User 7 creates a room, users 8 and 9 join it by code, 7 bans 9, two
    tasks and three messages are added. *)
Definition demo_events : list Event :=
  [ CreateRoomBegin 1 [0;1;2;3;4;5]%nat "flat" 7 1;
    CreateRoomFinish 1 1;
    JoinRoom "abcdef" 8 2;
    JoinRoom "ABCDEF" 9 3;
    BanUser 1 9 7;
    CreateTask 1 (mkTaskCreate "dishes" None 8) 7 1;
    CreateTask 1 (mkTaskCreate "bins" None 7) 8 2;
    CreateMessage 1 "one" 7 1 10;
    CreateMessage 1 "two" 8 2 20;
    CreateMessage 1 "three" 7 3 30 ].

Definition demo : State :=
  mkState
    (mkDB [mkRoom 1 "flat" "ABCDEF" 7]
          [mkRoomMember 1 1 7 OWNER false;
           mkRoomMember 2 1 8 MEMBER false;
           mkRoomMember 3 1 9 MEMBER true]
          [mkTask 1 1 (Some "dishes") None (Some 8) (Some false);
           mkTask 2 1 (Some "bins") None (Some 7) (Some false)]
          [mkMessage 1 1 7 "one" 10;
           mkMessage 2 1 8 "two" 20;
           mkMessage 3 1 7 "three" 30])
    [].

(** A storage and a random source whose first candidate collides. *)
Definition colliding_db : DB := mkDB [mkRoom 1 "flat" "AAAAAA" 7] [] [] [].

Definition colliding_rng : nat -> nat :=
  rng_of [0;0;0;0;0;0;1;1;1;1;1;1]%nat.

(** * Properties *)

(** ** The endpoints on concrete data *)

Example demo_run : run demo_events init = Some demo.
Proof. reflexivity. Qed.

Example create_room_first_commit :
  step (CreateRoomBegin 1 [0;1;2;3;4;5]%nat "flat" 7 1) init
  = Some st_between_commits.
Proof. reflexivity. Qed.

Example create_room_both_commits :
  create_room 1 (rng_of [0;1;2;3;4;5]%nat) empty_db "flat" 7 1 1
  = Some (mkDB [mkRoom 1 "flat" "ABCDEF" 7]
               [mkRoomMember 1 1 7 OWNER false] [] [],
          mkRoomResponse 1 "flat" "ABCDEF" 7 1).
Proof. reflexivity. Qed.

Example join_twice_already_member :
  join_room (st_db demo) "ABCDEF" 8 4 = Raise (HTTP 400 "Already a member").
Proof. reflexivity. Qed.

Example join_unknown_code :
  join_room (st_db demo) "zzzzzz" 8 4 = Raise (HTTP 404 "Room not found").
Proof. reflexivity. Qed.

Example owner_cannot_leave :
  leave_room (st_db demo) 1 7
  = Raise (HTTP 400 "Owner cannot leave the room. Delete it instead.").
Proof. reflexivity. Qed.

Example unban_restores_member_access :
  match unban_user (st_db demo) 1 9 7 with
  | Ok (db', _) => check_room_access db' 9 1
  | Raise e => Raise e
  end = Ok MEMBER.
Proof. reflexivity. Qed.

Example banned_member_has_no_access :
  check_room_access (st_db demo) 9 1
  = Raise (HTTP 403 "You are banned from this room").
Proof. reflexivity. Qed.

Example outsider_has_no_access :
  check_room_access (st_db demo) 5 1
  = Raise (HTTP 403 "You are not a member of this room").
Proof. reflexivity. Qed.

Example delete_room_cascades :
  delete_room (st_db demo) 1 7 = Ok (empty_db, "Room deleted").
Proof. reflexivity. Qed.

(** The creator joins by code between the two commits of [create_room]:
    the pair then has a member row followed by the owner row, and role
    resolution answers with the first of them. *)
Example creator_joins_between_commits :
  match run [CreateRoomBegin 1 [0;1;2;3;4;5]%nat "flat" 7 1;
             JoinRoom "abcdef" 7 1;
             CreateRoomFinish 1 2] init with
  | Some st =>
      pair_rows (st_db st) 1 7
      = [mkRoomMember 1 1 7 MEMBER false; mkRoomMember 2 1 7 OWNER false] /\
      get_user_room_role (st_db st) 7 1 = Ok (Some MEMBER)
  | None => False
  end.
Proof. simpl. split; reflexivity. Qed.

Example poll_sees_later_message :
  poll_messages (st_db demo) 1 3 5 8 0
    [(st_db demo, 1 # 2);
     (with_messages (st_db demo)
        (messages (st_db demo) ++ [mkMessage 4 1 7 "four" 40]), 1%Q);
     (st_db demo, 3 # 2)]
  = Ok (Some [mkMessage 4 1 7 "four" 40]).
Proof. reflexivity. Qed.

(** ** Facts about lists of rows *)

Section ListFacts.

Context {A : Type}.

Lemma filter_filter (f g : A -> bool) (l : list A) :
  filter f (filter g l) = filter (fun x => g x && f x) l.
Proof.
  induction l as [|x l IH]; simpl; [reflexivity|].
  destruct (g x); simpl; [destruct (f x)|]; now rewrite IH.
Qed.

Lemma filter_comm (f g : A -> bool) (l : list A) :
  filter f (filter g l) = filter g (filter f l).
Proof.
  rewrite !filter_filter. apply filter_ext. intros x. apply andb_comm.
Qed.

Lemma find_filter_hd (f : A -> bool) (l : list A) :
  find f l = hd_error (filter f l).
Proof.
  induction l as [|x l IH]; simpl; [reflexivity|].
  destruct (f x); simpl; auto.
Qed.

Lemma find_ext (f g : A -> bool) (l : list A) :
  (forall x, f x = g x) -> find f l = find g l.
Proof.
  intros H. induction l as [|x l IH]; simpl; [reflexivity|].
  rewrite H, IH. reflexivity.
Qed.

Lemma length_le_1_eq (l : list A) (x y : A) :
  (List.length l <= 1)%nat -> In x l -> In y l -> x = y.
Proof.
  destruct l as [|a [|b l]]; simpl; intros Hl Hx Hy; try lia; try tauto.
  destruct Hx as [<-|[]]. destruct Hy as [<-|[]]. reflexivity.
Qed.

Lemma NoDup_map_filter {B : Type} (g : A -> B) (p : A -> bool) (l : list A) :
  NoDup (map g l) -> NoDup (map g (filter p l)).
Proof.
  induction l as [|a l IH]; simpl; intros Hnd; [constructor|].
  inversion Hnd as [|? ? Hnotin Hnd']; subst.
  destruct (p a); simpl; [constructor|]; auto.
  intros Hin. apply Hnotin. apply in_map_iff in Hin.
  destruct Hin as [x [Hx Hin]]. apply filter_In in Hin.
  apply in_map_iff. exists x. tauto.
Qed.

Lemma NoDup_map_snoc {B : Type} (g : A -> B) (l : list A) (x : A) :
  NoDup (map g l) -> ~ In (g x) (map g l) -> NoDup (map g (l ++ [x])).
Proof.
  intros Hnd Hx. rewrite map_app. simpl.
  apply NoDup_rev in Hnd. rewrite <- (rev_involutive (map g l ++ [g x])).
  apply NoDup_rev. rewrite rev_app_distr. simpl.
  constructor; [|assumption]. now rewrite <- in_rev.
Qed.

Lemma filter_filter_implied (p q : A -> bool) (l : list A) :
  (forall x, p x = true -> q x = true) ->
  filter p (filter q l) = filter p l.
Proof.
  intros H. rewrite filter_filter. apply filter_ext. intros x.
  destruct (p x) eqn:E; [rewrite (H x E)|]; destruct (q x); reflexivity.
Qed.

Lemma fresh_not_in (k : Z) (keys : list Z) :
  fresh k keys = true -> ~ In k keys.
Proof.
  unfold fresh. intros H Hin.
  apply negb_true_iff in H.
  assert (existsb (Z.eqb k) keys = true) as E.
  { apply existsb_exists. exists k. split; [assumption|apply Z.eqb_refl]. }
  congruence.
Qed.

End ListFacts.

(** ** Room codes *)

Section RoomCodes.

Lemma alphabet_upper_or_digit :
  Forall (fun c => is_upper_or_digit c = true) alphabet.
Proof. unfold alphabet; simpl; repeat constructor. Qed.

Lemma length_string_of_list_ascii (l : list ascii) :
  String.length (string_of_list_ascii l) = List.length l.
Proof. induction l as [|c l IH]; simpl; congruence. Qed.

Lemma random_choices_length rng pop k pos :
  List.length (random_choices rng pop k pos) = k.
Proof. unfold random_choices. now rewrite length_map, length_seq. Qed.

Lemma random_choices_alphabet rng k pos :
  Forall (fun c => In c alphabet) (random_choices rng alphabet k pos).
Proof.
  unfold random_choices. apply Forall_forall. intros c Hc.
  apply in_map_iff in Hc. destruct Hc as [i [<- _]].
  apply nth_In. apply Nat.mod_upper_bound. discriminate.
Qed.

Lemma candidate_length rng len pos :
  String.length (candidate rng len pos) = Z.to_nat len.
Proof.
  unfold candidate.
  now rewrite length_string_of_list_ascii, random_choices_length.
Qed.

Lemma candidate_chars rng len pos :
  Forall (fun c => is_upper_or_digit c = true)
         (list_ascii_of_string (candidate rng len pos)).
Proof.
  unfold candidate. rewrite list_ascii_of_string_of_list_ascii.
  pose proof alphabet_upper_or_digit as Ha.
  rewrite Forall_forall in Ha.
  eapply Forall_impl; [|apply random_choices_alphabet].
  intros c Hc. now apply Ha.
Qed.

Lemma code_taken_false db code :
  code_taken db code = false ->
  forall r, In r (rooms db) -> Room_code r <> code.
Proof.
  unfold code_taken, Query.first. intros H r Hr Heq.
  destruct (find _ _) eqn:Hf; [discriminate|].
  apply (find_none _ _ Hf) in Hr. rewrite Heq, String.eqb_refl in Hr.
  discriminate.
Qed.

(** A returned code is the candidate of some round, and that candidate is
    not taken. *)
Lemma generate_room_code_from_some fuel rng db len :
  forall pos code,
    generate_room_code_from fuel rng db len pos = Some code ->
    exists pos', code = candidate rng len pos' /\ code_taken db code = false.
Proof.
  induction fuel as [|fuel IH]; intros pos code H; simpl in H; [discriminate|].
  destruct (code_taken db (candidate rng len pos)) eqn:Ht.
  - eapply IH; eauto.
  - injection H as <-. eauto.
Qed.

(** When the candidates of the first [n] rounds are taken and the next one
    is free, any run of more than [n] rounds returns that next one. *)
Lemma generate_room_code_from_retry rng db len n :
  forall pos fuel,
    (forall i, (i < n)%nat ->
       code_taken db (candidate rng len (pos + i * Z.to_nat len)) = true) ->
    code_taken db (candidate rng len (pos + n * Z.to_nat len)) = false ->
    (n < fuel)%nat ->
    generate_room_code_from fuel rng db len pos
    = Some (candidate rng len (pos + n * Z.to_nat len)).
Proof.
  induction n as [|n IH]; intros pos fuel Hbusy Hfree Hfuel.
  - destruct fuel as [|fuel]; [lia|]. simpl in *.
    rewrite Nat.add_0_r in Hfree. rewrite Nat.add_0_r. now rewrite Hfree.
  - destruct fuel as [|fuel]; [lia|]. simpl.
    pose proof (Hbusy 0%nat ltac:(lia)) as H0. simpl in H0.
    rewrite Nat.add_0_r in H0. rewrite H0.
    replace (pos + (Z.to_nat len + n * Z.to_nat len))%nat
      with ((pos + Z.to_nat len) + n * Z.to_nat len)%nat by lia.
    apply IH; [| |lia].
    + intros i Hi. specialize (Hbusy (S i) ltac:(lia)). simpl in Hbusy.
      now replace (pos + Z.to_nat len + i * Z.to_nat len)%nat
        with (pos + (Z.to_nat len + i * Z.to_nat len))%nat by lia.
    + now replace (pos + Z.to_nat len + n * Z.to_nat len)%nat
        with (pos + (Z.to_nat len + n * Z.to_nat len))%nat by lia.
Qed.

(** C9.  Every code that room-code generation returns has the requested
    length (six characters by default), consists of upper-case letters and
    digits only, and is the code of no room in storage; the function has no
    failure result, and when the first [n] candidates collide and the next
    one does not, it returns that next candidate as soon as it is given
    more than [n] rounds. *)
Theorem generate_room_code_unique_fixed_length :
  forall (rng : nat -> nat) (db : DB) (len : Z),
    (forall fuel code,
        generate_room_code fuel rng db len = Some code ->
        String.length code = Z.to_nat len /\
        (len = default_length -> String.length code = 6%nat) /\
        Forall (fun c => is_upper_or_digit c = true) (list_ascii_of_string code) /\
        (forall r, In r (rooms db) -> Room_code r <> code)) /\
    (forall n fuel,
        (forall i, (i < n)%nat ->
           code_taken db (candidate rng len (i * Z.to_nat len)) = true) ->
        code_taken db (candidate rng len (n * Z.to_nat len)) = false ->
        (n < fuel)%nat ->
        generate_room_code fuel rng db len
        = Some (candidate rng len (n * Z.to_nat len))).
Proof.
  intros rng db len. split.
  - intros fuel code H.
    apply generate_room_code_from_some in H. destruct H as [pos [-> Hfree]].
    repeat split.
    + apply candidate_length.
    + intros ->. now rewrite candidate_length.
    + apply candidate_chars.
    + now apply code_taken_false.
  - intros n fuel Hbusy Hfree Hfuel. unfold generate_room_code.
    apply (generate_room_code_from_retry rng db len n 0 fuel); auto.
Qed.

End RoomCodes.

(** ** Ordered queries *)

Section OrderBy.

Context {A : Type} (key : A -> Z).

Lemma insert_asc_perm x l : Permutation (Query.insert_asc key x l) (x :: l).
Proof.
  induction l as [|y l IH]; simpl; [reflexivity|].
  destruct (key x <=? key y); [reflexivity|].
  rewrite IH. apply perm_swap.
Qed.

Lemma order_by_asc_perm l : Permutation (Query.order_by_asc key l) l.
Proof.
  induction l as [|x l IH]; simpl; [reflexivity|].
  rewrite insert_asc_perm. now constructor.
Qed.

Lemma insert_desc_perm x l : Permutation (Query.insert_desc key x l) (x :: l).
Proof.
  induction l as [|y l IH]; simpl; [reflexivity|].
  destruct (key y <=? key x); [reflexivity|].
  rewrite IH. apply perm_swap.
Qed.

Lemma order_by_desc_perm l : Permutation (Query.order_by_desc key l) l.
Proof.
  induction l as [|x l IH]; simpl; [reflexivity|].
  rewrite insert_desc_perm. now constructor.
Qed.

Lemma insert_asc_sorted x l :
  StronglySorted (asc key) l -> StronglySorted (asc key) (Query.insert_asc key x l).
Proof.
  induction l as [|y l IH]; intros Hs; simpl.
  - repeat constructor.
  - apply StronglySorted_inv in Hs. destruct Hs as [Hs Hy].
    destruct (key x <=? key y) eqn:E.
    + apply Z.leb_le in E. constructor; [now constructor|].
      constructor; [exact E|].
      eapply Forall_impl; [|exact Hy]. unfold asc. intros; lia.
    + apply Z.leb_gt in E. constructor; [now apply IH|].
      eapply Permutation_Forall; [symmetry; apply insert_asc_perm|].
      constructor; [unfold asc; lia|exact Hy].
Qed.

Lemma order_by_asc_sorted l : StronglySorted (asc key) (Query.order_by_asc key l).
Proof.
  induction l as [|x l IH]; simpl; [constructor|].
  now apply insert_asc_sorted.
Qed.

Lemma insert_desc_sorted x l :
  StronglySorted (desc key) l -> StronglySorted (desc key) (Query.insert_desc key x l).
Proof.
  induction l as [|y l IH]; intros Hs; simpl.
  - repeat constructor.
  - apply StronglySorted_inv in Hs. destruct Hs as [Hs Hy].
    destruct (key y <=? key x) eqn:E.
    + apply Z.leb_le in E. constructor; [now constructor|].
      constructor; [exact E|].
      eapply Forall_impl; [|exact Hy]. unfold desc. intros; lia.
    + apply Z.leb_gt in E. constructor; [now apply IH|].
      eapply Permutation_Forall; [symmetry; apply insert_desc_perm|].
      constructor; [unfold desc; lia|exact Hy].
Qed.

Lemma order_by_desc_sorted l : StronglySorted (desc key) (Query.order_by_desc key l).
Proof.
  induction l as [|x l IH]; simpl; [constructor|].
  now apply insert_desc_sorted.
Qed.

Lemma sorted_app_inv (R : A -> A -> Prop) l1 l2 :
  StronglySorted R (l1 ++ l2) ->
  StronglySorted R l1 /\ StronglySorted R l2 /\
  (forall x y, In x l1 -> In y l2 -> R x y).
Proof.
  induction l1 as [|a l1 IH]; simpl; intros Hs.
  - repeat split; [constructor|assumption|contradiction].
  - apply StronglySorted_inv in Hs. destruct Hs as [Hs Ha].
    destruct (IH Hs) as [H1 [H2 H12]].
    apply Forall_app in Ha. destruct Ha as [Ha1 Ha2].
    repeat split; [now constructor|assumption|].
    intros x y [<-|Hx] Hy; [|now apply H12].
    rewrite Forall_forall in Ha2. now apply Ha2.
Qed.

Lemma sorted_snoc (R : A -> A -> Prop) l a :
  StronglySorted R l -> (forall x, In x l -> R x a) ->
  StronglySorted R (l ++ [a]).
Proof.
  induction l as [|b l IH]; simpl; intros Hs Hall.
  - repeat constructor.
  - apply StronglySorted_inv in Hs. destruct Hs as [Hs Hb].
    constructor.
    + apply IH; [assumption|]. intros x Hx. apply Hall. now right.
    + apply Forall_app. split; [assumption|].
      constructor; [|constructor]. apply Hall. now left.
Qed.

Lemma desc_rev_asc l : StronglySorted (desc key) l -> StronglySorted (asc key) (rev l).
Proof.
  induction l as [|a l IH]; simpl; intros Hs; [constructor|].
  apply StronglySorted_inv in Hs. destruct Hs as [Hs Ha].
  apply sorted_snoc; [now apply IH|].
  intros x Hx. apply in_rev in Hx. rewrite Forall_forall in Ha.
  apply (Ha x Hx).
Qed.

End OrderBy.

(** ** The message feed *)

Section MessageFeed.

Variables (room_id last_message_id : Z) (start_time : Q).

Lemma poll_loop_waiting t waited rest :
  Forall (still_waiting room_id last_message_id start_time t) waited ->
  poll_loop room_id last_message_id t start_time (waited ++ rest)
  = poll_loop room_id last_message_id t start_time rest.
Proof.
  induction 1 as [|[db now] waited [Hq Ht] _ IH]; simpl; [reflexivity|].
  simpl in Hq, Ht. rewrite Hq. simpl.
  destruct (Qle_bool (inject_Z t) (now - start_time)) eqn:E; [|exact IH].
  apply Qle_bool_iff in E. exfalso. exact (Qlt_not_le _ _ Ht E).
Qed.

Lemma poll_loop_found t db now later :
  poll_query db room_id last_message_id <> [] ->
  poll_loop room_id last_message_id t start_time ((db, now) :: later)
  = Some (poll_query db room_id last_message_id).
Proof.
  intros H. simpl.
  destruct (poll_query db room_id last_message_id); [contradiction|reflexivity].
Qed.

Lemma poll_loop_timeout t db now later :
  poll_query db room_id last_message_id = [] ->
  (inject_Z t <= now - start_time)%Q ->
  poll_loop room_id last_message_id t start_time ((db, now) :: later) = Some [].
Proof.
  intros Hq Ht. simpl. rewrite Hq. simpl.
  apply Qle_bool_iff in Ht. now rewrite Ht.
Qed.

Lemma poll_loop_nonempty t rounds l :
  poll_loop room_id last_message_id t start_time rounds = Some l ->
  l <> [] ->
  exists db now, In (db, now) rounds /\
                 l = poll_query db room_id last_message_id.
Proof.
  induction rounds as [|[db now] rounds IH]; simpl; intros H Hl; [discriminate|].
  destruct (truthy (poll_query db room_id last_message_id)) eqn:E.
  - injection H as <-. exists db, now. split; [now left|reflexivity].
  - destruct (Qle_bool _ _).
    + injection H as <-. contradiction.
    + destruct (IH H Hl) as [db' [now' [Hin ->]]].
      exists db', now'. split; [now right|reflexivity].
Qed.

Lemma poll_loop_bounded t rounds :
  Exists (fun round => (inject_Z t <= snd round - start_time)%Q) rounds ->
  exists l, poll_loop room_id last_message_id t start_time rounds = Some l.
Proof.
  induction 1 as [[db now] rounds Ht|[db now] rounds _ IH]; simpl.
  - destruct (truthy _); [eauto|].
    simpl in Ht. apply Qle_bool_iff in Ht. rewrite Ht. eauto.
  - destruct (truthy _); [eauto|]. destruct (Qle_bool _ _); eauto.
Qed.

End MessageFeed.

Lemma poll_query_filtered db room_id last_message_id :
  0 < last_message_id ->
  poll_query db room_id last_message_id
  = Query.order_by_asc msg_created_at
      (filter (fun m => msg_id m >? last_message_id)
              (filter (in_room room_id) (messages db))).
Proof.
  intros H. unfold poll_query, Query.all.
  apply Z.gtb_lt in H. now rewrite H.
Qed.

Lemma poll_query_unfiltered db room_id :
  poll_query db room_id 0
  = Query.order_by_asc msg_created_at (filter (in_room room_id) (messages db)).
Proof. reflexivity. Qed.

Lemma poll_messages_member db room_id last_message_id timeout user start
    rounds role :
  check_room_access db user room_id = Ok role ->
  poll_messages db room_id last_message_id timeout user start rounds
  = Ok (poll_loop room_id last_message_id (Z.min timeout 30) start rounds).
Proof. intros H. unfold poll_messages. now rewrite H. Qed.

(** C4.  A poll by a member with a positive cursor returns, at the first
    round whose storage holds messages of the room with a larger id,
    exactly those messages in ascending order of creation time; a
    non-empty result is always the query result of some round; with cursor
    0 the query of a round is every message of the room, with no filter on
    the id. *)
Theorem poll_returns_new_messages :
  forall (db : DB) (room_id last_message_id timeout user : Z) (start : Q)
         (role : UserRole),
    check_room_access db user room_id = Ok role ->
    (forall waited dbk now later,
        0 < last_message_id ->
        Forall (still_waiting room_id last_message_id start
                              (Z.min timeout 30)) waited ->
        Exists (fun m => in_room room_id m = true /\ last_message_id < msg_id m)
               (messages dbk) ->
        exists found,
          poll_messages db room_id last_message_id timeout user start
                        (waited ++ (dbk, now) :: later) = Ok (Some found) /\
          found <> [] /\
          Permutation found
            (filter (fun m => in_room room_id m && (msg_id m >? last_message_id))
                    (messages dbk)) /\
          StronglySorted (asc msg_created_at) found) /\
    (forall rounds found,
        poll_messages db room_id last_message_id timeout user start rounds
        = Ok (Some found) ->
        found <> [] ->
        exists dbk now, In (dbk, now) rounds /\
                        found = poll_query dbk room_id last_message_id) /\
    (forall dbk,
        poll_query dbk room_id 0
        = Query.order_by_asc msg_created_at
            (filter (in_room room_id) (messages dbk))).
Proof.
  intros db room_id last timeout user start role Hacc.
  split; [|split].
  - intros waited dbk now later Hpos Hwait Hex.
    assert (Hperm : Permutation (poll_query dbk room_id last)
              (filter (fun m => in_room room_id m && (msg_id m >? last))
                      (messages dbk))).
    { rewrite poll_query_filtered by assumption.
      rewrite order_by_asc_perm.
      rewrite filter_filter.
      erewrite filter_ext; [reflexivity|].
      intros m. simpl. apply andb_comm. }
    assert (Hne : poll_query dbk room_id last <> []).
    { intros Hnil. rewrite Hnil in Hperm.
      apply Permutation_nil in Hperm.
      apply Exists_exists in Hex. destruct Hex as [m [Hin [Hroom Hid]]].
      assert (Hm : In m (filter (fun m => in_room room_id m && (msg_id m >? last))
                                (messages dbk))).
      { apply filter_In. split; [assumption|].
        rewrite Hroom. simpl. apply Z.gtb_lt. exact Hid. }
      rewrite Hperm in Hm. contradiction. }
    exists (poll_query dbk room_id last). repeat split; try assumption.
    + rewrite (poll_messages_member _ _ _ _ _ _ _ _ Hacc).
      rewrite poll_loop_waiting by assumption.
      now rewrite poll_loop_found.
    + rewrite poll_query_filtered by assumption. apply order_by_asc_sorted.
  - intros rounds found H Hne.
    rewrite (poll_messages_member _ _ _ _ _ _ _ _ Hacc) in H.
    injection H as H. eapply poll_loop_nonempty; eauto.
  - intros dbk. apply poll_query_unfiltered.
Qed.

(** C5.  The wait bound of a poll is the requested timeout cut down to at
    most 30 seconds, [min(timeout, 30)]: whatever the request asks for, the
    poll has returned by the first round whose elapsed time is 30 seconds
    or more.  When the
    elapsed time reaches the bound and no message matches, the poll returns
    the empty list as a normal result; a poll by a member never raises. *)
Theorem poll_timeout_is_empty_success :
  forall (db : DB) (room_id last_message_id timeout user : Z) (start : Q)
         (role : UserRole),
    check_room_access db user room_id = Ok role ->
    (forall rounds,
        poll_messages db room_id last_message_id timeout user start rounds
        = Ok (poll_loop room_id last_message_id (Z.min timeout max_timeout)
                        start rounds)) /\
    Z.min timeout max_timeout <= 30 /\
    Z.min timeout max_timeout <= timeout /\
    (forall waited dbk now later,
        Forall (still_waiting room_id last_message_id start
                              (Z.min timeout max_timeout)) waited ->
        poll_query dbk room_id last_message_id = [] ->
        (inject_Z (Z.min timeout max_timeout) <= now - start)%Q ->
        poll_messages db room_id last_message_id timeout user start
                      (waited ++ (dbk, now) :: later) = Ok (Some [])) /\
    (forall rounds,
        Exists (fun round => (30 <= snd round - start)%Q) rounds ->
        exists found,
          poll_messages db room_id last_message_id timeout user start rounds
          = Ok (Some found)) /\
    (forall rounds,
        exists outcome,
          poll_messages db room_id last_message_id timeout user start rounds
          = Ok outcome).
Proof.
  intros db room_id last timeout user start role Hacc.
  unfold max_timeout.
  split; [intros rounds; now apply poll_messages_member with (role := role)|].
  split; [lia|]. split; [lia|]. split; [|split].
  - intros waited dbk now later Hwait Hq Ht.
    rewrite (poll_messages_member _ _ _ _ _ _ _ _ Hacc).
    rewrite poll_loop_waiting by assumption.
    now rewrite poll_loop_timeout.
  - intros rounds Hex.
    rewrite (poll_messages_member _ _ _ _ _ _ _ _ Hacc).
    destruct (poll_loop_bounded room_id last start (Z.min timeout 30) rounds)
      as [l Hl]; [|rewrite Hl; eauto].
    eapply Exists_impl; [|exact Hex]. intros [d t] H. simpl in *.
    eapply Qle_trans; [|exact H].
    unfold Qle. simpl. lia.
  - intros rounds. rewrite (poll_messages_member _ _ _ _ _ _ _ _ Hacc). eauto.
Qed.

(** ** Deleting and rewriting rows by primary key *)

Section RowsByKey.

Context {A : Type} (key : A -> Z).

Lemma NoDup_key_eq (l : list A) (x y : A) :
  NoDup (map key l) -> In x l -> In y l -> key x = key y -> x = y.
Proof.
  induction l as [|a l IH]; simpl; intros Hnd Hx Hy Hk; [contradiction|].
  inversion Hnd as [|? ? Hnotin Hnd']; subst.
  destruct Hx as [<-|Hx], Hy as [<-|Hy]; auto.
  - exfalso. apply Hnotin. rewrite Hk. now apply in_map.
  - exfalso. apply Hnotin. rewrite <- Hk. now apply in_map.
Qed.



Lemma delete_absent (k : Z) (l : list A) :
  (forall y, In y l -> key y <> k) -> Query.delete key k l = l.
Proof.
  unfold Query.delete. induction l as [|a l IH]; simpl; intros H; [reflexivity|].
  destruct (key a =? k) eqn:E.
  - apply Z.eqb_eq in E. exfalso. apply (H a); auto.
  - simpl. f_equal. apply IH. intros y Hy. apply H. now right.
Qed.

Lemma delete_filter (k : Z) (p : A -> bool) (l : list A) :
  filter p (Query.delete key k l) = Query.delete key k (filter p l).
Proof. unfold Query.delete. apply filter_comm. Qed.

Lemma delete_In (k : Z) (l : list A) (y : A) :
  In y (Query.delete key k l) <-> In y l /\ key y <> k.
Proof.
  unfold Query.delete. rewrite filter_In.
  destruct (key y =? k) eqn:E; simpl.
  - apply Z.eqb_eq in E. intuition congruence.
  - apply Z.eqb_neq in E. intuition.
Qed.

Lemma delete_length (k : Z) (l : list A) :
  (List.length (Query.delete key k l) <= List.length l)%nat.
Proof. unfold Query.delete. apply filter_length_le. Qed.

Lemma update_length (k : Z) (f : A -> A) (l : list A) :
  List.length (Query.update key k f l) = List.length l.
Proof. unfold Query.update. apply length_map. Qed.

Lemma update_map {B : Type} (g : A -> B) (k : Z) (f : A -> A) (l : list A) :
  (forall x, g (f x) = g x) -> map g (Query.update key k f l) = map g l.
Proof.
  intros H. unfold Query.update. rewrite map_map. apply map_ext.
  intros x. destruct (key x =? k); auto.
Qed.

Lemma update_filter (k : Z) (f : A -> A) (p : A -> bool) (l : list A) :
  (forall x, p (f x) = p x) -> (forall x, key (f x) = key x) ->
  filter p (Query.update key k f l) = Query.update key k f (filter p l).
Proof.
  intros Hp Hk. unfold Query.update.
  induction l as [|a l IH]; simpl; [reflexivity|].
  destruct (key a =? k) eqn:E.
  - rewrite Hp. destruct (p a); simpl; [rewrite E|]; now rewrite IH.
  - destruct (p a); simpl; [rewrite E|]; now rewrite IH.
Qed.

Lemma update_In (k : Z) (f : A -> A) (l : list A) (y : A) :
  In y (Query.update key k f l) ->
  exists x, In x l /\ ((key x = k /\ y = f x) \/ (key x <> k /\ y = x)).
Proof.
  unfold Query.update. intros H. apply in_map_iff in H.
  destruct H as [x [Hy Hx]]. exists x. split; [assumption|].
  destruct (key x =? k) eqn:E.
  - apply Z.eqb_eq in E. left. auto.
  - apply Z.eqb_neq in E. right. auto.
Qed.



End RowsByKey.

(** ** The invariant of the reachable states *)

Section Invariant.

Lemma UserRole_eqb_eq a b : UserRole_eqb a b = true <-> a = b.
Proof. destruct a, b; simpl; split; congruence. Qed.

Lemma UserRole_eqb_neq a b : UserRole_eqb a b = false <-> a <> b.
Proof. destruct a, b; simpl; split; congruence. Qed.

Lemma pair_shape_delete k l :
  pair_shape l ->
  (forall y, In y l -> rm_id y = k -> rm_role y <> OWNER) ->
  pair_shape (Query.delete rm_id k l).
Proof.
  destruct l as [|a [|o [|c l]]]; simpl; intros Hs H; try exact I; try contradiction.
  - unfold Query.delete. simpl. destruct (rm_id a =? k); exact I.
  - destruct Hs as [Ha Ho]. unfold Query.delete. simpl.
    destruct (rm_id o =? k) eqn:Eo.
    + apply Z.eqb_eq in Eo. exfalso. apply (H o); auto.
    + destruct (rm_id a =? k); simpl; auto.
Qed.

Lemma pair_shape_update k b l :
  pair_shape l -> pair_shape (Query.update rm_id k (set_is_banned b) l).
Proof.
  destruct l as [|a [|o [|c l]]]; simpl; intros Hs; try exact I; try contradiction.
  destruct Hs as [Ha Ho].
  destruct (rm_id a =? k), (rm_id o =? k); simpl; auto.
Qed.

Lemma pair_rows_In db rid uid m :
  In m (pair_rows db rid uid) <->
  In m (room_members db) /\ rm_room_id m = rid /\ rm_user_id m = uid.
Proof.
  unfold pair_rows. rewrite filter_In, andb_true_iff, !Z.eqb_eq. tauto.
Qed.

Lemma owner_rows_In db rid m :
  In m (owner_rows db rid) <->
  In m (room_members db) /\ rm_room_id m = rid /\ rm_role m = OWNER.
Proof.
  unfold owner_rows, is_owner_of.
  rewrite filter_In, andb_true_iff, Z.eqb_eq, UserRole_eqb_eq. tauto.
Qed.

Lemma find_membership_pair_rows db rid uid :
  find_membership db rid uid = hd_error (pair_rows db rid uid).
Proof. unfold find_membership, Query.first, pair_rows. apply find_filter_hd. Qed.

Lemma first_is_membership db uid rid :
  Query.first (is_membership uid rid) (room_members db)
  = find_membership db rid uid.
Proof.
  unfold find_membership, Query.first. apply find_ext.
  intros m. unfold is_membership. apply andb_comm.
Qed.

Lemma find_membership_In db rid uid m :
  find_membership db rid uid = Some m ->
  In m (room_members db) /\ rm_room_id m = rid /\ rm_user_id m = uid.
Proof.
  intros H. unfold find_membership, Query.first in H.
  apply find_some in H. destruct H as [Hin H].
  apply andb_true_iff in H. rewrite !Z.eqb_eq in H. tauto.
Qed.

(** What a successful access check tells about the membership table. *)
Lemma check_room_access_ok db uid rid role :
  check_room_access db uid rid = Ok role ->
  exists m, find_membership db rid uid = Some m /\
            rm_role m = role /\ rm_is_banned m = false.
Proof.
  unfold check_room_access, get_user_room_role.
  rewrite first_is_membership.
  destruct (find_membership db rid uid) as [m|]; simpl; [|discriminate].
  destruct (rm_is_banned m) eqn:E; simpl; [discriminate|].
  intros H. injection H as <-. eauto.
Qed.

Lemma check_owner_access_ok db uid rid role :
  check_owner_access db uid rid = Ok role ->
  exists m, find_membership db rid uid = Some m /\
            rm_role m = OWNER /\ rm_is_banned m = false.
Proof.
  unfold check_owner_access.
  destruct (check_room_access db uid rid) as [r|e] eqn:E; simpl; [|discriminate].
  destruct (UserRole_eqb r OWNER) eqn:Er; simpl; [|discriminate].
  intros _. apply UserRole_eqb_eq in Er. subst r.
  now apply check_room_access_ok.
Qed.

(** In a room where some user passes the owner check, no creation is
    pending and every user has at most one row. *)
Lemma owner_access_unique st uid rid role :
  Inv st ->
  check_owner_access (st_db st) uid rid = Ok role ->
  is_pending st rid = false /\
  forall u, (List.length (pair_rows (st_db st) rid u) <= 1)%nat.
Proof.
  intros HI Hacc.
  destruct (check_owner_access_ok _ _ _ _ Hacc) as [m [Hf [Hrole Hban]]].
  pose proof (find_membership_In _ _ _ _ Hf) as [Hin [Hrid Huid]].
  assert (Hown : In m (owner_rows (st_db st) rid))
    by (apply owner_rows_In; auto).
  assert (Hroom : In rid (map Room_id (rooms (st_db st))))
    by (rewrite <- Hrid; now apply (inv_member_room st HI)).
  pose proof (inv_owner st HI rid Hroom) as Hlen.
  destruct (is_pending st rid) eqn:Ep.
  { destruct (owner_rows (st_db st) rid); [contradiction|discriminate]. }
  split; [reflexivity|]. intros u.
  pose proof (inv_pairs st HI rid u) as Hshape.
  destruct (pair_rows (st_db st) rid u) as [|a [|o [|c l]]] eqn:Hp;
    simpl in *; try lia; try contradiction.
  exfalso. destruct Hshape as [Ha Ho].
  assert (Hoin : In o (pair_rows (st_db st) rid u))
    by (rewrite Hp; simpl; auto).
  apply pair_rows_In in Hoin. destruct Hoin as [Hoin [Hor Hou]].
  assert (Hoown : In o (owner_rows (st_db st) rid))
    by (apply owner_rows_In; auto).
  assert (o = m) by (eapply length_le_1_eq; eauto; lia). subst o.
  rewrite find_membership_pair_rows in Hf.
  assert (Hu : u = uid) by congruence.
  rewrite Hu in Hp. rewrite Hp in Hf. simpl in Hf.
  injection Hf as ->. congruence.
Qed.

End Invariant.

Section Preservation.

Variable st : State.
Hypothesis HI : Inv st.

Let db := st_db st.

(** Transactions on tasks and messages leave rooms and memberships alone. *)
Lemma Inv_same_tables db' :
  rooms db' = rooms db -> room_members db' = room_members db ->
  Inv (mkState db' (st_pending st)).
Proof.
  intros Hr Hm. destruct HI.
  constructor; unfold owner_rows, pair_rows, is_pending in *; simpl;
    rewrite ?Hr, ?Hm; assumption.
Qed.

(** [db.delete] of a membership row that is not an owner row. *)
Lemma Inv_delete_row m :
  In m (room_members db) -> rm_role m <> OWNER ->
  Inv (mkState
         (with_room_members db (Query.delete rm_id (rm_id m) (room_members db)))
         (st_pending st)).
Proof.
  intros Hin Hrole.
  assert (Hkey : forall y, In y (room_members db) -> rm_id y = rm_id m -> y = m).
  { intros y Hy Hk.
    apply (NoDup_key_eq rm_id (room_members db)); auto.
    apply (inv_member_ids st HI). }
  constructor; unfold owner_rows, pair_rows, is_pending; simpl.
  - apply (inv_room_ids st HI).
  - apply (inv_codes st HI).
  - apply (inv_code_ok st HI).
  - apply NoDup_map_filter. apply (inv_member_ids st HI).
  - intros y Hy. apply delete_In in Hy. apply (inv_member_room st HI). tauto.
  - apply (inv_pending_room st HI).
  - apply (inv_pending_ids st HI).
  - intros rid Hrid. rewrite delete_filter.
    rewrite delete_absent; [apply (inv_owner st HI rid Hrid)|].
    intros y Hy Hk. apply (owner_rows_In db) in Hy.
    destruct Hy as [Hy [_ Ho]]. rewrite (Hkey y Hy Hk) in Ho. contradiction.
  - intros rid uid. rewrite delete_filter.
    apply pair_shape_delete; [apply (inv_pairs st HI)|].
    intros y Hy Hk. apply (pair_rows_In db) in Hy.
    destruct Hy as [Hy _]. now rewrite (Hkey y Hy Hk).
  - intros y Hy Hb. apply delete_In in Hy. destruct Hy as [Hy _].
    destruct (inv_banned st HI y Hy Hb) as [Hp Hl].
    split; [exact Hp|]. intros uid. rewrite delete_filter.
    eapply Nat.le_trans; [apply delete_length|apply Hl].
Qed.

(** Rewriting the ban flag of a row keeps every part of the invariant that
    does not speak about banned rows. *)
Lemma Inv_update_flag k b :
  (forall y, In y (Query.update rm_id k (set_is_banned b) (room_members db)) ->
     rm_is_banned y = true ->
     is_pending st (rm_room_id y) = false /\
     forall uid, (List.length (pair_rows db (rm_room_id y) uid) <= 1)%nat) ->
  Inv (mkState
         (with_room_members db
            (Query.update rm_id k (set_is_banned b) (room_members db)))
         (st_pending st)).
Proof.
  intros Hbanned.
  constructor; unfold owner_rows, pair_rows, is_pending; simpl.
  - apply (inv_room_ids st HI).
  - apply (inv_codes st HI).
  - apply (inv_code_ok st HI).
  - rewrite update_map by reflexivity. apply (inv_member_ids st HI).
  - intros y Hy. apply update_In in Hy.
    destruct Hy as [x [Hx [[_ ->]|[_ ->]]]]; simpl;
      now apply (inv_member_room st HI).
  - apply (inv_pending_room st HI).
  - apply (inv_pending_ids st HI).
  - intros rid Hrid. rewrite update_filter by reflexivity.
    rewrite update_length. apply (inv_owner st HI rid Hrid).
  - intros rid uid. rewrite update_filter by reflexivity.
    apply pair_shape_update. apply (inv_pairs st HI).
  - intros y Hy Hb. destruct (Hbanned y Hy Hb) as [Hp Hl].
    split; [exact Hp|]. intros uid.
    rewrite update_filter by reflexivity. rewrite update_length. apply Hl.
Qed.

Lemma Inv_unban k :
  Inv (mkState
         (with_room_members db
            (Query.update rm_id k (set_is_banned false) (room_members db)))
         (st_pending st)).
Proof.
  apply Inv_update_flag. intros y Hy Hb. apply update_In in Hy.
  destruct Hy as [x [Hx [[_ ->]|[_ ->]]]]; simpl in *; [discriminate|].
  now apply (inv_banned st HI).
Qed.

Lemma Inv_ban uid rid role m :
  check_owner_access db uid rid = Ok role ->
  In m (room_members db) -> rm_room_id m = rid ->
  Inv (mkState
         (with_room_members db
            (Query.update rm_id (rm_id m) (set_is_banned true) (room_members db)))
         (st_pending st)).
Proof.
  intros Hacc Hin Hrid.
  destruct (owner_access_unique st uid rid role HI Hacc) as [Hp Hl].
  apply Inv_update_flag. intros y Hy Hb. apply update_In in Hy.
  destruct Hy as [x [Hx [[Hk ->]|[_ ->]]]]; simpl in *.
  - assert (x = m).
    { apply (NoDup_key_eq rm_id (room_members db)); auto.
      apply (inv_member_ids st HI). }
    subst x. rewrite Hrid. auto.
  - now apply (inv_banned st HI).
Qed.

End Preservation.

Section PreservationInsert.

Variable st : State.
Hypothesis HI : Inv st.

Let db := st_db st.

Lemma pair_rows_snoc (ms : list RoomMember) x rid uid :
  filter (fun m => (rm_room_id m =? rid) && (rm_user_id m =? uid)) (ms ++ [x])
  = filter (fun m => (rm_room_id m =? rid) && (rm_user_id m =? uid)) ms
    ++ (if (rm_room_id x =? rid) && (rm_user_id x =? uid) then [x] else []).
Proof. rewrite filter_app. simpl. now destruct (_ && _). Qed.

Lemma owner_rows_snoc (ms : list RoomMember) x rid :
  filter (is_owner_of rid) (ms ++ [x])
  = filter (is_owner_of rid) ms ++ (if is_owner_of rid x then [x] else []).
Proof. rewrite filter_app. simpl. now destruct (is_owner_of rid x). Qed.

(** [join_room] adds a member row for a pair that has no row yet. *)
Lemma Inv_join_row x :
  ~ In (rm_id x) (map rm_id (room_members db)) ->
  In (rm_room_id x) (map Room_id (rooms db)) ->
  rm_role x = MEMBER -> rm_is_banned x = false ->
  pair_rows db (rm_room_id x) (rm_user_id x) = [] ->
  Inv (mkState (with_room_members db (room_members db ++ [x])) (st_pending st)).
Proof.
  intros Hfresh Hroom Hrole Hban Hnone.
  constructor; unfold owner_rows, pair_rows, is_pending; simpl.
  - apply (inv_room_ids st HI).
  - apply (inv_codes st HI).
  - apply (inv_code_ok st HI).
  - apply NoDup_map_snoc; [apply (inv_member_ids st HI)|assumption].
  - intros y Hy. apply in_app_or in Hy. destruct Hy as [Hy|[<-|[]]];
      [now apply (inv_member_room st HI)|assumption].
  - apply (inv_pending_room st HI).
  - apply (inv_pending_ids st HI).
  - intros rid Hrid. rewrite owner_rows_snoc.
    unfold is_owner_of at 2. rewrite Hrole, andb_false_r, app_nil_r.
    apply (inv_owner st HI rid Hrid).
  - intros rid uid. rewrite pair_rows_snoc.
    destruct ((rm_room_id x =? rid) && (rm_user_id x =? uid)) eqn:E.
    + apply andb_true_iff in E. rewrite !Z.eqb_eq in E. destruct E as [<- <-].
      unfold pair_rows in Hnone. fold db. rewrite Hnone. exact I.
    + rewrite app_nil_r. apply (inv_pairs st HI).
  - intros y Hy Hb. apply in_app_or in Hy.
    destruct Hy as [Hy|[<-|[]]]; [|congruence].
    destruct (inv_banned st HI y Hy Hb) as [Hp Hl].
    split; [exact Hp|]. intros uid. rewrite pair_rows_snoc.
    destruct ((rm_room_id x =? rm_room_id y) && (rm_user_id x =? uid)) eqn:E.
    + apply andb_true_iff in E. rewrite !Z.eqb_eq in E. destruct E as [<- <-].
      unfold pair_rows in Hnone. fold db. rewrite Hnone. simpl. lia.
    + rewrite app_nil_r. apply Hl.
Qed.

Lemma existsb_pending_filter (pend : list (Room * Z)) rid rid' :
  existsb (fun p => Room_id (fst p) =? rid')
          (filter (fun p => negb (Room_id (fst p) =? rid)) pend)
  = if rid' =? rid then false
    else existsb (fun p => Room_id (fst p) =? rid') pend.
Proof.
  induction pend as [|p pend IH]; simpl; [now destruct (rid' =? rid)|].
  destruct (Room_id (fst p) =? rid) eqn:E; simpl.
  - rewrite IH. apply Z.eqb_eq in E.
    destruct (rid' =? rid) eqn:E'; [reflexivity|].
    apply Z.eqb_neq in E'.
    assert ((Room_id (fst p) =? rid') = false) as -> by (apply Z.eqb_neq; lia).
    reflexivity.
  - rewrite IH. apply Z.eqb_neq in E.
    destruct (rid' =? rid) eqn:E'; [|reflexivity].
    apply Z.eqb_eq in E'. subst rid'.
    assert ((Room_id (fst p) =? rid) = false) as -> by (now apply Z.eqb_neq).
    reflexivity.
Qed.

(** The second transaction of [create_room]. *)
Lemma Inv_create_finish rid mid room user :
  find (fun p => Room_id (fst p) =? rid) (st_pending st) = Some (room, user) ->
  fresh mid (map rm_id (room_members db)) = true ->
  Inv (mkState (fst (create_room_commit_owner db room user mid))
               (filter (fun p => negb (Room_id (fst p) =? rid)) (st_pending st))).
Proof.
  intros Hfind Hfresh.
  apply find_some in Hfind. destruct Hfind as [Hpin Hrid].
  simpl in Hrid. apply Z.eqb_eq in Hrid. subst rid.
  set (rid := Room_id room) in *.
  assert (Hpend : is_pending st rid = true).
  { unfold is_pending. apply existsb_exists. exists (room, user).
    split; [assumption|]. simpl. apply Z.eqb_refl. }
  assert (Hroom : In rid (map Room_id (rooms db))).
  { apply in_map. apply (inv_pending_room st HI (room, user) Hpin). }
  assert (Hown : owner_rows db rid = []).
  { pose proof (inv_owner st HI rid Hroom) as H. rewrite Hpend in H.
    now apply length_zero_iff_nil. }
  assert (Hno : forall y uid, In y (pair_rows db rid uid) -> rm_role y <> OWNER).
  { intros y uid Hy Ho. apply pair_rows_In in Hy.
    assert (In y (owner_rows db rid)) as Hyo
      by (apply owner_rows_In; tauto).
    rewrite Hown in Hyo. contradiction. }
  constructor; unfold owner_rows, pair_rows, is_pending; simpl; fold rid.
  - apply (inv_room_ids st HI).
  - apply (inv_codes st HI).
  - apply (inv_code_ok st HI).
  - apply NoDup_map_snoc; [apply (inv_member_ids st HI)|].
    now apply fresh_not_in.
  - intros y Hy. apply in_app_or in Hy. destruct Hy as [Hy|[<-|[]]];
      [now apply (inv_member_room st HI)|]. exact Hroom.
  - intros p Hp. apply filter_In in Hp. apply (inv_pending_room st HI). tauto.
  - apply NoDup_map_filter. apply (inv_pending_ids st HI).
  - intros rid' Hrid'. rewrite owner_rows_snoc, existsb_pending_filter.
    unfold is_owner_of at 2. simpl. fold rid.
    destruct (rid' =? rid) eqn:E.
    + apply Z.eqb_eq in E. subst rid'. rewrite Z.eqb_refl. simpl.
      fold (owner_rows db rid). now rewrite Hown.
    + rewrite Z.eqb_sym, E. simpl. rewrite app_nil_r.
      apply (inv_owner st HI rid' Hrid').
  - intros rid' uid. rewrite pair_rows_snoc. simpl. fold rid.
    destruct ((rid =? rid') && (user =? uid)) eqn:E.
    + apply andb_true_iff in E. rewrite !Z.eqb_eq in E. destruct E as [<- <-].
      pose proof (inv_pairs st HI rid user) as Hshape.
      specialize (Hno) with (uid := user).
      fold db in Hshape. fold (pair_rows db rid user).
      destruct (pair_rows db rid user) as [|a [|o [|c l]]];
        simpl in *; try exact I; try contradiction.
      * split; [|reflexivity]. apply Hno. auto.
      * exfalso. destruct Hshape as [_ Ho]. apply (Hno o); auto.
    + rewrite app_nil_r. apply (inv_pairs st HI).
  - intros y Hy Hb. apply in_app_or in Hy.
    destruct Hy as [Hy|[<-|[]]]; [|discriminate].
    destruct (inv_banned st HI y Hy Hb) as [Hp Hl].
    assert (Hne : rm_room_id y <> rid) by (intros Heq; congruence).
    rewrite existsb_pending_filter.
    assert ((rm_room_id y =? rid) = false) as -> by (now apply Z.eqb_neq).
    split; [exact Hp|]. intros uid. rewrite pair_rows_snoc. simpl. fold rid.
    assert ((rid =? rm_room_id y) = false) as ->
      by (apply Z.eqb_neq; congruence).
    simpl. rewrite app_nil_r. apply Hl.
Qed.

End PreservationInsert.

Section PreservationRooms.

Variable st : State.
Hypothesis HI : Inv st.

Let db := st_db st.

Lemma no_rows_of_absent_room rid (p : RoomMember -> bool) :
  ~ In rid (map Room_id (rooms db)) ->
  (forall m, p m = true -> rm_room_id m = rid) ->
  filter p (room_members db) = [].
Proof.
  intros Habs Hp.
  destruct (filter p (room_members db)) as [|m l] eqn:E; [reflexivity|].
  assert (Hm : In m (filter p (room_members db))) by (rewrite E; now left).
  apply filter_In in Hm. destruct Hm as [Hin Hpm].
  exfalso. apply Habs. rewrite <- (Hp m Hpm).
  now apply (inv_member_room st HI).
Qed.

(** The first transaction of [create_room]. *)
Lemma Inv_create_begin fuel rng name user rid code :
  fresh rid (map Room_id (rooms db)) = true ->
  generate_room_code fuel rng db default_length = Some code ->
  Inv (mkState (fst (create_room_commit_room db name code user rid))
               ((snd (create_room_commit_room db name code user rid), user)
                  :: st_pending st)).
Proof.
  intros Hfresh Hgen. apply fresh_not_in in Hfresh.
  apply generate_room_code_from_some in Hgen.
  destruct Hgen as [pos [-> Hfree]].
  pose proof (candidate_length rng default_length pos) as Hlen.
  pose proof (candidate_chars rng default_length pos) as Hchars.
  pose proof (code_taken_false db _ Hfree) as Hnew.
  constructor; unfold owner_rows, pair_rows, is_pending; simpl.
  - apply NoDup_map_snoc; [apply (inv_room_ids st HI)|assumption].
  - apply NoDup_map_snoc; [apply (inv_codes st HI)|]. simpl.
    intros Hin. apply in_map_iff in Hin. destruct Hin as [r [Hc Hr]].
    now apply (Hnew r Hr).
  - intros r Hr. apply in_app_or in Hr. destruct Hr as [Hr|[<-|[]]].
    + now apply (inv_code_ok st HI).
    + split; simpl; auto.
  - apply (inv_member_ids st HI).
  - intros m Hm. rewrite map_app. apply in_or_app. left.
    now apply (inv_member_room st HI).
  - intros p [<-|Hp]; simpl.
    + apply in_or_app. right. now left.
    + apply in_or_app. left. now apply (inv_pending_room st HI).
  - constructor; [|apply (inv_pending_ids st HI)].
    intros Hin. apply in_map_iff in Hin. destruct Hin as [p [Hid Hp]].
    apply Hfresh. rewrite <- Hid. apply in_map.
    now apply (inv_pending_room st HI).
  - intros rid' Hrid'. rewrite map_app in Hrid'. apply in_app_or in Hrid'.
    destruct (rid =? rid') eqn:E; simpl.
    + apply Z.eqb_eq in E. subst rid'.
      rewrite (no_rows_of_absent_room rid); [reflexivity|assumption|].
      intros m Hm. unfold is_owner_of in Hm.
      apply andb_true_iff in Hm. now apply Z.eqb_eq.
    + apply Z.eqb_neq in E. destruct Hrid' as [Hrid'|[Hrid'|[]]];
        [|simpl in Hrid'; congruence].
      apply (inv_owner st HI rid' Hrid').
  - apply (inv_pairs st HI).
  - intros y Hy Hb. destruct (inv_banned st HI y Hy Hb) as [Hp Hl].
    split; [|exact Hl].
    assert ((rid =? rm_room_id y) = false) as ->; [|exact Hp].
    apply Z.eqb_neq. intros ->. apply Hfresh.
    now apply (inv_member_room st HI).
Qed.

(** [delete_room] by a user who passes the owner check. *)
Lemma Inv_delete_room uid rid role room :
  check_owner_access db uid rid = Ok role ->
  Query.first (fun r => Room_id r =? rid) (rooms db) = Some room ->
  Inv (mkState (delete_cascade db room) (st_pending st)).
Proof.
  intros Hacc Hfind. unfold Query.first in Hfind.
  apply find_some in Hfind. destruct Hfind as [Hrin Hrid].
  apply Z.eqb_eq in Hrid.
  destruct (owner_access_unique st uid rid role HI Hacc) as [Hpend _].
  rewrite <- Hrid in Hpend. clear Hacc Hrid.
  set (k := Room_id room) in *.
  assert (Hkeep : forall (p : RoomMember -> bool) rid',
             rid' <> k -> (forall m, p m = true -> rm_room_id m = rid') ->
             filter p (filter (fun m => negb (rm_room_id m =? k)) (room_members db))
             = filter p (room_members db)).
  { intros p rid' Hne Hp. apply filter_filter_implied. intros m Hm.
    apply negb_true_iff, Z.eqb_neq. rewrite (Hp m Hm). exact Hne. }
  constructor; unfold owner_rows, pair_rows, is_pending, delete_cascade;
    simpl; fold k.
  - apply NoDup_map_filter. apply (inv_room_ids st HI).
  - apply NoDup_map_filter. apply (inv_codes st HI).
  - intros r Hr. apply filter_In in Hr. apply (inv_code_ok st HI). tauto.
  - apply NoDup_map_filter. apply (inv_member_ids st HI).
  - intros m Hm. apply filter_In in Hm. destruct Hm as [Hm Hne].
    pose proof (inv_member_room st HI m Hm) as Hroom.
    apply in_map_iff in Hroom. destruct Hroom as [r [Hr Hrin']].
    apply in_map_iff. exists r. split; [assumption|].
    apply delete_In. split; [assumption|].
    apply negb_true_iff, Z.eqb_neq in Hne. congruence.
  - intros p Hp. apply delete_In.
    split; [now apply (inv_pending_room st HI)|].
    intros Heq. unfold is_pending in Hpend.
    assert (existsb (fun p => Room_id (fst p) =? k) (st_pending st) = true) as E.
    { apply existsb_exists. exists p. split; [assumption|]. now apply Z.eqb_eq. }
    congruence.
  - apply (inv_pending_ids st HI).
  - intros rid' Hrid'. apply in_map_iff in Hrid'.
    destruct Hrid' as [r [Hr Hrin']]. apply delete_In in Hrin'.
    destruct Hrin' as [Hrin' Hne]. subst rid'.
    rewrite (Hkeep _ (Room_id r)); [|assumption|].
    + apply (inv_owner st HI). now apply in_map.
    + intros m Hm. unfold is_owner_of in Hm.
      apply andb_true_iff in Hm. now apply Z.eqb_eq.
  - intros rid' uid'. destruct (Z.eq_dec rid' k) as [->|Hne].
    + rewrite filter_filter.
      rewrite (filter_ext _ (fun _ => false)); [now rewrite filter_false|].
      intros m. destruct (rm_room_id m =? k); reflexivity.
    + rewrite (Hkeep _ rid'); [apply (inv_pairs st HI)|assumption|].
      intros m Hm. apply andb_true_iff in Hm. now apply Z.eqb_eq.
  - intros y Hy Hb. apply filter_In in Hy. destruct Hy as [Hy Hne].
    destruct (inv_banned st HI y Hy Hb) as [Hp Hl].
    split; [exact Hp|]. intros uid'.
    apply negb_true_iff, Z.eqb_neq in Hne.
    rewrite (Hkeep _ (rm_room_id y)); [apply Hl|assumption|].
    intros m Hm. apply andb_true_iff in Hm. now apply Z.eqb_eq.
Qed.

End PreservationRooms.

(** ** What a successful request did *)

Section Outcomes.

Variable db : DB.

Lemma find_membership_none rid uid :
  find_membership db rid uid = None -> pair_rows db rid uid = [].
Proof.
  rewrite find_membership_pair_rows.
  destruct (pair_rows db rid uid); [reflexivity|discriminate].
Qed.

Lemma join_room_ok code user mid db' resp :
  join_room db code user mid = Ok (db', resp) ->
  exists room,
    Query.first (fun r => String.eqb (Room_code r) (upper code)) (rooms db)
    = Some room /\
    find_membership db (Room_id room) user = None /\
    db' = with_room_members db
            (room_members db
               ++ [mkRoomMember mid (Room_id room) user MEMBER false]).
Proof.
  unfold join_room, join_room_with. fold (find_membership db).
  destruct (Query.first _ (rooms db)) as [room|]; [|discriminate].
  fold (find_membership db (Room_id room) user).
  destruct (find_membership db (Room_id room) user) as [m|] eqn:E.
  - destruct (rm_is_banned m); discriminate.
  - intros H. injection H as <- _. eauto.
Qed.

Lemma leave_room_ok rid user db' msg :
  leave_room db rid user = Ok (db', msg) ->
  exists m,
    find_membership db rid user = Some m /\ rm_role m <> OWNER /\
    db' = with_room_members db (Query.delete rm_id (rm_id m) (room_members db)).
Proof.
  unfold leave_room.
  destruct (find_membership db rid user) as [m|]; [|discriminate].
  destruct (UserRole_eqb (rm_role m) OWNER) eqn:E; [discriminate|].
  intros H. injection H as <- _. apply UserRole_eqb_neq in E. eauto.
Qed.

Lemma kick_user_ok rid target user db' msg :
  kick_user db rid target user = Ok (db', msg) ->
  exists role m,
    check_owner_access db user rid = Ok role /\
    find_membership db rid target = Some m /\ rm_role m <> OWNER /\
    db' = with_room_members db (Query.delete rm_id (rm_id m) (room_members db)).
Proof.
  unfold kick_user.
  destruct (check_owner_access db user rid) as [role|]; simpl; [|discriminate].
  destruct (find_membership db rid target) as [m|]; [|discriminate].
  destruct (UserRole_eqb (rm_role m) OWNER) eqn:E; [discriminate|].
  intros H. injection H as <- _. apply UserRole_eqb_neq in E. eauto 6.
Qed.

Lemma ban_user_ok rid target user db' msg :
  ban_user db rid target user = Ok (db', msg) ->
  exists role m,
    check_owner_access db user rid = Ok role /\
    find_membership db rid target = Some m /\ rm_role m <> OWNER /\
    db' = with_room_members db
            (Query.update rm_id (rm_id m) (set_is_banned true) (room_members db)).
Proof.
  unfold ban_user.
  destruct (check_owner_access db user rid) as [role|]; simpl; [|discriminate].
  destruct (find_membership db rid target) as [m|]; [|discriminate].
  destruct (UserRole_eqb (rm_role m) OWNER) eqn:E; [discriminate|].
  intros H. injection H as <- _. apply UserRole_eqb_neq in E. eauto 6.
Qed.

Lemma unban_user_ok rid target user db' msg :
  unban_user db rid target user = Ok (db', msg) ->
  exists role m,
    check_owner_access db user rid = Ok role /\
    find_membership db rid target = Some m /\
    db' = with_room_members db
            (Query.update rm_id (rm_id m) (set_is_banned false) (room_members db)).
Proof.
  unfold unban_user.
  destruct (check_owner_access db user rid) as [role|]; simpl; [|discriminate].
  destruct (find_membership db rid target) as [m|]; [|discriminate].
  intros H. injection H as <- _. eauto 6.
Qed.

Lemma delete_room_ok rid user db' msg :
  delete_room db rid user = Ok (db', msg) ->
  exists role room,
    check_owner_access db user rid = Ok role /\
    Query.first (fun r => Room_id r =? rid) (rooms db) = Some room /\
    db' = delete_cascade db room.
Proof.
  unfold delete_room.
  destruct (check_owner_access db user rid) as [role|]; simpl; [|discriminate].
  destruct (Query.first _ (rooms db)) as [room|]; [|discriminate].
  intros H. injection H as <- _. eauto 6.
Qed.

Lemma create_task_ok rid data user tid db' t :
  create_task db rid data user tid = Ok (db', t) ->
  rooms db' = rooms db /\ room_members db' = room_members db.
Proof.
  unfold create_task.
  destruct (check_room_access db user rid); simpl; [|discriminate].
  intros H. injection H as <- _. auto.
Qed.

Lemma update_task_ok rid tid data user db' t :
  update_task db rid tid data user = Ok (db', t) ->
  rooms db' = rooms db /\ room_members db' = room_members db.
Proof.
  unfold update_task.
  destruct (check_room_access db user rid) as [role|]; simpl; [|discriminate].
  destruct (find_task db rid tid) as [task|]; [|discriminate].
  destruct (not_own_task role task user); [discriminate|].
  intros H. injection H as <- _. auto.
Qed.

Lemma delete_task_ok rid tid user db' msg :
  delete_task db rid tid user = Ok (db', msg) ->
  rooms db' = rooms db /\ room_members db' = room_members db.
Proof.
  unfold delete_task.
  destruct (check_room_access db user rid) as [role|]; simpl; [|discriminate].
  destruct (find_task db rid tid) as [task|]; [|discriminate].
  destruct (not_own_task role task user); [discriminate|].
  intros H. injection H as <- _. auto.
Qed.

Lemma create_message_ok rid content user mid now db' m :
  create_message db rid content user mid now = Ok (db', m) ->
  rooms db' = rooms db /\ room_members db' = room_members db.
Proof.
  unfold create_message.
  destruct (check_room_access db user rid); simpl; [|discriminate].
  intros H. injection H as <- _. auto.
Qed.

End Outcomes.

(** ** Every reachable state satisfies the invariant *)

Lemma committed_some {A : Type} st (r : result (DB * A)) st' :
  committed st r = Some st' ->
  exists db' a, r = Ok (db', a) /\ st' = mkState db' (st_pending st).
Proof.
  unfold committed. destruct r as [[db' a]|e]; [|discriminate].
  intros H. injection H as <-. eauto.
Qed.

Lemma Inv_init : Inv init.
Proof.
  constructor; simpl; try constructor; try contradiction.
Qed.

Lemma Inv_step ev st st' : Inv st -> step ev st = Some st' -> Inv st'.
Proof.
  intros HI Hstep. destruct ev; simpl in Hstep.
  - destruct (fresh rid _) eqn:Hfresh; [|discriminate].
    destruct (generate_room_code _ _ _ _) as [code|] eqn:Hgen; [|discriminate].
    injection Hstep as <-.
    apply (Inv_create_begin st HI fuel (rng_of tape) name user rid code
             Hfresh Hgen).
  - destruct (fresh mid _) eqn:Hfresh; [|discriminate].
    destruct (find _ (st_pending st)) as [[room user]|] eqn:Hfind;
      [|discriminate].
    injection Hstep as <-. now apply Inv_create_finish.
  - destruct (fresh mid _) eqn:Hfresh; [|discriminate].
    apply committed_some in Hstep. destruct Hstep as [db' [resp [Hok ->]]].
    apply join_room_ok in Hok. destruct Hok as [room [Hroom [Hnone ->]]].
    apply (Inv_join_row st HI); simpl; auto.
    + now apply fresh_not_in.
    + apply in_map. unfold Query.first in Hroom.
      apply find_some in Hroom. tauto.
    + now apply find_membership_none.
  - apply committed_some in Hstep. destruct Hstep as [db' [msg [Hok ->]]].
    apply leave_room_ok in Hok. destruct Hok as [m [Hf [Hrole ->]]].
    apply (Inv_delete_row st HI); [|assumption].
    apply find_membership_In in Hf. tauto.
  - apply committed_some in Hstep. destruct Hstep as [db' [msg [Hok ->]]].
    apply delete_room_ok in Hok. destruct Hok as [role [room [Hacc [Hf ->]]]].
    eapply Inv_delete_room; eauto.
  - apply committed_some in Hstep. destruct Hstep as [db' [msg [Hok ->]]].
    apply ban_user_ok in Hok. destruct Hok as [role [m [Hacc [Hf [_ ->]]]]].
    apply find_membership_In in Hf.
    eapply (Inv_ban st HI); [exact Hacc| |]; tauto.
  - apply committed_some in Hstep. destruct Hstep as [db' [msg [Hok ->]]].
    apply unban_user_ok in Hok. destruct Hok as [role [m [Hacc [Hf ->]]]].
    apply (Inv_unban st HI).
  - apply committed_some in Hstep. destruct Hstep as [db' [msg [Hok ->]]].
    apply kick_user_ok in Hok. destruct Hok as [role [m [Hacc [Hf [Hrole ->]]]]].
    apply (Inv_delete_row st HI); [|assumption].
    apply find_membership_In in Hf. tauto.
  - destruct (fresh tid _); [|discriminate].
    apply committed_some in Hstep. destruct Hstep as [db' [t [Hok ->]]].
    apply create_task_ok in Hok. now apply Inv_same_tables.
  - apply committed_some in Hstep. destruct Hstep as [db' [t [Hok ->]]].
    apply update_task_ok in Hok. now apply Inv_same_tables.
  - apply committed_some in Hstep. destruct Hstep as [db' [t [Hok ->]]].
    apply delete_task_ok in Hok. now apply Inv_same_tables.
  - destruct (fresh mid _); [|discriminate].
    apply committed_some in Hstep. destruct Hstep as [db' [t [Hok ->]]].
    apply create_message_ok in Hok. now apply Inv_same_tables.
Qed.

Lemma Inv_run evs : forall st st', Inv st -> run evs st = Some st' -> Inv st'.
Proof.
  induction evs as [|ev evs IH]; simpl; intros st st' HI Hrun.
  - now injection Hrun as <-.
  - destruct (step ev st) as [st1|] eqn:Hstep; [|discriminate].
    eapply IH; [|exact Hrun]. eapply Inv_step; eauto.
Qed.

Lemma reachable_Inv st : reachable st -> Inv st.
Proof. intros [evs Hrun]. eapply Inv_run; [apply Inv_init|exact Hrun]. Qed.

(** ** Owners *)

Lemma owners_snoc_member (ms : list RoomMember) x :
  rm_role x <> OWNER ->
  filter (fun m => UserRole_eqb (rm_role m) OWNER) (ms ++ [x])
  = filter (fun m => UserRole_eqb (rm_role m) OWNER) ms.
Proof.
  intros H. rewrite filter_app. simpl.
  apply UserRole_eqb_neq in H. rewrite H. apply app_nil_r.
Qed.

Lemma owners_delete (ms : list RoomMember) m :
  NoDup (map rm_id ms) -> In m ms -> rm_role m <> OWNER ->
  filter (fun x => UserRole_eqb (rm_role x) OWNER)
         (Query.delete rm_id (rm_id m) ms)
  = filter (fun x => UserRole_eqb (rm_role x) OWNER) ms.
Proof.
  intros Hnd Hin Hrole. rewrite delete_filter. apply delete_absent.
  intros y Hy Hk. apply filter_In in Hy. destruct Hy as [Hy Ho].
  apply UserRole_eqb_eq in Ho.
  assert (y = m) by (apply (NoDup_key_eq rm_id ms); auto).
  congruence.
Qed.

Lemma owners_update (ms : list RoomMember) k b :
  map (fun m => (rm_room_id m, rm_user_id m))
      (filter (fun x => UserRole_eqb (rm_role x) OWNER)
              (Query.update rm_id k (set_is_banned b) ms))
  = map (fun m => (rm_room_id m, rm_user_id m))
        (filter (fun x => UserRole_eqb (rm_role x) OWNER) ms).
Proof.
  rewrite update_filter by reflexivity. now apply update_map.
Qed.

(** Joining, leaving, banning, unbanning and kicking leave the holders of
    the OWNER role as they are. *)
Lemma membership_requests_keep_owners st ev st' :
  Inv st -> step ev st = Some st' ->
  match ev with
  | JoinRoom _ _ _ | LeaveRoom _ _ | BanUser _ _ _ | UnbanUser _ _ _
  | KickUser _ _ _ => owners (st_db st') = owners (st_db st)
  | _ => True
  end.
Proof.
  intros HI Hstep. pose proof (inv_member_ids st HI) as Hnd.
  destruct ev; simpl in Hstep; try exact I; unfold owners.
  - destruct (fresh mid _); [|discriminate].
    apply committed_some in Hstep. destruct Hstep as [db' [resp [Hok ->]]].
    apply join_room_ok in Hok. destruct Hok as [room [_ [_ ->]]]. simpl.
    rewrite owners_snoc_member; [reflexivity|discriminate].
  - apply committed_some in Hstep. destruct Hstep as [db' [msg [Hok ->]]].
    apply leave_room_ok in Hok. destruct Hok as [m [Hf [Hrole ->]]]. simpl.
    apply find_membership_In in Hf. rewrite owners_delete; tauto.
  - apply committed_some in Hstep. destruct Hstep as [db' [msg [Hok ->]]].
    apply ban_user_ok in Hok. destruct Hok as [role [m [_ [_ [_ ->]]]]].
    simpl. apply owners_update.
  - apply committed_some in Hstep. destruct Hstep as [db' [msg [Hok ->]]].
    apply unban_user_ok in Hok. destruct Hok as [role [m [_ [_ ->]]]].
    simpl. apply owners_update.
  - apply committed_some in Hstep. destruct Hstep as [db' [msg [Hok ->]]].
    apply kick_user_ok in Hok. destruct Hok as [role [m [_ [Hf [Hrole ->]]]]].
    simpl. apply find_membership_In in Hf. rewrite owners_delete; tauto.
Qed.

(** C1, as the claim states it, fails: after the first commit of
    [create_room] the room is in storage, another user can join it by its
    code, and it has no OWNER membership. *)
Lemma create_room_room_visible_without_owner :
  run [CreateRoomBegin 1 [0;1;2;3;4;5]%nat "flat" 7 1] init
  = Some st_between_commits /\
  (exists db' resp,
      join_room (st_db st_between_commits) "abcdef" 8 1 = Ok (db', resp) /\
      resp_id resp = 1) /\
  ~ exactly_one_owner (st_db st_between_commits).
Proof.
  split; [reflexivity|]. split.
  - eexists. eexists. split; reflexivity.
  - intros H. specialize (H (mkRoom 1 "flat" "ABCDEF" 7) (or_introl eq_refl)).
    discriminate H.
Qed.

(** C1, amended.  In every reachable state a room has exactly one OWNER
    membership once the [create_room] request that made it has committed
    its second transaction, and none while that request is between its two
    commits; so when no creation is pending, every room has exactly one
    OWNER membership.  A [create_room] that runs both transactions leaves
    the new room with the OWNER membership of its creator as its only
    owner row.  No join, leave, ban, unban or kick changes which
    (room, user) pairs hold the OWNER role. *)
Theorem one_owner_once_created :
  forall st, reachable st ->
    (forall r, In r (rooms (st_db st)) ->
        List.length (owner_rows (st_db st) (Room_id r))
        = if is_pending st (Room_id r) then 0%nat else 1%nat) /\
    (st_pending st = [] -> exactly_one_owner (st_db st)) /\
    (forall fuel rng name user rid mid db' resp,
        fresh rid (map Room_id (rooms (st_db st))) = true ->
        create_room fuel rng (st_db st) name user rid mid = Some (db', resp) ->
        owner_rows db' rid = [mkRoomMember mid rid user OWNER false] /\
        exists code, rooms db' = rooms (st_db st) ++ [mkRoom rid name code user]) /\
    (forall ev st', step ev st = Some st' ->
        match ev with
        | JoinRoom _ _ _ | LeaveRoom _ _ | BanUser _ _ _ | UnbanUser _ _ _
        | KickUser _ _ _ => owners (st_db st') = owners (st_db st)
        | _ => True
        end).
Proof.
  intros st Hreach. pose proof (reachable_Inv st Hreach) as HI.
  split; [|split; [|split]].
  - intros r Hr. apply (inv_owner st HI). now apply in_map.
  - intros Hnil r Hr.
    rewrite (inv_owner st HI (Room_id r)) by now apply in_map.
    unfold is_pending. now rewrite Hnil.
  - intros fuel rng name user rid mid db' resp Hfresh Hcreate.
    unfold create_room in Hcreate.
    destruct (generate_room_code _ _ _ _) as [code|]; [|discriminate].
    simpl in Hcreate. injection Hcreate as <- _.
    split; [|exists code; reflexivity].
    unfold owner_rows. simpl. rewrite owner_rows_snoc.
    rewrite (no_rows_of_absent_room st HI rid).
    + unfold is_owner_of. simpl. now rewrite Z.eqb_refl.
    + now apply fresh_not_in.
    + intros m Hm. unfold is_owner_of in Hm.
      apply andb_true_iff in Hm. now apply Z.eqb_eq.
  - intros ev st' Hstep. now apply membership_requests_keep_owners.
Qed.

(** ** Role resolution and joining *)

Lemma find_by_unique_key {A K : Type} (g : A -> K) (eqb : K -> K -> bool)
    (l : list A) (r : A) :
  (forall a b, eqb a b = true <-> a = b) ->
  NoDup (map g l) -> In r l -> find (fun x => eqb (g x) (g r)) l = Some r.
Proof.
  intros Heqb. induction l as [|a l IH]; simpl; intros Hnd Hin; [contradiction|].
  inversion Hnd as [|? ? Hnotin Hnd']; subst.
  destruct Hin as [->|Hin].
  - now rewrite (proj2 (Heqb (g r) (g r)) eq_refl).
  - destruct (eqb (g a) (g r)) eqn:E; [|now apply IH].
    apply Heqb in E. exfalso. apply Hnotin. rewrite E. now apply in_map.
Qed.

Lemma upper_char_fixed c : is_upper_or_digit c = true -> upper_char c = c.
Proof.
  unfold is_upper_or_digit, upper_char. intros H.
  destruct ((97 <=? nat_of_ascii c) && (nat_of_ascii c <=? 122))%nat eqn:E;
    [|reflexivity].
  apply andb_true_iff in E. destruct E as [E1 E2].
  apply Nat.leb_le in E1. apply Nat.leb_le in E2.
  apply orb_true_iff in H. destruct H as [H|H];
    apply andb_true_iff in H; destruct H as [H1 H2];
    apply Nat.leb_le in H1; apply Nat.leb_le in H2; lia.
Qed.

Lemma upper_fixed s :
  Forall (fun c => is_upper_or_digit c = true) (list_ascii_of_string s) ->
  upper s = s.
Proof.
  induction s as [|c s IH]; simpl; intros H; [reflexivity|].
  inversion H; subst. rewrite upper_char_fixed by assumption.
  f_equal. now apply IH.
Qed.

Lemma pair_rows_single db rid uid m :
  (List.length (pair_rows db rid uid) <= 1)%nat ->
  In m (room_members db) -> rm_room_id m = rid -> rm_user_id m = uid ->
  pair_rows db rid uid = [m].
Proof.
  intros Hlen Hin Hr Hu.
  assert (Hm : In m (pair_rows db rid uid)) by (apply pair_rows_In; auto).
  destruct (pair_rows db rid uid) as [|a [|b l]]; simpl in *;
    [contradiction| |lia].
  destruct Hm as [->|[]]. reflexivity.
Qed.

Lemma find_membership_absent db rid uid :
  (forall m, In m (room_members db) ->
             ~ (rm_user_id m = uid /\ rm_room_id m = rid)) ->
  find_membership db rid uid = None.
Proof.
  intros H. destruct (find_membership db rid uid) as [m|] eqn:E; [|reflexivity].
  apply find_membership_In in E. exfalso. apply (H m); tauto.
Qed.

Lemma find_membership_present db rid uid m :
  In m (room_members db) -> rm_user_id m = uid -> rm_room_id m = rid ->
  exists m', find_membership db rid uid = Some m'.
Proof.
  intros Hin Hu Hr. rewrite find_membership_pair_rows.
  assert (Hm : In m (pair_rows db rid uid)) by (apply pair_rows_In; auto).
  destruct (pair_rows db rid uid) as [|a l]; [contradiction|]. simpl. eauto.
Qed.

(** In a reachable state a banned row is the first row of its pair. *)
Lemma banned_row_found st m :
  Inv st -> In m (room_members (st_db st)) -> rm_is_banned m = true ->
  find_membership (st_db st) (rm_room_id m) (rm_user_id m) = Some m.
Proof.
  intros HI Hin Hb. destruct (inv_banned st HI m Hin Hb) as [_ Hl].
  rewrite find_membership_pair_rows.
  now rewrite (pair_rows_single _ _ _ m (Hl (rm_user_id m)) Hin eq_refl eq_refl).
Qed.

(** C2.  In every reachable state, role resolution for a user and a room
    raises the 403 ban failure whenever the membership table has a banned
    row for them, so it returns a role only when no row of theirs is
    banned; it returns the normal result [None] when they have no row, and
    otherwise the role stored in a row of theirs. *)
Theorem role_resolution_fails_for_banned :
  forall st, reachable st -> forall uid rid,
    let db := st_db st in
    let row m :=
      In m (room_members db) /\ rm_user_id m = uid /\ rm_room_id m = rid in
    ((exists m, row m /\ rm_is_banned m = true) ->
       get_user_room_role db uid rid
       = Raise (HTTP 403 "You are banned from this room")) /\
    (forall role, get_user_room_role db uid rid = Ok (Some role) ->
       forall m, row m -> rm_is_banned m = false) /\
    ((forall m, ~ row m) -> get_user_room_role db uid rid = Ok None) /\
    ((exists m, row m) -> (forall m, row m -> rm_is_banned m = false) ->
       exists m, row m /\
                 get_user_room_role db uid rid = Ok (Some (rm_role m))).
Proof.
  intros st Hreach uid rid db row.
  pose proof (reachable_Inv st Hreach) as HI.
  assert (Hbanned : (exists m, row m /\ rm_is_banned m = true) ->
            get_user_room_role db uid rid
            = Raise (HTTP 403 "You are banned from this room")).
  { intros [m [[Hin [Hu Hr]] Hb]].
    unfold get_user_room_role. rewrite first_is_membership.
    pose proof (banned_row_found st m HI Hin Hb) as Hf.
    rewrite Hu, Hr in Hf. fold db in Hf. now rewrite Hf, Hb. }
  split; [exact Hbanned|]. split; [|split].
  - intros role Hok m Hrow. destruct (rm_is_banned m) eqn:Hb; [|reflexivity].
    rewrite Hbanned in Hok by eauto. discriminate.
  - intros Hnone. unfold get_user_room_role. rewrite first_is_membership.
    rewrite find_membership_absent; [reflexivity|].
    intros m Hin Hp. apply (Hnone m). unfold row. tauto.
  - intros [m [Hin [Hu Hr]]] Hfree.
    destruct (find_membership_present db rid uid m Hin Hu Hr) as [m' Hf].
    pose proof (find_membership_In _ _ _ _ Hf) as [Hin' [Hr' Hu']].
    exists m'. split; [unfold row; auto|].
    unfold get_user_room_role. rewrite first_is_membership, Hf.
    rewrite (Hfree m'); [reflexivity|unfold row; auto].
Qed.

(** Whatever [str.upper] does to the spelling in a request, a join that
    succeeds commits what the join under the stored code of the room
    commits, which is a transition of the system. *)
Lemma join_room_with_canonical (up : string -> string) st code user mid db' resp :
  Inv st ->
  join_room_with up (st_db st) code user mid = Ok (db', resp) ->
  exists r, In r (rooms (st_db st)) /\ Room_code r = up code /\
            join_room (st_db st) (Room_code r) user mid = Ok (db', resp).
Proof.
  intros HI Hok. unfold join_room, join_room_with in *.
  destruct (Query.first _ (rooms (st_db st))) as [r|] eqn:E; [|discriminate].
  unfold Query.first in E. pose proof (find_some _ _ E) as [Hr Hc].
  apply String.eqb_eq in Hc. exists r. split; [assumption|].
  split; [assumption|].
  destruct (inv_code_ok st HI r Hr) as [_ Hchars].
  rewrite (upper_fixed _ Hchars), Hc. unfold Query.first. rewrite E.
  exact Hok.
Qed.

(** C3.  [str.upper] is taken as any function [up] on text that leaves a
    string of upper-case letters and digits as it is.  In every reachable
    state, [join_room] looks the room up by the upper-cased code, so every
    spelling whose upper-casing is that of the code of a room finds that
    room.  It fails with 404 when no room has the upper-cased code, with
    the 403 ban failure when the user has a banned row in the room, with
    400 "Already a member" when the user has rows in the room and none is
    banned, and otherwise adds a MEMBER row. *)
Theorem join_room_by_code :
  forall (up : string -> string),
    (forall s, Forall (fun c => is_upper_or_digit c = true)
                      (list_ascii_of_string s) -> up s = s) ->
  forall st, reachable st -> forall code user mid,
    let db := st_db st in
    ((forall r, In r (rooms db) -> Room_code r <> up code) ->
       join_room_with up db code user mid
       = Raise (HTTP 404 "Room not found")) /\
    (forall r, In r (rooms db) -> up code = up (Room_code r) ->
       let row m :=
         In m (room_members db) /\ rm_user_id m = user /\
         rm_room_id m = Room_id r in
       Query.first (fun x => String.eqb (Room_code x) (up code)) (rooms db)
       = Some r /\
       ((exists m, row m /\ rm_is_banned m = true) ->
          join_room_with up db code user mid
          = Raise (HTTP 403 "You are banned from this room")) /\
       ((exists m, row m) -> (forall m, row m -> rm_is_banned m = false) ->
          join_room_with up db code user mid
          = Raise (HTTP 400 "Already a member")) /\
       ((forall m, ~ row m) ->
          let db' :=
            with_room_members db
              (room_members db
                 ++ [mkRoomMember mid (Room_id r) user MEMBER false]) in
          join_room_with up db code user mid
          = Ok (db', room_response r
                       (Query.count (in_room_not_banned (Room_id r))
                                    (room_members db'))))).
Proof.
  intros up Hfix st Hreach code user mid db.
  pose proof (reachable_Inv st Hreach) as HI.
  split.
  - intros Hnone. unfold join_room_with.
    destruct (Query.first _ (rooms db)) as [r|] eqn:E; [|reflexivity].
    unfold Query.first in E. apply find_some in E. destruct E as [Hr Hc].
    apply String.eqb_eq in Hc. exfalso. now apply (Hnone r).
  - intros r Hr Hcode row.
    assert (Hup : up code = Room_code r).
    { rewrite Hcode. apply Hfix. now apply (inv_code_ok st HI). }
    assert (Hfind : Query.first
                      (fun x => String.eqb (Room_code x) (up code)) (rooms db)
                    = Some r).
    { rewrite Hup. unfold Query.first.
      apply (find_by_unique_key Room_code String.eqb);
        [apply String.eqb_eq|apply (inv_codes st HI)|assumption]. }
    split; [exact Hfind|].
    unfold join_room_with. rewrite Hfind.
    fold (find_membership db (Room_id r) user).
    split; [|split].
    + intros [m [[Hin [Hu Hrid]] Hb]].
      pose proof (banned_row_found st m HI Hin Hb) as Hf.
      rewrite Hu, Hrid in Hf. fold db in Hf. now rewrite Hf, Hb.
    + intros [m [Hin [Hu Hrid]]] Hfree.
      destruct (find_membership_present db _ _ m Hin Hu Hrid) as [m' Hf].
      rewrite Hf.
      pose proof (find_membership_In _ _ _ _ Hf) as [Hin' [Hr' Hu']].
      rewrite (Hfree m'); [reflexivity|unfold row; auto].
    + intros Hnone. rewrite find_membership_absent; [reflexivity|].
      intros m Hin Hp. apply (Hnone m). unfold row. tauto.
Qed.

(** ** Banning and kicking *)

Lemma join_room_adds_member db r code user mid :
  NoDup (map Room_code (rooms db)) -> code_ok (Room_code r) ->
  In r (rooms db) -> upper code = upper (Room_code r) ->
  find_membership db (Room_id r) user = None ->
  let db' :=
    with_room_members db
      (room_members db ++ [mkRoomMember mid (Room_id r) user MEMBER false]) in
  join_room db code user mid
  = Ok (db', room_response r
               (Query.count (in_room_not_banned (Room_id r)) (room_members db'))).
Proof.
  intros Hnd [_ Hok] Hr Hcode Hnone. simpl.
  rewrite (upper_fixed _ Hok) in Hcode.
  unfold join_room, join_room_with. rewrite Hcode.
  unfold Query.first at 1.
  rewrite (find_by_unique_key Room_code String.eqb (rooms db) r
             String.eqb_eq Hnd Hr).
  fold (find_membership db (Room_id r) user). now rewrite Hnone.
Qed.

Lemma raise_owner_access db rid user e :
  check_owner_access db user rid = Raise e ->
  forall target,
    ban_user db rid target user = Raise e /\
    kick_user db rid target user = Raise e.
Proof. intros H target. unfold ban_user, kick_user. now rewrite H. Qed.

(** C7.  In every reachable state, ban and kick are refused to a caller
    who fails the owner check.  For a caller who passes it and a target
    with a membership in the room: when the target's role is OWNER both
    fail with 400 and commit nothing; otherwise ban keeps the target's row
    and sets its ban flag, and kick removes exactly that row, after which
    the target has no row in the room and a join by any spelling of the
    room's code adds a fresh MEMBER row that is not banned. *)
Theorem ban_keeps_row_kick_deletes_row :
  forall st, reachable st -> forall rid target user,
    let db := st_db st in
    (forall e, check_owner_access db user rid = Raise e ->
       ban_user db rid target user = Raise e /\
       kick_user db rid target user = Raise e) /\
    (forall role m,
       check_owner_access db user rid = Ok role ->
       find_membership db rid target = Some m ->
       (rm_role m = OWNER ->
          ban_user db rid target user = Raise (HTTP 400 "Cannot ban owner") /\
          kick_user db rid target user = Raise (HTTP 400 "Cannot kick owner") /\
          step (BanUser rid target user) st = None /\
          step (KickUser rid target user) st = None) /\
       (rm_role m <> OWNER ->
          let db_ban :=
            with_room_members db
              (Query.update rm_id (rm_id m) (set_is_banned true)
                            (room_members db)) in
          let db_kick :=
            with_room_members db
              (Query.delete rm_id (rm_id m) (room_members db)) in
          ban_user db rid target user = Ok (db_ban, "User banned") /\
          pair_rows db_ban rid target = [set_is_banned true m] /\
          List.length (room_members db_ban) = List.length (room_members db) /\
          kick_user db rid target user = Ok (db_kick, "User kicked") /\
          (forall y, In y (room_members db_kick)
                     <-> In y (room_members db) /\ y <> m) /\
          pair_rows db_kick rid target = [] /\
          exists r, In r (rooms db) /\ Room_id r = rid /\
            forall code mid, upper code = upper (Room_code r) ->
              let db_join :=
                with_room_members db_kick
                  (room_members db_kick
                     ++ [mkRoomMember mid rid target MEMBER false]) in
              join_room db_kick code target mid
              = Ok (db_join,
                    room_response r
                      (Query.count (in_room_not_banned rid)
                                   (room_members db_join))))).
Proof.
  intros st Hreach rid target user db.
  pose proof (reachable_Inv st Hreach) as HI.
  split; [intros e He; now apply raise_owner_access|].
  intros role m Hacc Hf.
  pose proof (find_membership_In _ _ _ _ Hf) as [Hin [Hrid Htarget]].
  split.
  - intros Hrole.
    assert (Hban : ban_user db rid target user
                   = Raise (HTTP 400 "Cannot ban owner")).
    { unfold ban_user. rewrite Hacc. simpl. rewrite Hf.
      now rewrite (proj2 (UserRole_eqb_eq _ _) Hrole). }
    assert (Hkick : kick_user db rid target user
                    = Raise (HTTP 400 "Cannot kick owner")).
    { unfold kick_user. rewrite Hacc. simpl. rewrite Hf.
      now rewrite (proj2 (UserRole_eqb_eq _ _) Hrole). }
    repeat split; try assumption; simpl; fold db.
    + now rewrite Hban.
    + now rewrite Hkick.
  - intros Hrole db_ban db_kick.
    destruct (owner_access_unique st user rid role HI Hacc) as [_ Huniq].
    pose proof (pair_rows_single db rid target m (Huniq target) Hin Hrid Htarget)
      as Hrows.
    assert (Hkick_rows : pair_rows db_kick rid target = []).
    { unfold pair_rows, db_kick. simpl. rewrite delete_filter.
      fold (pair_rows db rid target). rewrite Hrows.
      unfold Query.delete. simpl. now rewrite Z.eqb_refl. }
    split; [|split; [|split; [|split; [|split; [|split]]]]].
    + unfold ban_user. rewrite Hacc. simpl. rewrite Hf.
      now rewrite (proj2 (UserRole_eqb_neq _ _) Hrole).
    + unfold pair_rows, db_ban. simpl. rewrite update_filter by reflexivity.
      fold (pair_rows db rid target). rewrite Hrows. simpl.
      now rewrite Z.eqb_refl.
    + unfold db_ban. simpl. apply update_length.
    + unfold kick_user. rewrite Hacc. simpl. rewrite Hf.
      now rewrite (proj2 (UserRole_eqb_neq _ _) Hrole).
    + intros y. unfold db_kick. simpl. rewrite delete_In. split.
      * intros [Hy Hk]. split; [assumption|]. intros ->. now apply Hk.
      * intros [Hy Hne]. split; [assumption|]. intros Hk. apply Hne.
        apply (NoDup_key_eq rm_id (room_members db)); auto.
        apply (inv_member_ids st HI).
    + exact Hkick_rows.
    + pose proof (inv_member_room st HI m Hin) as Hroom.
      apply in_map_iff in Hroom. destruct Hroom as [r [Hr Hrin]].
      exists r. split; [assumption|]. split; [congruence|].
      intros code mid Hcode.
      assert (Hrr : Room_id r = rid) by congruence. rewrite <- Hrr.
      apply join_room_adds_member; simpl.
      * apply (inv_codes st HI).
      * now apply (inv_code_ok st HI).
      * assumption.
      * assumption.
      * rewrite find_membership_pair_rows, Hrr. now rewrite Hkick_rows.
Qed.

(** ** Listing the rooms of a user *)

Lemma list_rooms_ok db (memberships : list RoomMember) :
  NoDup (map Room_id (rooms db)) ->
  (forall m, In m memberships -> In (rm_room_id m) (map Room_id (rooms db))) ->
  exists listing,
    list_rooms db memberships = Ok listing /\
    Forall2 (fun m resp =>
               exists r, In r (rooms db) /\ Room_id r = rm_room_id m /\
                 resp = room_response r
                          (Query.count (in_room_not_banned (Room_id r))
                                       (room_members db)))
            memberships listing.
Proof.
  intros Hnd. induction memberships as [|m l IH]; intros Hrooms; simpl.
  - exists []. split; [reflexivity|constructor].
  - destruct IH as [listing [Hl Hall]];
      [intros x Hx; apply Hrooms; now right|].
    pose proof (Hrooms m (or_introl eq_refl)) as Hm.
    apply in_map_iff in Hm. destruct Hm as [r [Hid Hr]].
    assert (Hfind : Query.first (fun x => Room_id x =? rm_room_id m) (rooms db)
                    = Some r).
    { rewrite <- Hid. unfold Query.first.
      apply (find_by_unique_key Room_id Z.eqb); auto using Z.eqb_eq. }
    rewrite Hfind, Hl. simpl. eexists. split; [reflexivity|].
    constructor; [|assumption]. exists r. auto.
Qed.

(** C10.  In every reachable state, listing the rooms of a user returns
    normally, with one entry per non-banned membership row of the user, in
    storage order; so a room is listed exactly when the user has a
    non-banned membership in it, a room in which the user is banned is left
    out without any failure, and the member count of an entry is the number
    of non-banned membership rows of its room. *)
Theorem get_my_rooms_lists_unbanned_memberships :
  forall st, reachable st -> forall user,
    let db := st_db st in
    exists listing,
      get_my_rooms db user = Ok listing /\
      map resp_id listing
      = map rm_room_id
            (filter (unbanned_membership_of user) (room_members db)) /\
      (forall rid,
          In rid (map resp_id listing) <->
          exists m, In m (room_members db) /\ rm_user_id m = user /\
                    rm_room_id m = rid /\ rm_is_banned m = false) /\
      (forall m, In m (room_members db) -> rm_user_id m = user ->
                 rm_is_banned m = true ->
                 ~ In (rm_room_id m) (map resp_id listing)) /\
      (forall resp, In resp listing ->
          exists r, In r (rooms db) /\
            resp = room_response r
                     (Query.count (in_room_not_banned (Room_id r))
                                  (room_members db)) /\
            resp_member_count resp
            = Z.of_nat (List.length
                 (filter (fun m => (rm_room_id m =? Room_id r)
                                   && negb (rm_is_banned m))
                         (room_members db)))).
Proof.
  intros st Hreach user db.
  pose proof (reachable_Inv st Hreach) as HI.
  destruct (list_rooms_ok db
              (filter (unbanned_membership_of user) (room_members db)))
    as [listing [Hl Hall]].
  { apply (inv_room_ids st HI). }
  { intros m Hm. apply filter_In in Hm. apply (inv_member_room st HI). tauto. }
  assert (Hids : map resp_id listing
                 = map rm_room_id
                     (filter (unbanned_membership_of user) (room_members db))).
  { clear Hl. induction Hall as [|m resp l l' [r [_ [Hid ->]]] _ IH]; simpl;
      [reflexivity|]. now rewrite IH, Hid. }
  assert (Hlisted : forall rid,
             In rid (map resp_id listing) <->
             exists m, In m (room_members db) /\ rm_user_id m = user /\
                       rm_room_id m = rid /\ rm_is_banned m = false).
  { intros rid. rewrite Hids, in_map_iff. split.
    - intros [m [Hrid Hm]]. apply filter_In in Hm. destruct Hm as [Hin Hp].
      unfold unbanned_membership_of in Hp. apply andb_true_iff in Hp.
      destruct Hp as [Hu Hb]. apply Z.eqb_eq in Hu.
      apply negb_true_iff in Hb. eauto.
    - intros [m [Hin [Hu [Hrid Hb]]]]. exists m. split; [assumption|].
      apply filter_In. split; [assumption|].
      unfold unbanned_membership_of. rewrite Hb.
      now rewrite (proj2 (Z.eqb_eq _ _) Hu). }
  exists listing. split; [exact Hl|]. split; [exact Hids|].
  split; [exact Hlisted|]. split.
  - intros m Hin Hu Hb Hlist. apply Hlisted in Hlist.
    destruct Hlist as [m' [Hin' [Hu' [Hr' Hb']]]].
    destruct (inv_banned st HI m Hin Hb) as [_ Huniq].
    assert (m' = m); [|congruence].
    apply (length_le_1_eq (pair_rows db (rm_room_id m) user));
      [apply Huniq| |]; apply pair_rows_In; auto.
  - intros resp Hresp.
    clear Hl Hids Hlisted.
    induction Hall as [|m resp' l l' [r [Hr [_ ->]]] _ IH]; simpl in Hresp;
      [contradiction|].
    destruct Hresp as [<-|Hresp]; [|now apply IH].
    exists r. split; [assumption|]. split; reflexivity.
Qed.

(** ** Tasks *)

(** C8.  For a caller who is a member of the room and a task found in the
    room: when the caller's role is MEMBER and the task is assigned to
    someone else (or to nobody), update and delete fail with 403 and commit
    nothing, so the task table stays as it is; when the caller's role is
    ADMIN or OWNER, update and delete go through whoever the assignee is. *)
Theorem task_edit_rights :
  forall (db : DB) (room_id tid user : Z) (role : UserRole) (task : Task),
    check_room_access db user room_id = Ok role ->
    find_task db room_id tid = Some task ->
    (role = MEMBER -> task_assignee_id task <> Some user ->
       (forall task_data,
          update_task db room_id tid task_data user
          = Raise (HTTP 403 "Can only edit your own tasks")) /\
       delete_task db room_id tid user
       = Raise (HTTP 403 "Can only delete your own tasks") /\
       (forall st task_data, st_db st = db ->
          step (UpdateTask room_id tid task_data user) st = None /\
          step (DeleteTask room_id tid user) st = None)) /\
    (role = ADMIN \/ role = OWNER ->
       (forall task_data,
          update_task db room_id tid task_data user
          = Ok (with_tasks db
                  (Query.update task_id (task_id task)
                                (apply_task_update task_data) (tasks db)),
                apply_task_update task_data task)) /\
       delete_task db room_id tid user
       = Ok (with_tasks db (Query.delete task_id (task_id task) (tasks db)),
             "Task deleted")).
Proof.
  intros db room_id tid user role task Hacc Hfind. split.
  - intros -> Hother.
    assert (Hnot : not_own_task MEMBER task user = true).
    { unfold not_own_task. simpl.
      destruct (task_assignee_id task) as [a|]; [|reflexivity].
      destruct (a =? user) eqn:E; [|reflexivity].
      apply Z.eqb_eq in E. congruence. }
    assert (Hupd : forall task_data,
               update_task db room_id tid task_data user
               = Raise (HTTP 403 "Can only edit your own tasks")).
    { intros task_data. unfold update_task.
      rewrite Hacc. simpl. now rewrite Hfind, Hnot. }
    assert (Hdel : delete_task db room_id tid user
                   = Raise (HTTP 403 "Can only delete your own tasks")).
    { unfold delete_task. rewrite Hacc. simpl. now rewrite Hfind, Hnot. }
    split; [exact Hupd|]. split; [exact Hdel|].
    intros st task_data <-. simpl. now rewrite Hupd, Hdel.
  - intros Hrole.
    assert (Hnot : not_own_task role task user = false)
      by (unfold not_own_task; destruct Hrole as [-> | ->]; reflexivity).
    split.
    + intros task_data. unfold update_task.
      rewrite Hacc. simpl. now rewrite Hfind, Hnot.
    + unfold delete_task. rewrite Hacc. simpl. now rewrite Hfind, Hnot.
Qed.

(** ** Fetching messages *)

(** C6.  For a member and a limit that is not negative, the plain fetch
    returns the reversal of the newest-first query cut to [limit] rows:
    the result is in ascending order of creation time, has [limit] rows or
    all the rows of the room when there are fewer, and every message of
    the room that is left out was created no later than every message
    returned. *)
Theorem get_messages_latest_ascending :
  forall (db : DB) (room_id limit user : Z) (role : UserRole),
    check_room_access db user room_id = Ok role ->
    0 <= limit ->
    let in_this_room := filter (in_room room_id) (messages db) in
    exists page older,
      get_messages db room_id limit user = Ok page /\
      page = rev (firstn (Z.to_nat limit)
                         (Query.order_by_desc msg_created_at in_this_room)) /\
      StronglySorted (asc msg_created_at) page /\
      List.length page = Nat.min (Z.to_nat limit) (List.length in_this_room) /\
      Permutation (page ++ older) in_this_room /\
      (forall x y, In x page -> In y older ->
                   msg_created_at y <= msg_created_at x).
Proof.
  intros db room_id limit user role Hacc Hlimit in_this_room.
  set (newest_first := Query.order_by_desc msg_created_at in_this_room).
  pose proof (order_by_desc_sorted msg_created_at in_this_room) as Hsorted.
  pose proof (order_by_desc_perm msg_created_at in_this_room) as Hperm.
  fold newest_first in Hsorted, Hperm.
  rewrite <- (firstn_skipn (Z.to_nat limit) newest_first) in Hsorted.
  apply sorted_app_inv in Hsorted. destruct Hsorted as [Hpage [_ Hcross]].
  exists (rev (firstn (Z.to_nat limit) newest_first)),
         (skipn (Z.to_nat limit) newest_first).
  split; [|split; [|split; [|split; [|split]]]].
  - unfold get_messages. rewrite Hacc. reflexivity.
  - reflexivity.
  - now apply desc_rev_asc.
  - rewrite length_rev, length_firstn.
    now rewrite (Permutation_length Hperm).
  - rewrite <- Hperm.
    rewrite <- (firstn_skipn (Z.to_nat limit) newest_first) at 3.
    apply Permutation_app_tail. symmetry. apply Permutation_rev.
  - intros x y Hx Hy. apply in_rev in Hx. apply (Hcross x y Hx Hy).
Qed.

(** ** A concrete run *)

Lemma demo_reachable : reachable demo.
Proof. exists demo_events. reflexivity. Defined.

(** ** The properties at the concrete run *)

Lemma one_owner_once_created_witness :
  reachable demo /\ exactly_one_owner (st_db demo).
Proof.
  split; [exact demo_reachable|].
  apply (proj1 (proj2 (one_owner_once_created demo demo_reachable))).
  reflexivity.
Defined.

Lemma role_resolution_fails_for_banned_witness :
  reachable demo /\
  get_user_room_role (st_db demo) 9 1
  = Raise (HTTP 403 "You are banned from this room").
Proof.
  split; [exact demo_reachable|].
  apply (proj1 (role_resolution_fails_for_banned demo demo_reachable 9 1)).
  exists (mkRoomMember 3 1 9 MEMBER true). simpl. tauto.
Defined.

Lemma join_room_by_code_witness :
  (forall s, Forall (fun c => is_upper_or_digit c = true)
                    (list_ascii_of_string s) -> upper s = s) /\
  reachable demo /\
  join_room_with upper (st_db demo) "AbCdEf" 9 10
  = Raise (HTTP 403 "You are banned from this room").
Proof.
  split; [exact upper_fixed|]. split; [exact demo_reachable|].
  refine (proj1 (proj2 (proj2 (join_room_by_code upper upper_fixed
                                 demo demo_reachable "AbCdEf" 9 10)
                          (mkRoom 1 "flat" "ABCDEF" 7) _ _)) _).
  - simpl. tauto.
  - reflexivity.
  - exists (mkRoomMember 3 1 9 MEMBER true). simpl. tauto.
Defined.

Lemma ban_keeps_row_kick_deletes_row_witness :
  reachable demo /\
  check_owner_access (st_db demo) 7 1 = Ok OWNER /\
  find_membership (st_db demo) 1 8 = Some (mkRoomMember 2 1 8 MEMBER false) /\
  kick_user (st_db demo) 1 8 7
  = Ok (with_room_members (st_db demo)
          [mkRoomMember 1 1 7 OWNER false; mkRoomMember 3 1 9 MEMBER true],
        "User kicked").
Proof.
  split; [exact demo_reachable|]. split; [reflexivity|]. split; [reflexivity|].
  refine (proj1 (proj2 (proj2 (proj2
            (proj2 (proj2 (ban_keeps_row_kick_deletes_row demo demo_reachable
                             1 8 7)
                      OWNER (mkRoomMember 2 1 8 MEMBER false) _ _) _))))).
  - reflexivity.
  - reflexivity.
  - discriminate.
Defined.

Lemma get_my_rooms_lists_unbanned_memberships_witness :
  reachable demo /\
  exists listing,
    get_my_rooms (st_db demo) 9 = Ok listing /\
    ~ In 1 (map resp_id listing).
Proof.
  split; [exact demo_reachable|].
  destruct (get_my_rooms_lists_unbanned_memberships demo demo_reachable 9)
    as [listing [Hl [_ [_ [Hbanned _]]]]].
  exists listing. split; [exact Hl|].
  apply (Hbanned (mkRoomMember 3 1 9 MEMBER true)); simpl; tauto.
Defined.

Lemma task_edit_rights_witness :
  check_room_access (st_db demo) 8 1 = Ok MEMBER /\
  find_task (st_db demo) 1 2
  = Some (mkTask 2 1 (Some "bins") None (Some 7) (Some false)) /\
  delete_task (st_db demo) 1 2 8
  = Raise (HTTP 403 "Can only delete your own tasks").
Proof.
  split; [reflexivity|]. split; [reflexivity|].
  refine (proj1 (proj2 (proj1 (task_edit_rights (st_db demo) 1 2 8 MEMBER
                                 (mkTask 2 1 (Some "bins") None (Some 7)
                                         (Some false)) _ _) _ _))).
  - reflexivity.
  - reflexivity.
  - reflexivity.
  - discriminate.
Defined.

Lemma get_messages_latest_ascending_witness :
  check_room_access (st_db demo) 8 1 = Ok MEMBER /\ 0 <= 2 /\
  get_messages (st_db demo) 1 2 8
  = Ok [mkMessage 2 1 8 "two" 20; mkMessage 3 1 7 "three" 30].
Proof.
  split; [reflexivity|]. split; [lia|].
  destruct (get_messages_latest_ascending (st_db demo) 1 2 8 MEMBER)
    as [page [older [Hget [Hpage _]]]].
  - reflexivity.
  - lia.
  - rewrite Hget, Hpage. reflexivity.
Defined.

Lemma poll_returns_new_messages_witness :
  check_room_access (st_db demo) 8 1 = Ok MEMBER /\
  exists found,
    poll_messages (st_db demo) 1 2 5 8 0 [(st_db demo, 0%Q)] = Ok (Some found) /\
    Permutation found [mkMessage 3 1 7 "three" 30].
Proof.
  split; [reflexivity|].
  destruct (proj1 (poll_returns_new_messages (st_db demo) 1 2 5 8 0 MEMBER
                     eq_refl)
              [] (st_db demo) 0%Q [])
    as [found [Hpoll [_ [Hperm _]]]].
  - lia.
  - constructor.
  - apply Exists_cons_tl, Exists_cons_tl, Exists_cons_hd. simpl.
    split; [reflexivity|lia].
  - exists found. split; [exact Hpoll|exact Hperm].
Defined.

Lemma poll_timeout_is_empty_success_witness :
  check_room_access (st_db demo) 8 1 = Ok MEMBER /\
  poll_messages (st_db demo) 1 3 2 8 0
                [(st_db demo, 1 # 2); (st_db demo, 1%Q); (st_db demo, 2%Q)]
  = Ok (Some []).
Proof.
  split; [reflexivity|].
  apply (proj1 (proj2 (proj2 (proj2 (poll_timeout_is_empty_success
                                (st_db demo) 1 3 2 8 0 MEMBER eq_refl))))
           [(st_db demo, 1 # 2); (st_db demo, 1%Q)] (st_db demo) 2%Q []).
  - repeat constructor; unfold Qlt; simpl; lia.
  - reflexivity.
  - unfold Qle. simpl. lia.
Defined.

Lemma generate_room_code_unique_fixed_length_witness :
  generate_room_code 2 colliding_rng colliding_db 6 = Some "BBBBBB" /\
  String.length "BBBBBB" = Z.to_nat 6 /\
  (forall r, In r (rooms colliding_db) -> Room_code r <> "BBBBBB").
Proof.
  assert (Hgen : generate_room_code 2 colliding_rng colliding_db 6
                 = Some "BBBBBB").
  { apply (proj2 (generate_room_code_unique_fixed_length
                    colliding_rng colliding_db 6) 1%nat 2%nat).
    - intros i Hi. assert (i = 0%nat) as -> by lia. reflexivity.
    - reflexivity.
    - lia. }
  split; [exact Hgen|].
  destruct (proj1 (generate_room_code_unique_fixed_length
                     colliding_rng colliding_db 6)
              2%nat "BBBBBB" Hgen) as [Hlen [_ [_ Hnew]]].
  split; [exact Hlen|exact Hnew].
Defined.

(** * Further properties *)

(** ** What a successful task or message request did *)

Section OutcomesTasks.

Variable db : DB.

Lemma create_task_done rid data user tid db' t :
  create_task db rid data user tid = Ok (db', t) ->
  exists role,
    check_room_access db user rid = Ok role /\
    t = mkTask tid rid (Some (tc_title data)) (tc_description data)
               (Some (tc_assignee_id data)) (Some false) /\
    db' = with_tasks db (tasks db ++ [t]).
Proof.
  unfold create_task.
  destruct (check_room_access db user rid) as [role|]; simpl; [|discriminate].
  intros H. injection H as <- <-. eauto.
Qed.

Lemma update_task_done rid tid data user db' t :
  update_task db rid tid data user = Ok (db', t) ->
  exists role task,
    check_room_access db user rid = Ok role /\
    find_task db rid tid = Some task /\
    not_own_task role task user = false /\
    t = apply_task_update data task /\
    db' = with_tasks db
            (Query.update task_id (task_id task) (apply_task_update data)
                          (tasks db)).
Proof.
  unfold update_task.
  destruct (check_room_access db user rid) as [role|]; simpl; [|discriminate].
  destruct (find_task db rid tid) as [task|]; [|discriminate].
  destruct (not_own_task role task user) eqn:E; [discriminate|].
  intros H. injection H as <- <-. exists role, task. auto.
Qed.

Lemma delete_task_done rid tid user db' msg :
  delete_task db rid tid user = Ok (db', msg) ->
  exists role task,
    check_room_access db user rid = Ok role /\
    find_task db rid tid = Some task /\
    not_own_task role task user = false /\
    db' = with_tasks db (Query.delete task_id (task_id task) (tasks db)).
Proof.
  unfold delete_task.
  destruct (check_room_access db user rid) as [role|]; simpl; [|discriminate].
  destruct (find_task db rid tid) as [task|]; [|discriminate].
  destruct (not_own_task role task user) eqn:E; [discriminate|].
  intros H. injection H as <- _. exists role, task. auto.
Qed.

Lemma create_message_done rid content user mid now db' m :
  create_message db rid content user mid now = Ok (db', m) ->
  exists role,
    check_room_access db user rid = Ok role /\
    m = mkMessage mid rid user content now /\
    db' = with_messages db (messages db ++ [m]).
Proof.
  unfold create_message.
  destruct (check_room_access db user rid) as [role|]; simpl; [|discriminate].
  intros H. injection H as <- <-. eauto.
Qed.

Lemma find_task_In rid tid task :
  find_task db rid tid = Some task ->
  In task (tasks db) /\ task_id task = tid /\ task_room_id task = rid.
Proof.
  unfold find_task, Query.first. intros H. apply find_some in H.
  destruct H as [Hin H]. apply andb_true_iff in H.
  rewrite !Z.eqb_eq in H. tauto.
Qed.

End OutcomesTasks.

Lemma member_room_exists st uid rid role :
  Inv st -> check_room_access (st_db st) uid rid = Ok role ->
  In rid (map Room_id (rooms (st_db st))).
Proof.
  intros HI Hacc. apply check_room_access_ok in Hacc.
  destruct Hacc as [m [Hf _]]. apply find_membership_In in Hf.
  destruct Hf as [Hin [<- _]]. now apply (inv_member_room st HI).
Qed.

(** ** The further invariants hold in every reachable state *)

Lemma Inv2_init : Inv2 init.
Proof. constructor; simpl; try constructor; contradiction. Qed.

Section Preservation2.

Variable st : State.
Hypothesis HI : Inv st.
Hypothesis HJ : Inv2 st.

Let db := st_db st.

Lemma Inv2_members db' pend' :
  rooms db' = rooms db -> tasks db' = tasks db -> messages db' = messages db ->
  (forall p, In p pend' -> In p (st_pending st)) ->
  (forall m, In m (room_members db') ->
     (rm_role m = MEMBER /\ rm_is_banned m = false) \/
     (exists x, In x (room_members db) /\ rm_role m = rm_role x /\
                rm_room_id m = rm_room_id x /\ rm_user_id m = rm_user_id x /\
                (rm_role x = OWNER -> rm_is_banned m = rm_is_banned x)) \/
     (rm_role m = OWNER /\ rm_is_banned m = false /\
      exists r, In r (rooms db) /\ Room_id r = rm_room_id m /\
                Room_created_by r = rm_user_id m)) ->
  Inv2 (mkState db' pend').
Proof.
  intros Hr Ht Hm Hp Hrows.
  constructor; simpl; rewrite ?Hr, ?Ht, ?Hm.
  - intros m Hin. destruct (Hrows m Hin) as [[H _]|[[x [Hx [H _]]]|[H _]]].
    + congruence.
    + rewrite H. now apply (inv_no_admin st HJ).
    + congruence.
  - intros m Hin Ho.
    destruct (Hrows m Hin) as [[H _]|[[x [Hx [H [_ [_ Hb]]]]]|[_ [H _]]]].
    + congruence.
    + rewrite Hb by congruence.
      apply (inv_owner_unbanned st HJ x Hx). congruence.
    + exact H.
  - intros m Hin Ho.
    destruct (Hrows m Hin)
      as [[H _]|[[x [Hx [H [Hrid [Huid _]]]]]|[_ [_ H]]]].
    + congruence.
    + rewrite Hrid, Huid. apply (inv_owner_creator st HJ x Hx). congruence.
    + exact H.
  - intros p Hin. apply (inv_pending_creator st HJ). now apply Hp.
  - apply (inv_task_ids st HJ).
  - apply (inv_task_room st HJ).
  - apply (inv_msg_ids st HJ).
  - apply (inv_msg_room st HJ).
Qed.

Lemma Inv2_children db' :
  rooms db' = rooms db -> room_members db' = room_members db ->
  NoDup (map task_id (tasks db')) ->
  (forall t, In t (tasks db') -> In (task_room_id t) (map Room_id (rooms db))) ->
  NoDup (map msg_id (messages db')) ->
  (forall m, In m (messages db') -> In (msg_room_id m) (map Room_id (rooms db))) ->
  Inv2 (mkState db' (st_pending st)).
Proof.
  intros Hr Hm Ht1 Ht2 Hm1 Hm2. destruct HJ.
  constructor; simpl; rewrite ?Hr, ?Hm; assumption.
Qed.

End Preservation2.

Lemma Inv2_create_begin st name code user rid :
  Inv2 st ->
  Inv2 (mkState (fst (create_room_commit_room (st_db st) name code user rid))
                ((snd (create_room_commit_room (st_db st) name code user rid),
                  user) :: st_pending st)).
Proof.
  intros HJ. constructor; simpl.
  - apply (inv_no_admin st HJ).
  - apply (inv_owner_unbanned st HJ).
  - intros m Hin Ho.
    destruct (inv_owner_creator st HJ m Hin Ho) as [r [Hr H]].
    exists r. split; [apply in_or_app; now left|exact H].
  - intros p [<-|Hp]; [reflexivity|now apply (inv_pending_creator st HJ)].
  - apply (inv_task_ids st HJ).
  - intros t Ht. rewrite map_app. apply in_or_app. left.
    now apply (inv_task_room st HJ).
  - apply (inv_msg_ids st HJ).
  - intros m Hm. rewrite map_app. apply in_or_app. left.
    now apply (inv_msg_room st HJ).
Qed.

Lemma Inv2_delete_room st room :
  Inv2 st -> Inv2 (mkState (delete_cascade (st_db st) room) (st_pending st)).
Proof.
  intros HJ.
  assert (Hkeep : forall rid, rid <> Room_id room ->
             In rid (map Room_id (rooms (st_db st))) ->
             In rid (map Room_id
                       (Query.delete Room_id (Room_id room) (rooms (st_db st))))).
  { intros rid Hne Hin. apply in_map_iff in Hin. destruct Hin as [r [Hid Hr]].
    apply in_map_iff. exists r. split; [assumption|].
    apply delete_In. split; [assumption|congruence]. }
  constructor; unfold delete_cascade; simpl.
  - intros m Hin. apply filter_In in Hin. apply (inv_no_admin st HJ). tauto.
  - intros m Hin. apply filter_In in Hin.
    apply (inv_owner_unbanned st HJ). tauto.
  - intros m Hin Ho. apply filter_In in Hin. destruct Hin as [Hin Hne].
    apply negb_true_iff, Z.eqb_neq in Hne.
    destruct (inv_owner_creator st HJ m Hin Ho) as [r [Hr [Hid Hc]]].
    exists r. split; [|auto]. apply delete_In. split; [assumption|congruence].
  - apply (inv_pending_creator st HJ).
  - apply NoDup_map_filter. apply (inv_task_ids st HJ).
  - intros t Ht. apply filter_In in Ht. destruct Ht as [Ht Hne].
    apply negb_true_iff, Z.eqb_neq in Hne.
    apply Hkeep; [assumption|now apply (inv_task_room st HJ)].
  - apply NoDup_map_filter. apply (inv_msg_ids st HJ).
  - intros m Hm. apply filter_In in Hm. destruct Hm as [Hm Hne].
    apply negb_true_iff, Z.eqb_neq in Hne.
    apply Hkeep; [assumption|now apply (inv_msg_room st HJ)].
Qed.

Lemma Inv2_step ev st st' :
  Inv st -> Inv2 st -> step ev st = Some st' -> Inv2 st'.
Proof.
  intros HI HJ Hstep. destruct ev; simpl in Hstep.
  - destruct (fresh rid _); [|discriminate].
    destruct (generate_room_code _ _ _ _) as [code|]; [|discriminate].
    injection Hstep as <-. now apply Inv2_create_begin.
  - destruct (fresh mid _); [|discriminate].
    destruct (find _ (st_pending st)) as [[room user]|] eqn:Hfind;
      [|discriminate].
    injection Hstep as <-. apply find_some in Hfind. destruct Hfind as [Hp _].
    apply (Inv2_members st HJ); simpl; auto.
    + intros p Hin. apply filter_In in Hin. tauto.
    + intros m Hin. apply in_app_or in Hin. destruct Hin as [Hin|[<-|[]]].
      * right. left. exists m. auto.
      * right. right. simpl. repeat split; auto. exists room.
        split; [apply (inv_pending_room st HI (room, user) Hp)|].
        split; [reflexivity|].
        apply (inv_pending_creator st HJ (room, user) Hp).
  - destruct (fresh mid _); [|discriminate].
    apply committed_some in Hstep. destruct Hstep as [db' [resp [Hok ->]]].
    apply join_room_ok in Hok. destruct Hok as [room [_ [_ ->]]].
    apply (Inv2_members st HJ); simpl; auto.
    intros m Hin. apply in_app_or in Hin. destruct Hin as [Hin|[<-|[]]].
    + right. left. exists m. auto.
    + left. auto.
  - apply committed_some in Hstep. destruct Hstep as [db' [msg [Hok ->]]].
    apply leave_room_ok in Hok. destruct Hok as [m0 [_ [_ ->]]].
    apply (Inv2_members st HJ); simpl; auto.
    intros m Hin. apply delete_In in Hin. right. left. exists m. tauto.
  - apply committed_some in Hstep. destruct Hstep as [db' [msg [Hok ->]]].
    apply delete_room_ok in Hok. destruct Hok as [role [room [_ [_ ->]]]].
    now apply Inv2_delete_room.
  - apply committed_some in Hstep. destruct Hstep as [db' [msg [Hok ->]]].
    apply ban_user_ok in Hok. destruct Hok as [role [m0 [_ [Hf [Hrole ->]]]]].
    apply find_membership_In in Hf. destruct Hf as [Hin0 _].
    apply (Inv2_members st HJ); simpl; auto.
    intros m Hin. apply update_In in Hin.
    destruct Hin as [x [Hx [[Hk ->]|[_ ->]]]]; right; left; exists x; simpl.
    + repeat split; auto. intros Ho. exfalso. apply Hrole.
      assert (x = m0); [|congruence].
      apply (NoDup_key_eq rm_id (room_members (st_db st))); auto.
      apply (inv_member_ids st HI).
    + auto.
  - apply committed_some in Hstep. destruct Hstep as [db' [msg [Hok ->]]].
    apply unban_user_ok in Hok. destruct Hok as [role [m0 [_ [_ ->]]]].
    apply (Inv2_members st HJ); simpl; auto.
    intros m Hin. apply update_In in Hin.
    destruct Hin as [x [Hx [[Hk ->]|[_ ->]]]]; right; left; exists x; simpl.
    + repeat split; auto. intros Ho. symmetry.
      now apply (inv_owner_unbanned st HJ).
    + auto.
  - apply committed_some in Hstep. destruct Hstep as [db' [msg [Hok ->]]].
    apply kick_user_ok in Hok. destruct Hok as [role [m0 [_ [_ [_ ->]]]]].
    apply (Inv2_members st HJ); simpl; auto.
    intros m Hin. apply delete_In in Hin. right. left. exists m. tauto.
  - destruct (fresh tid _) eqn:Hfresh; [|discriminate].
    apply committed_some in Hstep. destruct Hstep as [db' [t [Hok ->]]].
    apply create_task_done in Hok. destruct Hok as [role [Hacc [Ht ->]]].
    apply (Inv2_children st HJ); simpl; auto.
    + apply NoDup_map_snoc; [apply (inv_task_ids st HJ)|].
      rewrite Ht. simpl. now apply fresh_not_in.
    + intros t' Hin. apply in_app_or in Hin. destruct Hin as [Hin|[<-|[]]].
      * now apply (inv_task_room st HJ).
      * rewrite Ht. simpl. eapply member_room_exists; eauto.
    + apply (inv_msg_ids st HJ).
    + apply (inv_msg_room st HJ).
  - apply committed_some in Hstep. destruct Hstep as [db' [t [Hok ->]]].
    apply update_task_done in Hok.
    destruct Hok as [role [task [_ [_ [_ [_ ->]]]]]].
    apply (Inv2_children st HJ); simpl; auto.
    + rewrite update_map by reflexivity. apply (inv_task_ids st HJ).
    + intros t' Hin. apply update_In in Hin.
      destruct Hin as [x [Hx [[_ ->]|[_ ->]]]]; simpl;
        now apply (inv_task_room st HJ).
    + apply (inv_msg_ids st HJ).
    + apply (inv_msg_room st HJ).
  - apply committed_some in Hstep. destruct Hstep as [db' [t [Hok ->]]].
    apply delete_task_done in Hok. destruct Hok as [role [task [_ [_ [_ ->]]]]].
    apply (Inv2_children st HJ); simpl; auto.
    + apply NoDup_map_filter. apply (inv_task_ids st HJ).
    + intros t' Hin. apply delete_In in Hin.
      apply (inv_task_room st HJ). tauto.
    + apply (inv_msg_ids st HJ).
    + apply (inv_msg_room st HJ).
  - destruct (fresh mid _) eqn:Hfresh; [|discriminate].
    apply committed_some in Hstep. destruct Hstep as [db' [m [Hok ->]]].
    apply create_message_done in Hok. destruct Hok as [role [Hacc [Hm ->]]].
    apply (Inv2_children st HJ); simpl; auto.
    + apply (inv_task_ids st HJ).
    + apply (inv_task_room st HJ).
    + apply NoDup_map_snoc; [apply (inv_msg_ids st HJ)|].
      rewrite Hm. simpl. now apply fresh_not_in.
    + intros m' Hin. apply in_app_or in Hin. destruct Hin as [Hin|[<-|[]]].
      * now apply (inv_msg_room st HJ).
      * rewrite Hm. simpl. eapply member_room_exists; eauto.
Qed.

Lemma Inv2_run evs :
  forall st st', Inv st -> Inv2 st -> run evs st = Some st' -> Inv2 st'.
Proof.
  induction evs as [|ev evs IH]; simpl; intros st st' HI HJ Hrun.
  - now injection Hrun as <-.
  - destruct (step ev st) as [st1|] eqn:Hstep; [|discriminate].
    apply (IH st1 st'); [|  |exact Hrun].
    + eapply Inv_step; eauto.
    + eapply Inv2_step; eauto.
Qed.

Lemma reachable_Inv2 st : reachable st -> Inv2 st.
Proof.
  intros [evs Hrun].
  eapply Inv2_run; [apply Inv_init|apply Inv2_init|exact Hrun].
Qed.

(** ** The three access checks *)

(** X1.  The access checks nest: whoever passes the owner check has role
    OWNER and passes the admin check, whoever passes the admin check is
    OWNER or ADMIN and passes the member check, each with the same role; a
    failure of the member check is the failure of the other two; and every
    failure of any of the three has status 403. *)
Theorem access_checks_nest :
  forall (db : DB) (uid rid : Z),
    (forall role, check_owner_access db uid rid = Ok role ->
       role = OWNER /\ check_admin_access db uid rid = Ok role) /\
    (forall role, check_admin_access db uid rid = Ok role ->
       (role = OWNER \/ role = ADMIN) /\
       check_room_access db uid rid = Ok role) /\
    (forall e, check_room_access db uid rid = Raise e ->
       check_admin_access db uid rid = Raise e /\
       check_owner_access db uid rid = Raise e) /\
    (forall e,
       check_room_access db uid rid = Raise e \/
       check_admin_access db uid rid = Raise e \/
       check_owner_access db uid rid = Raise e ->
       status_code e = 403).
Proof.
  intros db uid rid.
  assert (Hroom : forall e, check_room_access db uid rid = Raise e ->
                            status_code e = 403).
  { unfold check_room_access, get_user_room_role. intros e.
    destruct (Query.first _ _) as [m|]; simpl.
    - destruct (rm_is_banned m); simpl; [|discriminate].
      intros H. now injection H as <-.
    - intros H. now injection H as <-. }
  unfold check_owner_access, check_admin_access.
  destruct (check_room_access db uid rid) as [r|e0] eqn:E; simpl.
  - split; [|split; [|split]].
    + intros role. destruct r; simpl; try discriminate.
      intros H. injection H as <-. auto.
    + intros role. destruct r; simpl; try discriminate;
        intros H; injection H as <-; auto.
    + discriminate.
    + intros e [H|[H|H]]; [discriminate| |]; destruct r; simpl in H;
        try discriminate; now injection H as <-.
  - split; [discriminate|]. split; [discriminate|]. split.
    + intros e H. injection H as <-. auto.
    + intros e [H|[H|H]]; injection H as <-; now apply Hroom.
Qed.

Lemma access_checks_nest_witness :
  check_owner_access (st_db demo) 7 1 = Ok OWNER /\
  check_admin_access (st_db demo) 7 1 = Ok OWNER.
Proof.
  split; [reflexivity|].
  apply (proj1 (access_checks_nest (st_db demo) 7 1) OWNER). reflexivity.
Defined.

(** ** Roles, owners and references in the reachable states *)

(** X2.  No endpoint hands out the ADMIN role: in every reachable state
    every membership row is OWNER or MEMBER, no access check returns ADMIN,
    and the admin check lets through exactly the callers that the owner
    check lets through. *)
Theorem admin_role_never_assigned :
  forall st, reachable st ->
    let db := st_db st in
    (forall m, In m (room_members db) ->
               rm_role m = OWNER \/ rm_role m = MEMBER) /\
    (forall uid rid role, check_room_access db uid rid = Ok role ->
                          role <> ADMIN) /\
    (forall uid rid role, check_admin_access db uid rid = Ok role <->
                          check_owner_access db uid rid = Ok role).
Proof.
  intros st Hreach db. pose proof (reachable_Inv2 st Hreach) as HJ.
  assert (Hacc : forall uid rid role,
             check_room_access db uid rid = Ok role -> role <> ADMIN).
  { intros uid rid role H. apply check_room_access_ok in H.
    destruct H as [m [Hf [<- _]]]. apply find_membership_In in Hf.
    apply (inv_no_admin st HJ). tauto. }
  split; [|split; [exact Hacc|]].
  - intros m Hin. pose proof (inv_no_admin st HJ m Hin).
    destruct (rm_role m); auto. congruence.
  - intros uid rid role. unfold check_admin_access, check_owner_access.
    destruct (check_room_access db uid rid) as [r|e] eqn:E; simpl;
      [|split; discriminate].
    pose proof (Hacc uid rid r E). destruct r; simpl; try congruence;
      split; auto; discriminate.
Qed.

Lemma admin_role_never_assigned_witness :
  reachable demo /\
  (forall m, In m (room_members (st_db demo)) ->
             rm_role m = OWNER \/ rm_role m = MEMBER).
Proof.
  split; [exact demo_reachable|].
  exact (proj1 (admin_role_never_assigned demo demo_reachable)).
Defined.

(** X3.  An owner is never banned: in every reachable state every OWNER
    row has its ban flag off, and a user whose first row in a room is the
    OWNER row passes the owner check. *)
Theorem owner_row_never_banned :
  forall st, reachable st ->
    forall m, In m (room_members (st_db st)) -> rm_role m = OWNER ->
      rm_is_banned m = false /\
      (find_membership (st_db st) (rm_room_id m) (rm_user_id m) = Some m ->
       check_owner_access (st_db st) (rm_user_id m) (rm_room_id m) = Ok OWNER).
Proof.
  intros st Hreach m Hin Ho. pose proof (reachable_Inv2 st Hreach) as HJ.
  pose proof (inv_owner_unbanned st HJ m Hin Ho) as Hb.
  split; [exact Hb|]. intros Hf.
  unfold check_owner_access, check_room_access, get_user_room_role.
  rewrite first_is_membership, Hf, Hb. simpl. now rewrite Ho.
Qed.

Lemma owner_row_never_banned_witness :
  reachable demo /\
  check_owner_access (st_db demo) 7 1 = Ok OWNER.
Proof.
  split; [exact demo_reachable|].
  apply (proj2 (owner_row_never_banned demo demo_reachable
                  (mkRoomMember 1 1 7 OWNER false)
                  (or_introl eq_refl) eq_refl)).
  reflexivity.
Defined.

(** X4.  The two records of who owns a room agree: in every reachable
    state the user of an OWNER row of a room is the user in the room's
    [created_by]. *)
Theorem owner_is_creator :
  forall st, reachable st ->
    forall r m, In r (rooms (st_db st)) -> In m (room_members (st_db st)) ->
      rm_room_id m = Room_id r -> rm_role m = OWNER ->
      rm_user_id m = Room_created_by r.
Proof.
  intros st Hreach r m Hr Hm Hrid Ho.
  pose proof (reachable_Inv st Hreach) as HI.
  pose proof (reachable_Inv2 st Hreach) as HJ.
  destruct (inv_owner_creator st HJ m Hm Ho) as [r' [Hr' [Hid Hc]]].
  assert (r' = r); [|congruence].
  apply (NoDup_key_eq Room_id (rooms (st_db st))); auto;
    [apply (inv_room_ids st HI)|congruence].
Qed.

Lemma owner_is_creator_witness :
  reachable demo /\
  rm_user_id (mkRoomMember 1 1 7 OWNER false)
  = Room_created_by (mkRoom 1 "flat" "ABCDEF" 7).
Proof.
  split; [exact demo_reachable|].
  apply (owner_is_creator demo demo_reachable); simpl; auto.
Defined.

(** X5.  In every reachable state two rooms never share an id or a code,
    and every stored code has six characters, all upper-case letters or
    digits, so that upper-casing leaves it as it is. *)
Theorem stored_codes_unique_upper :
  forall st, reachable st ->
    forall r1 r2, In r1 (rooms (st_db st)) -> In r2 (rooms (st_db st)) ->
      (Room_code r1 = Room_code r2 -> r1 = r2) /\
      (Room_id r1 = Room_id r2 -> r1 = r2) /\
      String.length (Room_code r1) = 6%nat /\
      Forall (fun c => is_upper_or_digit c = true)
             (list_ascii_of_string (Room_code r1)) /\
      upper (Room_code r1) = Room_code r1.
Proof.
  intros st Hreach r1 r2 H1 H2. pose proof (reachable_Inv st Hreach) as HI.
  destruct (inv_code_ok st HI r1 H1) as [Hlen Hchars].
  split; [|split; [|split; [|split]]]; auto.
  - intros Hc. revert H1 H2 Hc. generalize (inv_codes st HI).
    generalize (rooms (st_db st)). intros l Hnd.
    induction l as [|a l IH]; simpl; [contradiction|].
    inversion Hnd as [|? ? Hnot Hnd']; subst.
    intros [->|H1] [->|H2] Hc; auto.
    + exfalso. apply Hnot. rewrite Hc. now apply in_map.
    + exfalso. apply Hnot. rewrite <- Hc. now apply in_map.
  - intros Hid. apply (NoDup_key_eq Room_id (rooms (st_db st))); auto.
    apply (inv_room_ids st HI).
  - now apply upper_fixed.
Qed.

Lemma stored_codes_unique_upper_witness :
  reachable demo /\ upper "ABCDEF" = "ABCDEF".
Proof.
  split; [exact demo_reachable|].
  apply (stored_codes_unique_upper demo demo_reachable
           (mkRoom 1 "flat" "ABCDEF" 7) (mkRoom 1 "flat" "ABCDEF" 7));
    simpl; auto.
Defined.

(** X6.  No row outlives its room: in every reachable state every
    membership, task and message belongs to a room that is in storage, and
    primary keys are unique within the membership, task and message
    tables. *)
Theorem rows_reference_stored_rooms :
  forall st, reachable st ->
    let db := st_db st in
    (forall m, In m (room_members db) ->
               exists r, In r (rooms db) /\ Room_id r = rm_room_id m) /\
    (forall t, In t (tasks db) ->
               exists r, In r (rooms db) /\ Room_id r = task_room_id t) /\
    (forall m, In m (messages db) ->
               exists r, In r (rooms db) /\ Room_id r = msg_room_id m) /\
    NoDup (map rm_id (room_members db)) /\
    NoDup (map task_id (tasks db)) /\
    NoDup (map msg_id (messages db)).
Proof.
  intros st Hreach db.
  pose proof (reachable_Inv st Hreach) as HI.
  pose proof (reachable_Inv2 st Hreach) as HJ.
  assert (Hex : forall rid, In rid (map Room_id (rooms db)) ->
                            exists r, In r (rooms db) /\ Room_id r = rid).
  { intros rid H. apply in_map_iff in H. destruct H as [r [Hid Hr]]. eauto. }
  split; [|split; [|split; [|split; [|split]]]].
  - intros m Hm. apply Hex. now apply (inv_member_room st HI).
  - intros t Ht. apply Hex. now apply (inv_task_room st HJ).
  - intros m Hm. apply Hex. now apply (inv_msg_room st HJ).
  - apply (inv_member_ids st HI).
  - apply (inv_task_ids st HJ).
  - apply (inv_msg_ids st HJ).
Qed.

Lemma rows_reference_stored_rooms_witness :
  reachable demo /\ NoDup (map task_id (tasks (st_db demo))).
Proof.
  split; [exact demo_reachable|].
  exact (proj1 (proj2 (proj2 (proj2 (proj2
           (rows_reference_stored_rooms demo demo_reachable)))))).
Defined.

(** X7.  In every reachable state a user has at most one membership row in
    a room, with one exception: the creator of the room can have a MEMBER
    row followed by the OWNER row, and nobody else has two. *)
Theorem at_most_one_row_per_pair :
  forall st, reachable st -> forall rid uid,
    let db := st_db st in
    (List.length (pair_rows db rid uid) <= 1)%nat \/
    (exists a o r,
        pair_rows db rid uid = [a; o] /\
        rm_role a = MEMBER /\ rm_role o = OWNER /\
        In r (rooms db) /\ Room_id r = rid /\ Room_created_by r = uid).
Proof.
  intros st Hreach rid uid db.
  pose proof (reachable_Inv st Hreach) as HI.
  pose proof (reachable_Inv2 st Hreach) as HJ.
  pose proof (inv_pairs st HI rid uid) as Hshape. fold db in Hshape.
  destruct (pair_rows db rid uid) as [|a [|o [|c l]]] eqn:Hp; simpl in *;
    try (left; lia); try contradiction.
  right. destruct Hshape as [Ha Ho].
  assert (Hain : In a (pair_rows db rid uid)) by (rewrite Hp; simpl; auto).
  assert (Hoin : In o (pair_rows db rid uid)) by (rewrite Hp; simpl; auto).
  apply pair_rows_In in Hain. apply pair_rows_In in Hoin.
  destruct Hain as [Hain _]. destruct Hoin as [Hoin [Hor Hou]].
  destruct (inv_owner_creator st HJ o Hoin Ho) as [r [Hr [Hid Hc]]].
  exists a, o, r. repeat split; auto; try congruence.
  pose proof (inv_no_admin st HJ a Hain). destruct (rm_role a); congruence.
Qed.

Lemma at_most_one_row_per_pair_witness :
  reachable demo /\ (List.length (pair_rows (st_db demo) 1 8) <= 1)%nat.
Proof.
  split; [exact demo_reachable|].
  destruct (at_most_one_row_per_pair demo demo_reachable 1 8)
    as [H|[a [o [r [H _]]]]]; [exact H|discriminate H].
Defined.

(** ** Leaving, deleting, banning and unbanning *)

Section MoreRowsByKey.

Context {A : Type} (key : A -> Z).

Lemma find_update (p : A -> bool) (k : Z) (f : A -> A) (l : list A) :
  (forall x, p (f x) = p x) ->
  find p (Query.update key k f l)
  = option_map (fun x => if key x =? k then f x else x) (find p l).
Proof.
  intros Hp. unfold Query.update.
  induction l as [|a l IH]; simpl; [reflexivity|].
  assert (p (if key a =? k then f a else a) = p a) as ->
    by (destruct (key a =? k); auto).
  destruct (p a); [reflexivity|exact IH].
Qed.

Lemma update_update (k : Z) (f g : A -> A) (l : list A) :
  (forall x, key (f x) = key x) ->
  Query.update key k g (Query.update key k f l)
  = Query.update key k (fun x => g (f x)) l.
Proof.
  intros Hk. unfold Query.update. rewrite map_map. apply map_ext.
  intros x. destruct (key x =? k) eqn:E; [|now rewrite E].
  now rewrite Hk, E.
Qed.

Lemma update_same (k : Z) (h : A -> A) (l : list A) :
  (forall x, In x l -> key x = k -> h x = x) -> Query.update key k h l = l.
Proof.
  intros H. unfold Query.update. rewrite <- (map_id l) at 2.
  apply map_ext_in. intros x Hx.
  destruct (key x =? k) eqn:E; [|reflexivity].
  apply Z.eqb_eq in E. now apply H.
Qed.

Lemma delete_length_one (l : list A) (x : A) :
  NoDup (map key l) -> In x l ->
  S (List.length (Query.delete key (key x) l)) = List.length l.
Proof.
  unfold Query.delete.
  induction l as [|a l IH]; simpl; intros Hnd Hin; [contradiction|].
  inversion Hnd as [|? ? Hnot Hnd']; subst.
  destruct Hin as [->|Hin].
  - rewrite Z.eqb_refl. simpl. f_equal.
    fold (Query.delete key (key x) l). f_equal. apply delete_absent.
    intros y Hy Hk. apply Hnot. rewrite <- Hk. now apply in_map.
  - destruct (key a =? key x) eqn:E.
    + apply Z.eqb_eq in E. exfalso. apply Hnot. rewrite E. now apply in_map.
    + simpl. f_equal. now apply IH.
Qed.

Lemma find_snoc_new (p : A -> bool) (l : list A) (x : A) :
  filter p l = [] -> p x = true -> find p (l ++ [x]) = Some x.
Proof.
  intros Hnone Hx. rewrite find_filter_hd, filter_app, Hnone. simpl.
  now rewrite Hx.
Qed.

End MoreRowsByKey.

Lemma with_room_members_same db :
  with_room_members db (room_members db) = db.
Proof. now destruct db. Qed.

Lemma find_membership_after_delete db rid uid k :
  find_membership
    (with_room_members db (Query.delete rm_id k (room_members db))) rid uid
  = hd_error (Query.delete rm_id k (pair_rows db rid uid)).
Proof.
  rewrite find_membership_pair_rows. unfold pair_rows. simpl.
  now rewrite delete_filter.
Qed.

Lemma not_a_member_after db rid uid :
  pair_rows db rid uid = [] ->
  check_room_access db uid rid
  = Raise (HTTP 403 "You are not a member of this room").
Proof.
  intros H. unfold check_room_access, get_user_room_role.
  rewrite first_is_membership, find_membership_pair_rows, H. reflexivity.
Qed.

(** X8.  [leave_room] fails with 404 for a user without a row in the room
    and with 400 for one whose row is the OWNER row, and commits nothing
    then.  In a reachable state a successful leave removes one row; after
    it the user fails the member check as not a member, unless they are
    the creator who also held the OWNER row, which is then their only
    row. *)
Theorem leave_room_ends_membership :
  forall st, reachable st -> forall rid user,
    let db := st_db st in
    (find_membership db rid user = None ->
       leave_room db rid user = Raise (HTTP 404 "Not a member") /\
       step (LeaveRoom rid user) st = None) /\
    (forall m, find_membership db rid user = Some m -> rm_role m = OWNER ->
       leave_room db rid user
       = Raise (HTTP 400 "Owner cannot leave the room. Delete it instead.") /\
       step (LeaveRoom rid user) st = None) /\
    (forall db' msg, leave_room db rid user = Ok (db', msg) ->
       S (List.length (room_members db')) = List.length (room_members db) /\
       rooms db' = rooms db /\
       ((pair_rows db' rid user = [] /\
         check_room_access db' user rid
         = Raise (HTTP 403 "You are not a member of this room")) \/
        (exists o, pair_rows db' rid user = [o] /\ rm_role o = OWNER /\
                   List.length (pair_rows db rid user) = 2%nat))).
Proof.
  intros st Hreach rid user db.
  pose proof (reachable_Inv st Hreach) as HI.
  split; [|split].
  - intros Hnone.
    assert (H : leave_room db rid user = Raise (HTTP 404 "Not a member"))
      by (unfold leave_room; now rewrite Hnone).
    split; [exact H|]. simpl. fold db. now rewrite H.
  - intros m Hf Ho.
    assert (H : leave_room db rid user
                = Raise (HTTP 400
                           "Owner cannot leave the room. Delete it instead.")).
    { unfold leave_room. rewrite Hf.
      now rewrite (proj2 (UserRole_eqb_eq _ _) Ho). }
    split; [exact H|]. simpl. fold db. now rewrite H.
  - intros db' msg Hok. apply leave_room_ok in Hok.
    destruct Hok as [m [Hf [Hrole ->]]].
    pose proof (find_membership_In _ _ _ _ Hf) as [Hin _].
    split; [|split; [reflexivity|]].
    + simpl. apply delete_length_one; [apply (inv_member_ids st HI)|assumption].
    + pose proof (inv_pairs st HI rid user) as Hshape. fold db in Hshape.
      pose proof (inv_member_ids st HI) as Hnd. fold db in Hnd.
      assert (Hrows : pair_rows
                        (with_room_members db
                           (Query.delete rm_id (rm_id m) (room_members db)))
                        rid user
                      = Query.delete rm_id (rm_id m) (pair_rows db rid user)).
      { unfold pair_rows. simpl. now rewrite delete_filter. }
      rewrite find_membership_pair_rows in Hf.
      destruct (pair_rows db rid user) as [|a [|o [|c l]]] eqn:Hp;
        simpl in Hf, Hshape; try discriminate; try contradiction;
        injection Hf as ->.
      * left. assert (Hnil : Query.delete rm_id (rm_id m) [m] = []).
        { unfold Query.delete. simpl. now rewrite Z.eqb_refl. }
        rewrite Hnil in Hrows. split; [exact Hrows|].
        now apply not_a_member_after.
      * right. exists o. destruct Hshape as [_ Ho].
        split; [|auto]. rewrite Hrows. unfold Query.delete. simpl.
        rewrite Z.eqb_refl. simpl.
        destruct (rm_id o =? rm_id m) eqn:E; [|reflexivity].
        apply Z.eqb_eq in E. exfalso.
        assert (Hoin : In o (pair_rows db rid user))
          by (rewrite Hp; simpl; auto).
        apply pair_rows_In in Hoin.
        assert (o = m); [|congruence].
        apply (NoDup_key_eq rm_id (room_members db)); tauto.
Qed.

Lemma leave_room_ends_membership_witness :
  reachable demo /\
  exists db' msg,
    leave_room (st_db demo) 1 8 = Ok (db', msg) /\
    S (List.length (room_members db')) = 3%nat.
Proof.
  split; [exact demo_reachable|].
  eexists. eexists. split; [reflexivity|].
  apply (proj2 (proj2 (leave_room_ends_membership demo demo_reachable 1 8))
           _ "Left the room" eq_refl).
Defined.

(** X9.  A ban does not survive leaving: in every reachable state a banned
    user can leave the room, after which they have no row in it, and a
    join by any spelling of the room's code then gives them a MEMBER row
    that is not banned, with which they pass the member check. *)
Theorem banned_user_leaves_and_rejoins :
  forall st, reachable st -> forall m,
    let db := st_db st in
    In m (room_members db) -> rm_is_banned m = true ->
    let rid := rm_room_id m in
    let user := rm_user_id m in
    let db_left :=
      with_room_members db (Query.delete rm_id (rm_id m) (room_members db)) in
    check_room_access db user rid
    = Raise (HTTP 403 "You are banned from this room") /\
    leave_room db rid user = Ok (db_left, "Left the room") /\
    pair_rows db_left rid user = [] /\
    exists r, In r (rooms db) /\ Room_id r = rid /\
      forall code mid, upper code = upper (Room_code r) ->
        exists db_join resp,
          join_room db_left code user mid = Ok (db_join, resp) /\
          find_membership db_join rid user
          = Some (mkRoomMember mid rid user MEMBER false) /\
          check_room_access db_join user rid = Ok MEMBER.
Proof.
  intros st Hreach m db Hin Hb rid user db_left.
  pose proof (reachable_Inv st Hreach) as HI.
  pose proof (reachable_Inv2 st Hreach) as HJ.
  pose proof (banned_row_found st m HI Hin Hb) as Hf.
  fold db rid user in Hf.
  assert (Hrole : rm_role m <> OWNER).
  { intros Ho. pose proof (inv_owner_unbanned st HJ m Hin Ho). congruence. }
  destruct (inv_banned st HI m Hin Hb) as [_ Huniq].
  pose proof (pair_rows_single db rid user m (Huniq user) Hin eq_refl eq_refl)
    as Hrows.
  assert (Hleft : pair_rows db_left rid user = []).
  { unfold pair_rows, db_left. simpl. rewrite delete_filter.
    fold (pair_rows db rid user). rewrite Hrows.
    unfold Query.delete. simpl. now rewrite Z.eqb_refl. }
  split; [|split; [|split; [exact Hleft|]]].
  - unfold check_room_access, get_user_room_role.
    rewrite first_is_membership, Hf, Hb. reflexivity.
  - unfold leave_room. rewrite Hf.
    now rewrite (proj2 (UserRole_eqb_neq _ _) Hrole).
  - pose proof (inv_member_room st HI m Hin) as Hroom.
    apply in_map_iff in Hroom. destruct Hroom as [r [Hid Hr]].
    exists r. split; [assumption|]. split; [assumption|].
    intros code mid Hcode.
    assert (Hjoin := join_room_adds_member db_left r code user mid).
    simpl in Hjoin. rewrite Hid in Hjoin. fold rid in Hjoin.
    eexists. eexists. split; [|split].
    + apply Hjoin; auto.
      * apply (inv_codes st HI).
      * now apply (inv_code_ok st HI).
      * rewrite find_membership_pair_rows. now rewrite Hleft.
    + unfold find_membership, Query.first. simpl.
      apply find_snoc_new; [exact Hleft|].
      simpl. now rewrite !Z.eqb_refl.
    + unfold check_room_access, get_user_room_role.
      rewrite first_is_membership.
      unfold find_membership, Query.first. simpl.
      rewrite find_snoc_new; [reflexivity|exact Hleft|].
      simpl. now rewrite !Z.eqb_refl.
Qed.

Lemma banned_user_leaves_and_rejoins_witness :
  reachable demo /\
  leave_room (st_db demo) 1 9
  = Ok (with_room_members (st_db demo)
          [mkRoomMember 1 1 7 OWNER false; mkRoomMember 2 1 8 MEMBER false],
        "Left the room").
Proof.
  split; [exact demo_reachable|].
  apply (proj1 (proj2 (banned_user_leaves_and_rejoins demo demo_reachable
                         (mkRoomMember 3 1 9 MEMBER true)
                         (or_intror (or_intror (or_introl eq_refl)))
                         eq_refl))).
Defined.

Lemma check_owner_access_role db uid rid role :
  check_owner_access db uid rid = Ok role -> role = OWNER.
Proof.
  unfold check_owner_access.
  destruct (check_room_access db uid rid) as [r|]; simpl; [|discriminate].
  destruct r; simpl; try discriminate. intros H. now injection H as <-.
Qed.

Lemma check_room_access_intro db uid rid m :
  find_membership db rid uid = Some m -> rm_is_banned m = false ->
  check_room_access db uid rid = Ok (rm_role m).
Proof.
  intros Hf Hb. unfold check_room_access, get_user_room_role.
  now rewrite first_is_membership, Hf, Hb.
Qed.

Lemma check_owner_access_intro db uid rid m :
  find_membership db rid uid = Some m -> rm_role m = OWNER ->
  rm_is_banned m = false -> check_owner_access db uid rid = Ok OWNER.
Proof.
  intros Hf Ho Hb. unfold check_owner_access.
  rewrite (check_room_access_intro db uid rid m Hf Hb). simpl.
  now rewrite Ho.
Qed.

Lemma find_membership_after_update db rid uid k b :
  find_membership
    (with_room_members db
       (Query.update rm_id k (set_is_banned b) (room_members db))) rid uid
  = option_map (fun x => if rm_id x =? k then set_is_banned b x else x)
               (find_membership db rid uid).
Proof.
  unfold find_membership, Query.first. simpl. now apply find_update.
Qed.

(** X10.  [delete_room] is refused to a caller who fails the owner check.
    In a reachable state it succeeds for a caller who passes it, and takes
    with the room exactly the memberships, tasks and messages of that
    room; afterwards nobody passes the member check for the room and its
    code is no longer found by [join_room]. *)
Theorem delete_room_takes_the_room_rows :
  forall st, reachable st -> forall rid user,
    let db := st_db st in
    (forall e, check_owner_access db user rid = Raise e ->
       delete_room db rid user = Raise e /\
       step (DeleteRoom rid user) st = None) /\
    (forall role, check_owner_access db user rid = Ok role ->
       exists room db',
         In room (rooms db) /\ Room_id room = rid /\
         delete_room db rid user = Ok (db', "Room deleted") /\
         (forall r, In r (rooms db') <-> In r (rooms db) /\ Room_id r <> rid) /\
         (forall m, In m (room_members db')
                    <-> In m (room_members db) /\ rm_room_id m <> rid) /\
         (forall t, In t (tasks db')
                    <-> In t (tasks db) /\ task_room_id t <> rid) /\
         (forall m, In m (messages db')
                    <-> In m (messages db) /\ msg_room_id m <> rid) /\
         (forall u, check_room_access db' u rid
                    = Raise (HTTP 403 "You are not a member of this room")) /\
         (forall code u mid, upper code = Room_code room ->
            join_room db' code u mid = Raise (HTTP 404 "Room not found"))).
Proof.
  intros st Hreach rid user db.
  pose proof (reachable_Inv st Hreach) as HI.
  split.
  - intros e He.
    assert (H : delete_room db rid user = Raise e)
      by (unfold delete_room; now rewrite He).
    split; [exact H|]. simpl. fold db. now rewrite H.
  - intros role Hacc.
    destruct (check_owner_access_ok _ _ _ _ Hacc) as [c [Hc _]].
    apply find_membership_In in Hc. destruct Hc as [Hcin [Hcr _]].
    pose proof (inv_member_room st HI c Hcin) as Hroom.
    apply in_map_iff in Hroom. destruct Hroom as [room [Hid Hr]].
    assert (Hrid : Room_id room = rid) by congruence.
    assert (Hfind : Query.first (fun r => Room_id r =? rid) (rooms db)
                    = Some room).
    { rewrite <- Hrid. unfold Query.first.
      apply (find_by_unique_key Room_id Z.eqb); auto using Z.eqb_eq.
      apply (inv_room_ids st HI). }
    assert (Hneg : forall a, negb (a =? rid) = true <-> a <> rid).
    { intros a. rewrite negb_true_iff. apply Z.eqb_neq. }
    exists room, (delete_cascade db room).
    split; [assumption|]. split; [assumption|].
    split; [unfold delete_room; rewrite Hacc; simpl; now rewrite Hfind|].
    unfold delete_cascade; simpl; rewrite Hrid.
    split; [|split; [|split; [|split; [|split]]]].
    + intros r. apply delete_In.
    + intros m. rewrite filter_In, Hneg. tauto.
    + intros t. rewrite filter_In, Hneg. tauto.
    + intros m. rewrite filter_In, Hneg. tauto.
    + intros u. apply not_a_member_after. unfold pair_rows. simpl.
      rewrite filter_filter.
      rewrite (filter_ext _ (fun _ => false)); [apply filter_false|].
      intros m. destruct (rm_room_id m =? rid); reflexivity.
    + intros code u mid Hcode. unfold join_room, join_room_with. simpl.
      destruct (Query.first _ (Query.delete _ _ _)) as [r|] eqn:E;
        [|reflexivity].
      unfold Query.first in E. apply find_some in E. destruct E as [Hin Hc].
      apply delete_In in Hin. destruct Hin as [Hin Hne].
      apply String.eqb_eq in Hc. rewrite Hcode in Hc. exfalso. apply Hne.
      assert (r = room); [|congruence].
      revert Hin Hr Hc. generalize (inv_codes st HI). fold db.
      generalize (rooms db). intros l Hnd.
      induction l as [|a l IH]; simpl; [contradiction|].
      inversion Hnd as [|? ? Hnot Hnd']; subst.
      intros [->|H1] [->|H2] Hc; auto.
      * exfalso. apply Hnot. rewrite Hc. now apply in_map.
      * exfalso. apply Hnot. rewrite <- Hc. now apply in_map.
Qed.

Lemma delete_room_takes_the_room_rows_witness :
  reachable demo /\
  exists room db',
    In room (rooms (st_db demo)) /\ Room_id room = 1 /\
    delete_room (st_db demo) 1 7 = Ok (db', "Room deleted").
Proof.
  split; [exact demo_reachable|].
  destruct (proj2 (delete_room_takes_the_room_rows demo demo_reachable 1 7)
              OWNER eq_refl) as [room [db' [Hr [Hid [Hdel _]]]]].
  exists room, db'. auto.
Defined.

(** X11.  In a reachable state, after the owner bans a member, the member
    fails the member check with the 403 ban failure while the owner still
    passes the owner check; unbanning then gives the member their role
    back, and when the member was not banned before, ban followed by unban
    leaves the storage exactly as it was. *)
Theorem ban_then_unban_restores_storage :
  forall st, reachable st -> forall rid target user role m,
    let db := st_db st in
    check_owner_access db user rid = Ok role ->
    find_membership db rid target = Some m ->
    rm_role m <> OWNER ->
    let db_ban :=
      with_room_members db
        (Query.update rm_id (rm_id m) (set_is_banned true) (room_members db)) in
    ban_user db rid target user = Ok (db_ban, "User banned") /\
    check_room_access db_ban target rid
    = Raise (HTTP 403 "You are banned from this room") /\
    check_owner_access db_ban user rid = Ok OWNER /\
    exists db_unban,
      unban_user db_ban rid target user = Ok (db_unban, "User unbanned") /\
      check_room_access db_unban target rid = Ok (rm_role m) /\
      (rm_is_banned m = false -> db_unban = db).
Proof.
  intros st Hreach rid target user role m db Hacc Hf Hrole db_ban.
  pose proof (reachable_Inv st Hreach) as HI.
  pose proof (inv_member_ids st HI) as Hnd. fold db in Hnd.
  pose proof (find_membership_In _ _ _ _ Hf) as [Hin _].
  destruct (check_owner_access_ok _ _ _ _ Hacc) as [c [Hc [Hco Hcb]]].
  pose proof (find_membership_In _ _ _ _ Hc) as [Hcin _].
  assert (Hcm : (rm_id c =? rm_id m) = false).
  { apply Z.eqb_neq. intros Hk. apply Hrole.
    assert (c = m); [|congruence].
    apply (NoDup_key_eq rm_id (room_members db)); auto. }
  assert (Hown : check_owner_access db_ban user rid = Ok OWNER).
  { apply (check_owner_access_intro db_ban user rid c); auto.
    unfold db_ban. rewrite find_membership_after_update, Hc. simpl.
    now rewrite Hcm. }
  assert (Htarget : find_membership db_ban rid target
                    = Some (set_is_banned true m)).
  { unfold db_ban. rewrite find_membership_after_update, Hf. simpl.
    now rewrite Z.eqb_refl. }
  split; [|split; [|split; [exact Hown|]]].
  - unfold ban_user. rewrite Hacc. simpl. rewrite Hf.
    now rewrite (proj2 (UserRole_eqb_neq _ _) Hrole).
  - unfold check_room_access, get_user_room_role.
    rewrite first_is_membership, Htarget. reflexivity.
  - eexists. split; [|split].
    + unfold unban_user. rewrite Hown. simpl. rewrite Htarget. reflexivity.
    + simpl rm_id.
      rewrite (check_room_access_intro _ target rid
                 (set_is_banned false (set_is_banned true m)));
        [reflexivity| |reflexivity].
      rewrite find_membership_after_update, Htarget. simpl.
      now rewrite Z.eqb_refl.
    + intros Hb. simpl rm_id. unfold db_ban. unfold with_room_members. simpl.
      rewrite update_update by reflexivity.
      rewrite update_same; [now destruct db|].
      intros x Hx Hk.
      assert (x = m) by (apply (NoDup_key_eq rm_id (room_members db)); auto).
      subst x. destruct m. simpl in *. now subst.
Qed.

Lemma ban_then_unban_restores_storage_witness :
  reachable demo /\
  check_owner_access (st_db demo) 7 1 = Ok OWNER /\
  find_membership (st_db demo) 1 8 = Some (mkRoomMember 2 1 8 MEMBER false) /\
  exists db_unban,
    unban_user
      (with_room_members (st_db demo)
         (Query.update rm_id 2 (set_is_banned true)
                       (room_members (st_db demo)))) 1 8 7
    = Ok (db_unban, "User unbanned") /\
    db_unban = st_db demo.
Proof.
  split; [exact demo_reachable|]. split; [reflexivity|]. split; [reflexivity|].
  destruct (ban_then_unban_restores_storage demo demo_reachable 1 8 7 OWNER
              (mkRoomMember 2 1 8 MEMBER false) eq_refl eq_refl)
    as [_ [_ [_ [db_unban [Hun [_ Hsame]]]]]]; [discriminate|].
  exists db_unban. split; [exact Hun|]. now apply Hsame.
Defined.

(** ** Tasks of a room *)

Lemma check_room_access_tasks db l uid rid :
  check_room_access (with_tasks db l) uid rid = check_room_access db uid rid.
Proof. reflexivity. Qed.

Lemma find_task_none db rid tid :
  (forall t, In t (tasks db) -> task_id t = tid -> task_room_id t <> rid) ->
  find_task db rid tid = None.
Proof.
  intros H. destruct (find_task db rid tid) as [t|] eqn:E; [|reflexivity].
  apply find_task_In in E. exfalso. apply (H t); tauto.
Qed.

Lemma find_task_after_update db rid tid k data :
  find_task (with_tasks db
               (Query.update task_id k (apply_task_update data) (tasks db)))
            rid tid
  = option_map (fun x => if task_id x =? k then apply_task_update data x else x)
               (find_task db rid tid).
Proof. unfold find_task, Query.first. simpl. now apply find_update. Qed.

(** X12.  [create_task] is refused to a caller who fails the member check.
    For a member it stores the task under the new key, not completed and
    assigned to whatever user id the request names; the task is then found
    under that key, is the last entry of [get_tasks] for the room, and the
    task lists of the other rooms are as before. *)
Theorem create_task_then_listed :
  forall (db : DB) (rid : Z) (data : TaskCreate) (user tid : Z),
    (forall e, check_room_access db user rid = Raise e ->
       create_task db rid data user tid = Raise e) /\
    (forall role, check_room_access db user rid = Ok role ->
       fresh tid (map task_id (tasks db)) = true ->
       let t := mkTask tid rid (Some (tc_title data)) (tc_description data)
                       (Some (tc_assignee_id data)) (Some false) in
       let db' := with_tasks db (tasks db ++ [t]) in
       create_task db rid data user tid = Ok (db', t) /\
       find_task db' rid tid = Some t /\
       (forall l, get_tasks db rid user = Ok l ->
                  get_tasks db' rid user = Ok (l ++ [t])) /\
       (forall rid' u, rid' <> rid ->
                       get_tasks db' rid' u = get_tasks db rid' u)).
Proof.
  intros db rid data user tid. split.
  - intros e He. unfold create_task. now rewrite He.
  - intros role Hacc Hfresh t db'. apply fresh_not_in in Hfresh.
    unfold db'. split; [|split; [|split]].
    + unfold create_task. rewrite Hacc. reflexivity.
    + unfold find_task, Query.first. simpl. apply find_snoc_new.
      * destruct (filter _ (tasks db)) as [|x l] eqn:E; [reflexivity|].
        assert (Hx : In x (filter
                             (fun t0 => (task_id t0 =? tid)
                                        && (task_room_id t0 =? rid))
                             (tasks db))) by (rewrite E; now left).
        apply filter_In in Hx. destruct Hx as [Hx Hp].
        apply andb_true_iff in Hp. destruct Hp as [Hp _].
        apply Z.eqb_eq in Hp. exfalso. apply Hfresh. rewrite <- Hp.
        now apply in_map.
      * simpl. now rewrite !Z.eqb_refl.
    + unfold get_tasks. rewrite check_room_access_tasks, Hacc. simpl.
      intros l H. injection H as <-. unfold Query.all.
      rewrite filter_app. simpl. now rewrite Z.eqb_refl.
    + intros rid' u Hne. unfold get_tasks.
      rewrite check_room_access_tasks.
      destruct (check_room_access db u rid'); simpl; [|reflexivity].
      unfold Query.all. rewrite filter_app. simpl.
      assert ((rid =? rid') = false) as -> by (apply Z.eqb_neq; congruence).
      now rewrite app_nil_r.
Qed.

Lemma create_task_then_listed_witness :
  check_room_access (st_db demo) 8 1 = Ok MEMBER /\
  fresh 3 (map task_id (tasks (st_db demo))) = true /\
  find_task
    (with_tasks (st_db demo)
       (tasks (st_db demo)
          ++ [mkTask 3 1 (Some "shop") None (Some 99) (Some false)])) 1 3
  = Some (mkTask 3 1 (Some "shop") None (Some 99) (Some false)).
Proof.
  split; [reflexivity|]. split; [reflexivity|].
  apply (proj2 (create_task_then_listed (st_db demo) 1
                  (mkTaskCreate "shop" None 99) 8 3) MEMBER eq_refl eq_refl).
Defined.

(** X13.  A successful [update_task] rewrites the task it found and
    nothing else: the task keeps its key and its room, is found again
    under them with the new field values, every task with another key is
    still stored, the number of tasks is the same, and rooms, memberships
    and messages are untouched. *)
Theorem update_task_rewrites_one_task :
  forall (db : DB) (rid tid : Z) (data : TaskUpdate) (user : Z)
         (db' : DB) (t' : Task),
    update_task db rid tid data user = Ok (db', t') ->
    exists task,
      find_task db rid tid = Some task /\
      t' = apply_task_update data task /\
      task_id t' = tid /\ task_room_id t' = rid /\
      find_task db' rid tid = Some t' /\
      List.length (tasks db') = List.length (tasks db) /\
      (forall x, In x (tasks db) -> task_id x <> tid -> In x (tasks db')) /\
      rooms db' = rooms db /\ room_members db' = room_members db /\
      messages db' = messages db.
Proof.
  intros db rid tid data user db' t' Hok.
  apply update_task_done in Hok.
  destruct Hok as [role [task [_ [Hf [_ [-> ->]]]]]].
  pose proof (find_task_In _ _ _ _ Hf) as [Hin [Hid Hroom]].
  exists task. split; [exact Hf|]. split; [reflexivity|].
  split; [exact Hid|]. split; [exact Hroom|].
  split; [|split; [|split; [|auto]]].
  - rewrite find_task_after_update, Hf. simpl. now rewrite Z.eqb_refl.
  - simpl. apply update_length.
  - intros x Hx Hne. simpl. unfold Query.update. apply in_map_iff.
    exists x. split; [|assumption].
    assert ((task_id x =? task_id task) = false) as ->
      by (apply Z.eqb_neq; congruence).
    reflexivity.
Qed.

Lemma update_task_rewrites_one_task_witness :
  exists db' t',
    update_task (st_db demo) 1 1 (mkTaskUpdate None None None (Some (Some true))) 8
    = Ok (db', t') /\
    find_task db' 1 1 = Some t'.
Proof.
  eexists. eexists. split; [reflexivity|].
  destruct (update_task_rewrites_one_task (st_db demo) 1 1
              (mkTaskUpdate None None None (Some (Some true))) 8 _ _ eq_refl)
    as [task [_ [_ [_ [_ [H _]]]]]].
  exact H.
Defined.

(** X14.  A plain member who reassigns their own task to someone else (or
    to nobody) can do so, and thereby loses the right to edit or delete
    it: the next update or delete by the same member fails with 403. *)
Theorem member_gives_task_away :
  forall (db : DB) (rid tid user : Z) (task : Task) (data : TaskUpdate)
         (assignee : option Z),
    check_room_access db user rid = Ok MEMBER ->
    find_task db rid tid = Some task ->
    task_assignee_id task = Some user ->
    tu_assignee_id data = Some assignee -> assignee <> Some user ->
    exists db',
      update_task db rid tid data user = Ok (db', apply_task_update data task) /\
      (forall data2,
         update_task db' rid tid data2 user
         = Raise (HTTP 403 "Can only edit your own tasks")) /\
      delete_task db' rid tid user
      = Raise (HTTP 403 "Can only delete your own tasks").
Proof.
  intros db rid tid user task data assignee Hacc Hf Hmine Hset Hother.
  assert (Hown : not_own_task MEMBER task user = false).
  { unfold not_own_task. rewrite Hmine. simpl. now rewrite Z.eqb_refl. }
  assert (Hnot : not_own_task MEMBER (apply_task_update data task) user = true).
  { unfold not_own_task, apply_task_update. simpl. rewrite Hset. simpl.
    destruct assignee as [a|]; [|reflexivity].
    destruct (a =? user) eqn:E; [|reflexivity].
    apply Z.eqb_eq in E. congruence. }
  eexists. split; [|split].
  - unfold update_task. rewrite Hacc. simpl. now rewrite Hf, Hown.
  - intros data2. unfold update_task.
    rewrite check_room_access_tasks, Hacc. simpl.
    rewrite find_task_after_update, Hf. simpl.
    now rewrite Z.eqb_refl, Hnot.
  - unfold delete_task. rewrite check_room_access_tasks, Hacc. simpl.
    rewrite find_task_after_update, Hf. simpl.
    now rewrite Z.eqb_refl, Hnot.
Qed.

Lemma member_gives_task_away_witness :
  check_room_access (st_db demo) 8 1 = Ok MEMBER /\
  exists db',
    update_task (st_db demo) 1 1 (mkTaskUpdate None None (Some (Some 7)) None) 8
    = Ok (db', mkTask 1 1 (Some "dishes") None (Some 7) (Some false)) /\
    delete_task db' 1 1 8 = Raise (HTTP 403 "Can only delete your own tasks").
Proof.
  split; [reflexivity|].
  destruct (member_gives_task_away (st_db demo) 1 1 8
              (mkTask 1 1 (Some "dishes") None (Some 8) (Some false))
              (mkTaskUpdate None None (Some (Some 7)) None) (Some 7)
              eq_refl eq_refl eq_refl eq_refl)
    as [db' [Hupd [_ Hdel]]]; [discriminate|].
  exists db'. split; [exact Hupd|exact Hdel].
Defined.

(** X15.  An update that sets no field is checked like any other update
    and, when it is allowed, returns the task as it is and leaves the
    storage as it is. *)
Theorem update_task_without_fields :
  forall (db : DB) (rid tid user : Z) (role : UserRole) (task : Task),
    check_room_access db user rid = Ok role ->
    find_task db rid tid = Some task ->
    let nothing := mkTaskUpdate None None None None in
    (not_own_task role task user = true ->
       update_task db rid tid nothing user
       = Raise (HTTP 403 "Can only edit your own tasks")) /\
    (not_own_task role task user = false ->
       update_task db rid tid nothing user = Ok (db, task)).
Proof.
  intros db rid tid user role task Hacc Hf nothing.
  unfold update_task. rewrite Hacc. simpl. rewrite Hf. split; intros ->.
  - reflexivity.
  - assert (Hid : forall t, apply_task_update nothing t = t)
      by (intros t; now destruct t).
    rewrite Hid. rewrite update_same by (intros; apply Hid).
    now destruct db.
Qed.

Lemma update_task_without_fields_witness :
  check_room_access (st_db demo) 7 1 = Ok OWNER /\
  update_task (st_db demo) 1 1 (mkTaskUpdate None None None None) 7
  = Ok (st_db demo, mkTask 1 1 (Some "dishes") None (Some 8) (Some false)).
Proof.
  split; [reflexivity|].
  apply (proj2 (update_task_without_fields (st_db demo) 1 1 7 OWNER
                  (mkTask 1 1 (Some "dishes") None (Some 8) (Some false))
                  eq_refl eq_refl)).
  reflexivity.
Defined.

(** X16.  In a reachable state a successful [delete_task] removes exactly
    one task, the one with the given key; afterwards the key is not found
    in the room, so an update or a second delete by any member fails with
    404. *)
Theorem delete_task_removes_the_task :
  forall st, reachable st -> forall rid tid user db' msg,
    let db := st_db st in
    delete_task db rid tid user = Ok (db', msg) ->
    S (List.length (tasks db')) = List.length (tasks db) /\
    (forall x, In x (tasks db') <-> In x (tasks db) /\ task_id x <> tid) /\
    find_task db' rid tid = None /\
    (forall u role, check_room_access db u rid = Ok role ->
       (forall data, update_task db' rid tid data u
                     = Raise (HTTP 404 "Task not found")) /\
       delete_task db' rid tid u = Raise (HTTP 404 "Task not found")).
Proof.
  intros st Hreach rid tid user db' msg db Hok.
  pose proof (reachable_Inv2 st Hreach) as HJ.
  apply delete_task_done in Hok. destruct Hok as [role [task [_ [Hf [_ ->]]]]].
  pose proof (find_task_In _ _ _ _ Hf) as [Hin [Hid _]].
  assert (Hnone : find_task
                    (with_tasks db
                       (Query.delete task_id (task_id task) (tasks db)))
                    rid tid = None).
  { apply find_task_none. simpl. intros t Ht Hk.
    apply delete_In in Ht. exfalso. destruct Ht as [_ Hne]. congruence. }
  split; [|split; [|split; [exact Hnone|]]].
  - simpl. apply delete_length_one; [apply (inv_task_ids st HJ)|assumption].
  - intros x. simpl. rewrite delete_In, Hid. tauto.
  - intros u r Hacc. split.
    + intros data. unfold update_task.
      rewrite check_room_access_tasks. fold db. rewrite Hacc. simpl.
      now rewrite Hnone.
    + unfold delete_task.
      rewrite check_room_access_tasks. fold db. rewrite Hacc. simpl.
      now rewrite Hnone.
Qed.

Lemma delete_task_removes_the_task_witness :
  reachable demo /\
  exists db' msg,
    delete_task (st_db demo) 1 1 8 = Ok (db', msg) /\
    find_task db' 1 1 = None.
Proof.
  split; [exact demo_reachable|].
  eexists. eexists. split; [reflexivity|].
  apply (proj1 (proj2 (proj2 (delete_task_removes_the_task demo demo_reachable
                                1 1 8 _ _ eq_refl)))).
Defined.

(** X17.  Tasks are reached only through their own room: [get_tasks]
    returns exactly the tasks of the room asked for, and a task key that
    belongs to another room gives 404 on update and on delete, whatever
    the caller's role in the room named in the request. *)
Theorem tasks_stay_in_their_room :
  forall (db : DB) (rid tid user : Z) (role : UserRole),
    check_room_access db user rid = Ok role ->
    (exists l, get_tasks db rid user = Ok l /\
               forall t, In t l <-> In t (tasks db) /\ task_room_id t = rid) /\
    ((forall t, In t (tasks db) -> task_id t = tid -> task_room_id t <> rid) ->
       (forall data, update_task db rid tid data user
                     = Raise (HTTP 404 "Task not found")) /\
       delete_task db rid tid user = Raise (HTTP 404 "Task not found")).
Proof.
  intros db rid tid user role Hacc. split.
  - unfold get_tasks. rewrite Hacc. simpl. eexists. split; [reflexivity|].
    intros t. unfold Query.all. rewrite filter_In, Z.eqb_eq. tauto.
  - intros Hother. pose proof (find_task_none db rid tid Hother) as Hnone.
    split.
    + intros data. unfold update_task. rewrite Hacc. simpl. now rewrite Hnone.
    + unfold delete_task. rewrite Hacc. simpl. now rewrite Hnone.
Qed.

Lemma tasks_stay_in_their_room_witness :
  check_room_access (st_db demo) 7 1 = Ok OWNER /\
  exists l, get_tasks (st_db demo) 1 7 = Ok l /\
            forall t, In t l <-> In t (tasks (st_db demo)) /\ task_room_id t = 1.
Proof.
  split; [reflexivity|].
  exact (proj1 (tasks_stay_in_their_room (st_db demo) 1 1 7 OWNER eq_refl)).
Defined.

(** ** Messages of a room *)

Lemma poll_query_In db rid last m :
  In m (poll_query db rid last) <->
  In m (messages db) /\ msg_room_id m = rid /\ (0 < last -> last < msg_id m).
Proof.
  unfold poll_query, Query.all.
  split.
  - intros H.
    apply (Permutation_in _ (order_by_asc_perm msg_created_at _)) in H.
    destruct (last >? 0) eqn:E.
    + apply filter_In in H. destruct H as [H Hid].
      apply filter_In in H. destruct H as [H Hroom].
      apply Z.eqb_eq in Hroom. apply Z.gtb_lt in Hid. auto.
    + apply filter_In in H. destruct H as [H Hroom].
      apply Z.eqb_eq in Hroom. split; [assumption|]. split; [assumption|].
      intros Hpos. apply Z.gtb_lt in Hpos. congruence.
  - intros [Hin [Hroom Hid]].
    apply (Permutation_in _ (Permutation_sym (order_by_asc_perm msg_created_at _))).
    assert (Hr : In m (filter (in_room rid) (messages db))).
    { apply filter_In. split; [assumption|]. now apply Z.eqb_eq. }
    destruct (last >? 0) eqn:E; [|exact Hr].
    apply filter_In. split; [exact Hr|].
    apply Z.gtb_lt. apply Hid. now apply Z.gtb_lt.
Qed.


Lemma order_by_desc_newest {A : Type} (key : A -> Z) (l : list A) (x : A) :
  (forall y, In y l -> key y < key x) ->
  Query.order_by_desc key (l ++ [x]) = x :: Query.order_by_desc key l.
Proof.
  induction l as [|a l IH]; simpl; intros H; [reflexivity|].
  rewrite IH by (intros y Hy; apply H; now right). simpl.
  assert ((key x <=? key a) = false) as ->; [|reflexivity].
  apply Z.leb_gt. apply H. now left.
Qed.



(** X19.  A message sent by a member is stored in the room under the
    sender's id and is delivered at once: a poll by any member whose
    cursor is 0 or below the new id returns in its first round with a list
    that contains the message, whatever the timeout, and when the message
    is newer than all other messages of the room it is the last entry of a
    plain fetch with a limit of at least one. *)
Theorem create_message_then_delivered :
  forall (db : DB) (rid : Z) (content : string) (user mid now : Z)
         (role : UserRole),
    check_room_access db user rid = Ok role ->
    let m := mkMessage mid rid user content now in
    let db' := with_messages db (messages db ++ [m]) in
    create_message db rid content user mid now = Ok (db', m) /\
    (forall last timeout reader rrole start clock later,
       check_room_access db reader rid = Ok rrole ->
       last <= 0 \/ last < mid ->
       exists found,
         poll_messages db' rid last timeout reader start ((db', clock) :: later)
         = Ok (Some found) /\
         In m found) /\
    (forall limit reader rrole,
       check_room_access db reader rid = Ok rrole ->
       1 <= limit ->
       (forall x, In x (messages db) -> msg_room_id x = rid ->
                  msg_created_at x < now) ->
       exists earlier,
         get_messages db' rid limit reader = Ok (earlier ++ [m])).
Proof.
  intros db rid content user mid now role Hacc m db'.
  split; [|split].
  - unfold create_message. rewrite Hacc. reflexivity.
  - intros last timeout reader rrole start clock later Hreader Hcursor.
    assert (Hm : In m (poll_query db' rid last)).
    { apply poll_query_In. unfold db', m. simpl.
      split; [apply in_or_app; right; now left|].
      split; [reflexivity|]. lia. }
    exists (poll_query db' rid last). split; [|exact Hm].
    rewrite (poll_messages_member db' _ _ _ _ _ _ rrole) by exact Hreader.
    rewrite poll_loop_found; [reflexivity|].
    intros Hnil. rewrite Hnil in Hm. contradiction.
  - intros limit reader rrole Hreader Hlimit Hnewest.
    unfold get_messages.
    assert (Hacc' : check_room_access db' reader rid = Ok rrole)
      by exact Hreader.
    rewrite Hacc'. simpl. unfold Query.all, db'. simpl.
    rewrite filter_app. simpl. unfold in_room at 2. simpl.
    rewrite Z.eqb_refl.
    rewrite order_by_desc_newest.
    + unfold Query.limit.
      destruct (Z.to_nat limit) as [|n] eqn:E; [lia|]. simpl.
      eexists. reflexivity.
    + intros y Hy. apply filter_In in Hy. destruct Hy as [Hy Hroom].
      apply Z.eqb_eq in Hroom. simpl. now apply Hnewest.
Qed.

Lemma create_message_then_delivered_witness :
  check_room_access (st_db demo) 8 1 = Ok MEMBER /\
  create_message (st_db demo) 1 "four" 8 4 40
  = Ok (with_messages (st_db demo)
          (messages (st_db demo) ++ [mkMessage 4 1 8 "four" 40]),
        mkMessage 4 1 8 "four" 40).
Proof.
  split; [reflexivity|].
  apply (proj1 (create_message_then_delivered (st_db demo) 1 "four" 8 4 40
                  MEMBER eq_refl)).
Defined.

(** X20.  A poll checks access once, at entry: a caller who fails the
    member check gets that failure at once, whatever the rounds would
    bring, and for a caller who passed it the outcome does not depend on
    the memberships in the storage that the later rounds see, so it is the
    same even when every membership row is gone by then. *)
Theorem poll_checks_access_at_entry_only :
  forall (db : DB) (rid last timeout user : Z) (start : Q),
    (forall e, check_room_access db user rid = Raise e ->
       forall rounds,
         poll_messages db rid last timeout user start rounds = Raise e) /\
    (forall rounds,
       poll_messages db rid last timeout user start
         (map (fun round => (with_room_members (fst round) [], snd round))
              rounds)
       = poll_messages db rid last timeout user start rounds).
Proof.
  intros db rid last timeout user start. split.
  - intros e He rounds. unfold poll_messages. now rewrite He.
  - intros rounds. unfold poll_messages.
    destruct (check_room_access db user rid); simpl; [|reflexivity].
    f_equal. induction rounds as [|[d t] rounds IH]; simpl; [reflexivity|].
    change (poll_query (with_room_members d []) rid last)
      with (poll_query d rid last).
    destruct (truthy (poll_query d rid last)); [reflexivity|].
    destruct (Qle_bool _ _); [reflexivity|exact IH].
Qed.

Lemma poll_checks_access_at_entry_only_witness :
  check_room_access (st_db demo) 9 1
  = Raise (HTTP 403 "You are banned from this room") /\
  poll_messages (st_db demo) 1 0 25 9 0 [(st_db demo, 0%Q)]
  = Raise (HTTP 403 "You are banned from this room").
Proof.
  split; [reflexivity|].
  apply (proj1 (poll_checks_access_at_entry_only (st_db demo) 1 0 25 9 0)
           _ eq_refl).
Defined.

(** ** Listing the members of a room *)



(** ** The code generator under collisions *)

Lemma generate_room_code_from_busy rng db len :
  forall fuel pos,
    (forall i, (i < fuel)%nat ->
       code_taken db (candidate rng len (pos + i * Z.to_nat len)) = true) ->
    generate_room_code_from fuel rng db len pos = None.
Proof.
  induction fuel as [|fuel IH]; intros pos Hbusy; simpl; [reflexivity|].
  pose proof (Hbusy 0%nat ltac:(lia)) as H0. simpl in H0.
  rewrite Nat.add_0_r in H0. rewrite H0.
  apply IH. intros i Hi. specialize (Hbusy (S i) ltac:(lia)). simpl in Hbusy.
  now replace (pos + Z.to_nat len + i * Z.to_nat len)%nat
    with (pos + (Z.to_nat len + i * Z.to_nat len))%nat by lia.
Qed.

(** X22.  The code generator has no retry cap: as long as every candidate
    drawn so far is the code of a stored room, the loop is still running,
    however many rounds it has made.  In particular, with a requested
    length of zero or less the only candidate is the empty code, and once
    a room has it the loop never ends. *)
Theorem generate_room_code_never_gives_up :
  forall (rng : nat -> nat) (db : DB) (len : Z) (fuel : nat),
    ((forall i, (i < fuel)%nat ->
        code_taken db (candidate rng len (i * Z.to_nat len)) = true) ->
     generate_room_code fuel rng db len = None) /\
    (len <= 0 -> code_taken db "" = true ->
     generate_room_code fuel rng db len = None).
Proof.
  intros rng db len fuel. split.
  - intros Hbusy. unfold generate_room_code.
    now apply generate_room_code_from_busy.
  - intros Hlen Htaken. unfold generate_room_code.
    apply generate_room_code_from_busy. intros i _.
    unfold candidate, random_choices.
    replace (Z.to_nat len) with 0%nat by lia. exact Htaken.
Qed.

Lemma generate_room_code_never_gives_up_witness :
  generate_room_code 1 colliding_rng colliding_db 6 = None.
Proof.
  apply (proj1 (generate_room_code_never_gives_up
                  colliding_rng colliding_db 6 1)).
  intros i Hi. assert (i = 0%nat) as -> by lia. reflexivity.
Defined.
